(** * RP1 clock driver (drivers/clk/clk-rp1.c): a shallow embedding

    The driver is built for arm64 (see compile.sh), so [unsigned long] and
    [u64] are 64-bit, [u32] and [unsigned int] are 32-bit and [int] is a
    32-bit two's complement integer (the kernel is built with wrapping
    signed arithmetic).  Machine integers are modelled as [Z] with the
    wrap-around written out. *)

From Stdlib Require Import ZArith Lia List Bool.
From stdpp Require Import base gmap list strings.

Local Open Scope Z_scope.

(** ** Machine integers *)

Module Int.

Definition u8 (x : Z) : Z := x mod 2 ^ 8.
Definition u32 (x : Z) : Z := x mod 2 ^ 32.
Definition u64 (x : Z) : Z := x mod 2 ^ 64.
(** [int]: 32-bit two's complement, wrapping. *)
Definition s32 (x : Z) : Z := (x + 2 ^ 31) mod 2 ^ 32 - 2 ^ 31.
(** [long]: 64-bit two's complement. *)
Definition s64 (x : Z) : Z := (x + 2 ^ 63) mod 2 ^ 64 - 2 ^ 63.

Definition ULONG_MAX : Z := 2 ^ 64 - 1.

Definition BIT (n : Z) : Z := Z.shiftl 1 n.

(** [clamp(val, lo, hi)] of linux/minmax.h: [min(max(val, lo), hi)]. *)
Definition clamp (val lo hi : Z) : Z := Z.min (Z.max val lo) hi.

End Int.
Export Int.

(** ** Arithmetic macros of the driver *)

(** [#define ABS_DIFF(a, b) ((a) > (b) ? (a) - (b) : (b) - (a))], used on
    [unsigned long] operands. *)
Definition ABS_DIFF (a b : Z) : Z := if b <? a then u64 (a - b) else u64 (b - a).

(** [#define DIV_NEAREST(a, b) (((a) + ((b) >> 1)) / (b))], with [a] an
    [unsigned long] and [b] an [int] converted to [unsigned long]. *)
Definition DIV_NEAREST (a b : Z) : Z := u64 (a + Z.shiftr b 1) / u64 b.

(** Modelled from the spec: the kernel helper [div_u64] (linux/math64.h) is
    not part of the sources; it divides a 64-bit dividend by a divisor that
    its prototype takes as a [u32].  A zero divisor traps: [None]. *)
Definition div_u64 (dividend divisor : Z) : option Z :=
  if u32 divisor =? 0 then None else Some (dividend / u32 divisor).

(** [#define DIV_U64_NEAREST(a, b) div_u64(((a) + ((b) >> 1)), (b))]. *)
Definition DIV_U64_NEAREST (a b : Z) : option Z :=
  div_u64 (u64 (a + Z.shiftr b 1)) b.

(** Modelled from the spec: the kernel macro [DIV_ROUND_CLOSEST]
    (linux/math.h) is not part of the sources; the spec reads it as division
    rounded to nearest, which for unsigned operands the kernel computes as
    [(x + d / 2) / d] in the type of [x] ([unsigned long] here). *)
Definition DIV_ROUND_CLOSEST (x d : Z) : Z := u64 (x + d / 2) / d.

(** Modelled from the spec: the kernel macro [DIV_ROUND_UP_ULL]
    (linux/math.h) is not part of the sources; the spec reads it as
    [ceil(ll / d)], computed on [unsigned long long] with a divisor that the
    kernel's [do_div] takes as a [u32].  A zero divisor traps: [None]. *)
Definition DIV_ROUND_UP_ULL (ll d : Z) : option Z :=
  if u32 d =? 0 then None else Some (u64 (ll + d - 1) / u32 d).

(** ** Pll node: the primary divider search *)

(** [calc_rate] and [rate_diff] are declared [long], but every comparison
    they enter has an [unsigned long] on the other side, so they are compared
    as [unsigned long]. *)

(** Loop order of [for (div1 = 1; div1 <= 7; div1++)
    for (div2 = 1; div2 <= div1; div2++)]. *)
Definition prim_pairs : list (Z * Z) :=
  flat_map (fun d1 => map (fun d2 => (Z.of_nat d1, Z.of_nat d2)) (seq 1 d1))
           (seq 1 7).

Record prim_best := PrimBest {
  best_div1 : Z;
  best_div2 : Z;
  prim_rate_diff : Z  (* best_rate_diff *)
}.

(** The loop body; [inr] is [goto done]. *)
Definition prim_step (rate parent_rate : Z) (b : prim_best) (p : Z * Z)
  : prim_best + prim_best :=
  let '(div1, div2) := p in
  let calc_rate := DIV_ROUND_CLOSEST parent_rate (u32 (div1 * div2)) in
  let rate_diff := ABS_DIFF calc_rate rate in
  if calc_rate =? rate then inr (PrimBest div1 div2 (prim_rate_diff b))
  else if rate_diff <? prim_rate_diff b then inl (PrimBest div1 div2 rate_diff)
  else inl b.

Fixpoint prim_loop (rate parent_rate : Z) (b : prim_best) (ps : list (Z * Z))
  : prim_best :=
  match ps with
  | [] => b
  | p :: ps' =>
      match prim_step rate parent_rate b p with
      | inr b' => b'
      | inl b' => prim_loop rate parent_rate b' ps'
      end
  end.

Definition get_pll_prim_dividers (rate parent_rate : Z) : Z * Z :=
  let b0 := PrimBest 7 7
              (ABS_DIFF (DIV_ROUND_CLOSEST parent_rate (u32 (7 * 7))) rate) in
  let b := prim_loop rate parent_rate b0 prim_pairs in
  (best_div1 b, best_div2 b).


(** ** PllCore node: the feedback divisor *)

(** [get_pll_core_divider]: returns [(calc_rate, fbdiv_int, fbdiv_frac)];
    [None] when the division traps. *)
Definition get_pll_core_divider (rate parent_rate : Z) : option (Z * Z * Z) :=
  (* div_fp64 = (u64)(rate) << 32; *)
  let div_fp64 := u64 (Z.shiftl rate 32) in
  (* div_fp64 = DIV_U64_NEAREST(div_fp64, parent_rate); *)
  match DIV_U64_NEAREST div_fp64 parent_rate with
  | None => None
  | Some div_fp64 =>
      (* Round the fractional component at 24 bits. *)
      let div_fp64 := u64 (div_fp64 + Z.shiftl 1 (32 - 24 - 1)) in
      let fbdiv_int := u32 (Z.shiftr div_fp64 32) in
      let fbdiv_frac := u32 (Z.land (Z.shiftr div_fp64 (32 - 24)) 0xffffff) in
      let calc_rate :=
        Z.shiftr
          (u64 (u64 (parent_rate * u64 (u64 (Z.shiftl fbdiv_int 24) + fbdiv_frac))
                + Z.shiftl 1 23))
          24 in
      Some (calc_rate, fbdiv_int, fbdiv_frac)
  end.

(** ** Clock node: the divider choice *)

Definition CLK_DIV_FRAC_BITS : Z := 16.
Definition DIV_INT_8BIT_MAX : Z := 0x000000ff.
Definition DIV_INT_16BIT_MAX : Z := 0x0000ffff.
Definition DIV_INT_24BIT_MAX : Z := 0x00ffffff.
Definition KHz : Z := 1000.
Definition MHz : Z := KHz * KHz.
Definition MAX_CLK_PARENTS : Z := 16.
Definition AUX_SEL : Z := 1.

Record rp1_clock_data := {
  name : string;
  parents : list string;
  num_std_parents : Z;
  num_aux_parents : Z;
  flags : Z;
  oe_mask : Z;
  clk_src_mask : Z;
  ctrl_reg : Z;
  div_int_reg : Z;
  div_frac_reg : Z;
  sel_reg : Z;
  div_int_max : Z;
  max_freq : Z;
  fc0_src : Z
}.

(** [rp1_clock_choose_div]: the divider in 16.16 fixed point, returned as a
    [u32]; [Some 0] is the driver's "no divider", [None] a trapping
    division. *)
Definition rp1_clock_choose_div (rate parent_rate : Z) (data : rp1_clock_data)
  : option Z :=
  if (rate =? 0)
     || (u64 (parent_rate + Z.shiftr parent_rate CLK_DIV_FRAC_BITS) <? rate)
  then Some 0
  else
    let div :=
      if negb (div_frac_reg data =? 0) then
        DIV_U64_NEAREST (u64 (Z.shiftl parent_rate CLK_DIV_FRAC_BITS)) rate
      else
        match DIV_U64_NEAREST parent_rate rate with
        | Some d => Some (u64 (Z.shiftl d CLK_DIV_FRAC_BITS))
        | None => None
        end in
    match div with
    | None => None
    | Some div =>
        let div := clamp div (Z.shiftl 1 CLK_DIV_FRAC_BITS)
                     (Z.shiftl (div_int_max data) CLK_DIV_FRAC_BITS) in
        Some (u32 div)
    end.

(** ** The coordinated PLL-chain retune *)

Definition prim_divs : list Z :=
  [2; 3; 4; 5; 6; 7; 8; 9; 10; 12; 14; 15; 16;
   18; 20; 21; 24; 25; 28; 30; 35; 36; 42; 49].

Definition core_max : Z := 2400000000.

(** Inner loop [for (div_clk = 1; div_clk <= 256; div_clk++)]: the first
    [div_clk] whose [core_rate] reaches [core_min], with that rate. *)
Fixpoint first_div_clk (target_rate core_min div_prim : Z) (div_clks : list Z)
  : option (Z * Z) :=
  match div_clks with
  | [] => None
  | div_clk :: rest =>
      let core_rate := u64 (u64 (target_rate * div_clk) * div_prim) in
      if core_min <=? core_rate then Some (div_clk, core_rate)
      else first_div_clk target_rate core_min div_prim rest
  end.

Definition div_clks : list Z := map Z.of_nat (seq 1 256).

(** Outer loop over [prim_divs]; the state is
    [(best_rate, best_div_prim, best_div_clk)]. *)
Fixpoint core_pll_search (target_rate core_min : Z) (best : Z * Z * Z)
    (prims : list Z) : Z * Z * Z :=
  match prims with
  | [] => best
  | div_prim :: rest =>
      let best' :=
        match first_div_clk target_rate core_min div_prim div_clks with
        | Some (div_clk, core_rate) =>
            if core_rate <? fst (fst best) then (core_rate, div_prim, div_clk)
            else best
        | None => best
        end in
      core_pll_search target_rate core_min best' rest
  end.

(** [calc_core_pll_rate]: returns [(core_rate, *pdiv_prim, *pdiv_clk)];
    [xosc_rate] is [clk_hw_get_rate(clk_xosc)].  [None] is a division by a
    zero [xosc_rate]. *)
Definition calc_core_pll_rate (xosc_rate target_rate : Z) : option (Z * Z * Z) :=
  let core_min := u64 (xosc_rate * 16) in
  let '(best_rate, best_div_prim, best_div_clk) :=
    core_pll_search target_rate core_min (core_max + 1, 1, 1) prim_divs in
  if best_rate <? core_max then
    if xosc_rate =? 0 then None
    else
      let div := u64 (u64 (Z.shiftl best_rate 24) + xosc_rate / 2) / xosc_rate in
      let div_int := s32 (Z.shiftr div 24) in
      let div_frac := s32 (div mod Z.shiftl 1 24) in
      let core_rate :=
        Z.shiftr
          (u64 (u64 (xosc_rate * u64 (s32 (s32 (Z.shiftl div_int 24) + div_frac)))
                + Z.shiftl 1 23))
          24 in
      Some (core_rate, best_div_prim, best_div_clk)
  else Some (0, best_div_prim, best_div_clk).


(** ** The register window and its lock

    [rp1_clockman] holds the register window and the spinlock.  The model
    keeps the last value written at each offset ([regs]), every [writel] in
    order ([wlog], most recent first) and the number of clock samples taken
    ([now]).  The hardware is a parameter: [ktime n] is what the [n]-th
    [ktime_get()] returns, and [hw_status n reg] is the value the hardware
    drives on register [reg] once [n] samples have been taken ([None]: the
    register reads back what was last written). *)

(** A [struct clk_hw] is identified by a number; a [struct clk_hw *] is an
    [option clk_hw], [None] being [NULL]. *)
Definition clk_hw := nat.

Inductive fault :=
| Deadlock      (* spin_lock on a lock that is already held *)
| Bug           (* BUG_ON fired *)
| DivideByZero  (* a trapping division *)
| OutOfFuel.    (* a polling loop was still running when the budget ended *)

Record rp1_clockman := Clockman {
  regs : gmap Z Z;
  regs_lock : bool;
  wlog : list (Z * Z);
  now : nat
}.

Inductive outcome (A : Type) :=
| Ok (a : A) (c : rp1_clockman)
| Fault (f : fault).
Arguments Ok {A} a c.
Arguments Fault {A} f.

Definition M (A : Type) : Type := rp1_clockman -> outcome A.

Definition ret {A} (a : A) : M A := fun c => Ok a c.
Definition bind {A B} (m : M A) (k : A -> M B) : M B :=
  fun c => match m c with
           | Ok a c' => k a c'
           | Fault f => Fault f
           end.

Notation "'do' x <~ m ; k" := (bind m (fun x => k))
  (at level 10, x name, m at level 100, k at level 200).
Notation "m ;; k" := (bind m (fun _ => k))
  (at level 100, k at level 200, right associativity).

Definition fail {A} (f : fault) : M A := fun _ => Fault f.

Definition spin_lock : M unit :=
  fun c => if regs_lock c then Fault Deadlock
           else Ok tt (Clockman (regs c) true (wlog c) (now c)).

Definition spin_unlock : M unit :=
  fun c => Ok tt (Clockman (regs c) false (wlog c) (now c)).

Definition BUG_ON (cond : bool) : M unit :=
  if cond then fail Bug else ret tt.

(** [set_register_field] on [u32] operands. *)
Definition set_register_field (reg val mask shift : Z) : Z :=
  let reg := Z.land reg (u32 (Z.lnot mask)) in
  Z.lor reg (Z.land (u32 (Z.shiftl val shift)) mask).

(** Flags of linux/clk-provider.h and error numbers used by the driver. *)
Definition CLK_SET_RATE_PARENT : Z := BIT 2.
Definition CLK_IGNORE_UNUSED : Z := BIT 3.
Definition CLK_SET_RATE_NO_REPARENT : Z := BIT 7.
Definition EINVAL : Z := 22.
Definition ETIMEDOUT : Z := 110.

Definition LOCK_TIMEOUT_NS : Z := 100000000.
Definition FC_TIMEOUT_NS : Z := 100000000.

Definition GPCLK_OE_CTRL : Z := 0x00000.
Definition FC0_REF_KHZ : Z := 0x0021c.
Definition FC0_MIN_KHZ : Z := 0x00220.
Definition FC0_MAX_KHZ : Z := 0x00224.
Definition FC0_DELAY : Z := 0x00228.
Definition FC0_INTERVAL : Z := 0x0022c.
Definition FC0_SRC : Z := 0x00230.
Definition FC0_STATUS : Z := 0x00234.
Definition FC0_RESULT : Z := 0x00238.
Definition FC_SIZE : Z := 0x20.
Definition FC_COUNT : Z := 8.
Definition FC_NUM (idx off : Z) : Z := idx * 32 + off.
Definition FC0_STATUS_DONE : Z := BIT 4.
Definition FC0_STATUS_RUNNING : Z := BIT 8.

Definition PLL_PRIM_DIV1_SHIFT : Z := 16.
Definition PLL_PRIM_DIV1_MASK : Z := 0x00070000.
Definition PLL_PRIM_DIV2_SHIFT : Z := 12.
Definition PLL_PRIM_DIV2_MASK : Z := 0x00007000.
Definition PLL_SEC_DIV_SHIFT : Z := 8.
Definition PLL_SEC_DIV_WIDTH : Z := 5.
Definition PLL_SEC_DIV_MASK : Z := 0x00001f00.
Definition PLL_CS_LOCK : Z := BIT 31.
Definition PLL_CS_REFDIV_SHIFT : Z := 0.
Definition PLL_PWR_PD : Z := BIT 0.
Definition PLL_PWR_DACPD : Z := BIT 1.
Definition PLL_PWR_DSMPD : Z := BIT 2.
Definition PLL_PWR_POSTDIVPD : Z := BIT 3.
Definition PLL_PWR_4PHASEPD : Z := BIT 4.
Definition PLL_PWR_VCOPD : Z := BIT 5.
Definition PLL_PWR_MASK : Z := 0x0000003f.
Definition PLL_SEC_RST : Z := BIT 16.
Definition PLL_SEC_IMPL : Z := BIT 31.
Definition CLK_CTRL_ENABLE : Z := BIT 11.
Definition CLK_CTRL_AUXSRC_MASK : Z := 0x000003e0.
Definition CLK_CTRL_AUXSRC_SHIFT : Z := 5.
Definition CLK_CTRL_SRC_SHIFT : Z := 0.

Record rp1_pll_core_data := {
  core_name : string;
  cs_reg : Z;
  pwr_reg : Z;
  fbdiv_int_reg : Z;
  fbdiv_frac_reg : Z;
  core_flags : Z;
  core_fc0_src : Z
}.

Record rp1_pll_core := {
  core_hw : clk_hw;
  core_data : rp1_pll_core_data;
  core_cached_rate : Z
}.

Record rp1_pll_data := {
  pll_name : string;
  source_pll : string;
  pll_ctrl_reg : Z;
  pll_flags : Z;
  pll_fc0_src : Z
}.

Record rp1_clock := {
  clock_hw : clk_hw;
  clock_data : rp1_clock_data;
  clock_cached_rate : Z
}.

Definition PLL_PH_EN : Z := BIT 4.
Definition PLL_PH_PHASE_SHIFT : Z := 0.
Definition RP1_PLL_PHASE_0 : Z := 0.
Definition RP1_PLL_PHASE_90 : Z := 1.
Definition RP1_PLL_PHASE_180 : Z := 2.
Definition RP1_PLL_PHASE_270 : Z := 3.

Record rp1_pll_ph_data := {
  ph_name : string;
  ph_source_pll : string;
  phase : Z;
  fixed_divider : Z;
  ph_reg : Z;
  ph_flags : Z;
  ph_fc0_src : Z
}.

(** Modelled from the spec: the kernel helper [div64_u64] (linux/math64.h)
    is not part of the sources; it divides a 64-bit dividend by a 64-bit
    divisor.  A zero divisor traps: [None]. *)
Definition div64_u64 (dividend divisor : Z) : option Z :=
  if u64 divisor =? 0 then None else Some (dividend / u64 divisor).

(** Secondary PLL channel output divider table: [(val, div)]. *)
Definition pll_sec_div_table : list (Z * Z) :=
  [ (0x00, 19); (0x01, 19); (0x02, 19); (0x03, 19);
    (0x04, 19); (0x05, 19); (0x06, 19); (0x07, 19);
    (0x08,  8); (0x09,  9); (0x0a, 10); (0x0b, 11);
    (0x0c, 12); (0x0d, 13); (0x0e, 14); (0x0f, 15);
    (0x10, 16); (0x11, 17); (0x12, 18); (0x13, 19);
    (0x14, 19); (0x15, 19); (0x16, 19); (0x17, 19);
    (0x18, 19); (0x19, 19); (0x1a, 19); (0x1b, 19);
    (0x1c, 19); (0x1d, 19); (0x1e, 19); (0x1f, 19) ].

(** Modelled from the spec: the table look-up of the framework's
    [clk_divider_ops.recalc_rate] (drivers/clk/clk-divider.c) is not part of
    the sources; a raw register code decodes to the divisor of the first
    table entry holding it, and to 0 when there is none. *)
Fixpoint table_div (table : list (Z * Z)) (val : Z) : Z :=
  match table with
  | [] => 0
  | (v, d) :: rest => if v =? val then d else table_div rest val
  end.

(** Modelled from the spec: [ffs] (linux/bitops.h) is not part of the
    sources; it is the 1-based position of the first bit set of a 32-bit
    word, and 0 for the word 0. *)
Definition ffs (x : Z) : Z :=
  match find (fun i => Z.testbit x (Z.of_nat i)) (seq 0 32) with
  | Some i => Z.of_nat i + 1
  | None => 0
  end.

Section Hardware.

Variable ktime : nat -> Z.
Variable hw_status : nat -> Z -> option Z.
(** [clk_get_rate(__clk_lookup(fc0_ref_clk_name))]. *)
Variable fc0_ref_clk_rate : Z.

(** [readl(clockman->regs + reg)]. *)
Definition readl (c : rp1_clockman) (reg : Z) : Z :=
  match hw_status (now c) reg with
  | Some v => u32 v
  | None => default 0 (regs c !! reg)
  end.

Definition clockman_read (reg : Z) : M Z := fun c => Ok (readl c reg) c.

Definition clockman_write (reg val : Z) : M unit :=
  fun c => Ok tt (Clockman (<[reg := u32 val]> (regs c)) (regs_lock c)
                    ((reg, u32 val) :: wlog c) (now c)).

Definition ktime_get : M Z :=
  fun c => Ok (ktime (now c))
             (Clockman (regs c) (regs_lock c) (wlog c) (S (now c))).

(** The bounded busy-wait shared by the three polling loops:
    [while (!ready(readl(reg))) { if (ktime_after(ktime_get(), timeout))
    return <timed out>; cpu_relax(); }].  [true]: the condition was seen;
    [false]: the wait timed out. *)
Fixpoint busy_wait (fuel : nat) (ready : Z -> bool) (reg timeout : Z) : M bool :=
  match fuel with
  | O => fail OutOfFuel
  | S fuel =>
      do v <~ clockman_read reg;
      if ready v then ret true
      else
        do t <~ ktime_get;
        if timeout <? t then ret false
        else busy_wait fuel ready reg timeout
  end.

(** *** The frequency counter *)

Definition clockman_measure_clock (fuel : nat) (fc0_src : Z) : M Z :=
  let fc_idx := u32 fc0_src / 32 in
  let fc_src := u32 fc0_src mod 32 in
  (* fc_src == 0 is invalid. *)
  if (fc_src =? 0) || (FC_COUNT <=? fc_idx) then ret 0
  else
    let fc_offset := fc_idx * FC_SIZE in
    (* Ensure the frequency counter is idle. *)
    do t <~ ktime_get;
    do idle <~ busy_wait fuel
                 (fun v => Z.land v FC0_STATUS_RUNNING =? 0)
                 (fc_offset + FC0_STATUS) (t + FC_TIMEOUT_NS);
    if negb idle then ret 0
    else
      spin_lock;;
      clockman_write (fc_offset + FC0_REF_KHZ) (fc0_ref_clk_rate / KHz);;
      clockman_write (fc_offset + FC0_MIN_KHZ) 0;;
      clockman_write (fc_offset + FC0_MAX_KHZ) 0x1ffffff;;
      clockman_write (fc_offset + FC0_INTERVAL) 8;;
      clockman_write (fc_offset + FC0_DELAY) 7;;
      clockman_write (fc_offset + FC0_SRC) fc_src;;
      spin_unlock;;
      do t <~ ktime_get;
      do done <~ busy_wait fuel
                   (fun v => negb (Z.land v FC0_STATUS_DONE =? 0))
                   (fc_offset + FC0_STATUS) (t + FC_TIMEOUT_NS);
      if negb done then ret 0
      else
        do result <~ clockman_read (fc_offset + FC0_RESULT);
        (* Disable FC0 *)
        spin_lock;;
        clockman_write (fc_offset + FC0_SRC) 0;;
        spin_unlock;;
        ret result.

(** *** PllCore *)

Definition rp1_pll_core_is_on (pll_core : rp1_pll_core) (c : rp1_clockman)
  : bool :=
  let data := core_data pll_core in
  let pwr := readl c (pwr_reg data) in
  negb (Z.land pwr PLL_PWR_PD =? 0) || negb (Z.land pwr PLL_PWR_POSTDIVPD =? 0).

Definition rp1_pll_core_on (fuel : nat) (pll_core : rp1_pll_core) : M Z :=
  let data := core_data pll_core in
  spin_lock;;
  do cs <~ clockman_read (cs_reg data);
  (if Z.land cs PLL_CS_LOCK =? 0 then
     (* Reset to a known state. *)
     clockman_write (pwr_reg data) PLL_PWR_MASK;;
     clockman_write (fbdiv_int_reg data) 20;;
     clockman_write (fbdiv_frac_reg data) 0;;
     clockman_write (cs_reg data) (Z.shiftl 1 PLL_CS_REFDIV_SHIFT)
   else ret tt);;
  (* Come out of reset. *)
  do fbdiv_frac <~ clockman_read (fbdiv_frac_reg data);
  clockman_write (pwr_reg data)
    (if negb (fbdiv_frac =? 0) then 0 else PLL_PWR_DSMPD);;
  spin_unlock;;
  (* Wait for the PLL to lock. *)
  do t <~ ktime_get;
  do locked <~ busy_wait fuel
                 (fun v => negb (Z.land v PLL_CS_LOCK =? 0))
                 (cs_reg data) (t + LOCK_TIMEOUT_NS);
  if negb locked then ret (- ETIMEDOUT) else ret 0.

Definition rp1_pll_core_off (pll_core : rp1_pll_core) : M unit :=
  let data := core_data pll_core in
  spin_lock;;
  clockman_write (pwr_reg data) 0;;
  spin_unlock.

(** [rp1_pll_core_set_rate]: returns the status and the node with its
    [cached_rate] updated. *)
Definition rp1_pll_core_set_rate (pll_core : rp1_pll_core)
    (rate parent_rate : Z) : M (Z * rp1_pll_core) :=
  let data := core_data pll_core in
  (* Disable dividers to start with. *)
  spin_lock;;
  clockman_write (fbdiv_int_reg data) 0;;
  clockman_write (fbdiv_frac_reg data) 0;;
  spin_unlock;;
  match get_pll_core_divider rate parent_rate with
  | None => fail DivideByZero
  | Some (calc_rate, fbdiv_int, fbdiv_frac) =>
      spin_lock;;
      clockman_write (pwr_reg data)
        (if negb (fbdiv_frac =? 0) then 0 else PLL_PWR_DSMPD);;
      clockman_write (fbdiv_int_reg data) fbdiv_int;;
      clockman_write (fbdiv_frac_reg data) fbdiv_frac;;
      spin_unlock;;
      (* Check that reference frequency is no greater than VCO / 16. *)
      BUG_ON (rate / 16 <? parent_rate);;
      let pll_core :=
        {| core_hw := core_hw pll_core; core_data := data;
           core_cached_rate := calc_rate |} in
      spin_lock;;
      do cs <~ clockman_read (cs_reg data);
      clockman_write (cs_reg data)
        (Z.lor cs (Z.shiftl 1 PLL_CS_REFDIV_SHIFT));;
      spin_unlock;;
      ret (0, pll_core)
  end.

Definition rp1_pll_core_recalc_rate (pll_core : rp1_pll_core)
    (parent_rate : Z) (c : rp1_clockman) : Z :=
  let data := core_data pll_core in
  let fbdiv_int := readl c (fbdiv_int_reg data) in
  let fbdiv_frac := readl c (fbdiv_frac_reg data) in
  Z.shiftr
    (u64 (u64 (parent_rate * u64 (u64 (Z.shiftl fbdiv_int 24) + fbdiv_frac))
          + Z.shiftl 1 23))
    24.


(** *** Pll *)

Definition rp1_pll_set_rate (fuel : nat) (data : rp1_pll_data)
    (rate parent_rate : Z) : M Z :=
  let '(prim_div1, prim_div2) := get_pll_prim_dividers rate parent_rate in
  spin_lock;;
  do prim <~ clockman_read (pll_ctrl_reg data);
  let prim := set_register_field prim prim_div1 PLL_PRIM_DIV1_MASK
                PLL_PRIM_DIV1_SHIFT in
  let prim := set_register_field prim prim_div2 PLL_PRIM_DIV2_MASK
                PLL_PRIM_DIV2_SHIFT in
  clockman_write (pll_ctrl_reg data) prim;;
  spin_unlock;;
  clockman_measure_clock fuel (pll_fc0_src data);;
  ret 0.

(** [rp1_pll_recalc_rate]: 0 is the "zero divider value" error return. *)
Definition rp1_pll_recalc_rate (data : rp1_pll_data) (parent_rate : Z)
    (c : rp1_clockman) : Z :=
  let prim := readl c (pll_ctrl_reg data) in
  let prim_div1 :=
    Z.shiftr (Z.land prim PLL_PRIM_DIV1_MASK) PLL_PRIM_DIV1_SHIFT in
  let prim_div2 :=
    Z.shiftr (Z.land prim PLL_PRIM_DIV2_MASK) PLL_PRIM_DIV2_SHIFT in
  if (prim_div1 =? 0) || (prim_div2 =? 0) then 0
  else DIV_ROUND_CLOSEST parent_rate (u32 (prim_div1 * prim_div2)).

(** *** PllPhase *)

Definition rp1_pll_ph_is_on (data : rp1_pll_ph_data) (c : rp1_clockman)
  : bool :=
  negb (Z.land (readl c (ph_reg data)) PLL_PH_EN =? 0).

Definition rp1_pll_ph_on (fuel : nat) (data : rp1_pll_ph_data) : M Z :=
  spin_lock;;
  do ph <~ clockman_read (ph_reg data);
  let ph := Z.lor ph (u32 (Z.shiftl (phase data) PLL_PH_PHASE_SHIFT)) in
  let ph := Z.lor ph PLL_PH_EN in
  clockman_write (ph_reg data) ph;;
  spin_unlock;;
  clockman_measure_clock fuel (ph_fc0_src data);;
  ret 0.

Definition rp1_pll_ph_off (data : rp1_pll_ph_data) : M unit :=
  spin_lock;;
  do ph <~ clockman_read (ph_reg data);
  clockman_write (ph_reg data) (Z.land ph (u32 (Z.lnot PLL_PH_EN)));;
  spin_unlock.

(** [rp1_pll_ph_set_rate]: "Nothing really to do here!".  The two [WARN_ON]s
    only log, but the second one computes [parent_rate / fixed_divider]. *)
Definition rp1_pll_ph_set_rate (fuel : nat) (data : rp1_pll_ph_data)
    (rate parent_rate : Z) : M Z :=
  if fixed_divider data =? 0 then fail DivideByZero
  else
    do c <~ (fun c => Ok c c);
    (if rp1_pll_ph_is_on data c
     then clockman_measure_clock fuel (ph_fc0_src data)
     else ret 0);;
    ret 0.

Definition rp1_pll_ph_recalc_rate (data : rp1_pll_ph_data) (parent_rate : Z)
  : option Z :=
  if fixed_divider data =? 0 then None
  else Some (parent_rate / fixed_divider data).

(** [rp1_pll_ph_round_rate]: the result is a [long]; the requested [rate] is
    not looked at. *)
Definition rp1_pll_ph_round_rate (data : rp1_pll_ph_data)
    (rate parent_rate : Z) : option Z :=
  if fixed_divider data =? 0 then None
  else Some (s64 (parent_rate / fixed_divider data)).

(** *** PllSecondary *)

Definition rp1_pll_divider_is_on (data : rp1_pll_data) (c : rp1_clockman)
  : bool :=
  Z.land (readl c (pll_ctrl_reg data)) PLL_SEC_RST =? 0.

Definition rp1_pll_divider_on (fuel : nat) (data : rp1_pll_data) : M Z :=
  spin_lock;;
  (* WARN_ON(!(ctrl & PLL_SEC_IMPL)) only logs *)
  do ctrl <~ clockman_read (pll_ctrl_reg data);
  clockman_write (pll_ctrl_reg data) (Z.land ctrl (u32 (Z.lnot PLL_SEC_RST)));;
  spin_unlock;;
  clockman_measure_clock fuel (pll_fc0_src data);;
  ret 0.

Definition rp1_pll_divider_off (data : rp1_pll_data) : M unit :=
  spin_lock;;
  clockman_write (pll_ctrl_reg data) PLL_SEC_RST;;
  spin_unlock.

Definition rp1_pll_divider_set_rate (fuel : nat) (data : rp1_pll_data)
    (rate parent_rate : Z) : M Z :=
  match DIV_ROUND_UP_ULL parent_rate rate with
  | None => fail DivideByZero
  | Some q =>
      (* u32 div = DIV_ROUND_UP_ULL(parent_rate, rate); *)
      let div := u32 q in
      let div := clamp div 8 19 in
      spin_lock;;
      do sec <~ clockman_read (pll_ctrl_reg data);
      let sec := set_register_field sec div PLL_SEC_DIV_MASK PLL_SEC_DIV_SHIFT in
      (* Must keep the divider in reset to change the value. *)
      let sec := Z.lor sec PLL_SEC_RST in
      clockman_write (pll_ctrl_reg data) sec;;
      let sec := Z.land sec (u32 (Z.lnot PLL_SEC_RST)) in
      clockman_write (pll_ctrl_reg data) sec;;
      spin_unlock;;
      do c <~ (fun c => Ok c c);
      (if rp1_pll_divider_is_on data c
       then clockman_measure_clock fuel (pll_fc0_src data)
       else ret 0);;
      ret 0
  end.

(** *** Clock *)

Definition rp1_clock_is_on (clock : rp1_clock) (c : rp1_clockman) : bool :=
  negb (Z.land (readl c (ctrl_reg (clock_data clock))) CLK_CTRL_ENABLE =? 0).

(** [rp1_clock_recalc_rate]: [None] is a trapping division. *)
Definition rp1_clock_recalc_rate (clock : rp1_clock) (parent_rate : Z)
    (c : rp1_clockman) : option Z :=
  let data := clock_data clock in
  let div := readl c (div_int_reg data) in
  let frac :=
    if negb (div_frac_reg data =? 0) then readl c (div_frac_reg data) else 0 in
  (* If the integer portion of the divider is 0, treat it as 2^16 *)
  let div := if div =? 0 then Z.shiftl 1 16 else div in
  let div := Z.lor (u64 (Z.shiftl div CLK_DIV_FRAC_BITS))
               (Z.shiftr frac (32 - CLK_DIV_FRAC_BITS)) in
  let calc_rate := u64 (Z.shiftl parent_rate CLK_DIV_FRAC_BITS) in
  div64_u64 calc_rate div.

Definition rp1_clock_on (fuel : nat) (clock : rp1_clock) : M Z :=
  let data := clock_data clock in
  spin_lock;;
  do ctrl <~ clockman_read (ctrl_reg data);
  clockman_write (ctrl_reg data) (Z.lor ctrl CLK_CTRL_ENABLE);;
  (* If this is a GPCLK, turn on the output-enable *)
  (if negb (oe_mask data =? 0) then
     do oe <~ clockman_read GPCLK_OE_CTRL;
     clockman_write GPCLK_OE_CTRL (Z.lor oe (oe_mask data))
   else ret tt);;
  spin_unlock;;
  clockman_measure_clock fuel (fc0_src data);;
  ret 0.

Definition rp1_clock_off (clock : rp1_clock) : M unit :=
  let data := clock_data clock in
  spin_lock;;
  do ctrl <~ clockman_read (ctrl_reg data);
  clockman_write (ctrl_reg data) (Z.land ctrl (u32 (Z.lnot CLK_CTRL_ENABLE)));;
  (* If this is a GPCLK, turn off the output-enable *)
  (if negb (oe_mask data =? 0) then
     do oe <~ clockman_read GPCLK_OE_CTRL;
     clockman_write GPCLK_OE_CTRL (Z.land oe (u32 (Z.lnot (oe_mask data))))
   else ret tt);;
  spin_unlock.

(** [rp1_clock_get_parent]: the result is a [u8]. *)
Definition rp1_clock_get_parent (clock : rp1_clock) (c : rp1_clockman) : Z :=
  let data := clock_data clock in
  (* Sel is one-hot, so find the first bit set *)
  let sel := readl c (sel_reg data) in
  let parent := u8 (ffs sel - 1) in
  (* sel == 0 implies the parent clock is not enabled yet. *)
  let parent :=
    if sel =? 0 then
      u8 (Z.shiftr (Z.land (readl c (ctrl_reg data)) (clk_src_mask data))
            CLK_CTRL_SRC_SHIFT)
    else parent in
  let parent := if num_std_parents data <=? parent then AUX_SEL else parent in
  if parent =? AUX_SEL then
    let ctrl := readl c (ctrl_reg data) in
    let parent :=
      u8 (Z.shiftr (Z.land ctrl CLK_CTRL_AUXSRC_MASK) CLK_CTRL_AUXSRC_SHIFT) in
    u8 (parent + num_std_parents data)
  else parent.

(** [rp1_clock_set_parent]: [index] is a [u8]. *)
Definition rp1_clock_set_parent (clock : rp1_clock) (index : Z) : M Z :=
  let data := clock_data clock in
  spin_lock;;
  do ctrl <~ clockman_read (ctrl_reg data);
  if num_std_parents data <=? index then
    (* This is an aux source request *)
    if num_std_parents data + num_aux_parents data <=? index then
      ret (- EINVAL)
    else
      (* Select parent from aux list *)
      let ctrl := set_register_field ctrl (index - num_std_parents data)
                    CLK_CTRL_AUXSRC_MASK CLK_CTRL_AUXSRC_SHIFT in
      (* Set src to aux list *)
      let ctrl := set_register_field ctrl AUX_SEL (clk_src_mask data)
                    CLK_CTRL_SRC_SHIFT in
      clockman_write (ctrl_reg data) ctrl;;
      spin_unlock;;
      (* sel = rp1_clock_get_parent(hw); WARN(sel != index) only logs *)
      ret 0
  else
    let ctrl := set_register_field ctrl index (clk_src_mask data)
                  CLK_CTRL_SRC_SHIFT in
    clockman_write (ctrl_reg data) ctrl;;
    spin_unlock;;
    ret 0.

Definition rp1_clock_set_rate_and_parent (fuel : nat) (clock : rp1_clock)
    (rate parent_rate parent : Z) : M Z :=
  let data := clock_data clock in
  match rp1_clock_choose_div rate parent_rate data with
  | None => fail DivideByZero
  | Some div =>
      (* WARN(!div, ...): fall back to unity divide *)
      let div := if div =? 0 then Z.shiftl 1 CLK_DIV_FRAC_BITS else div in
      spin_lock;;
      clockman_write (div_int_reg data) (Z.shiftr div CLK_DIV_FRAC_BITS);;
      (if negb (div_frac_reg data =? 0) then
         clockman_write (div_frac_reg data)
           (Z.shiftl div (32 - CLK_DIV_FRAC_BITS))
       else ret tt);;
      spin_unlock;;
      (if negb (parent =? 0xff) then
         rp1_clock_set_parent clock parent;; ret tt
       else ret tt);;
      do c <~ (fun c => Ok c c);
      (if rp1_clock_is_on clock c
       then clockman_measure_clock fuel (fc0_src data)
       else ret 0);;
      ret 0
  end.

Definition rp1_clock_set_rate (fuel : nat) (clock : rp1_clock)
    (rate parent_rate : Z) : M Z :=
  rp1_clock_set_rate_and_parent fuel clock rate parent_rate 0xff.

End Hardware.

(** ** Clock node: rate negotiation

    The common clock framework is the host: a [clk_hw] is identified by a
    number, a [struct clk_hw *] is an [option clk_hw] ([None] is [NULL]), and
    the framework calls are parameters. *)

Record rp1_clk_change := {
  chg_hw : option clk_hw;
  new_rate : Z
}.

#[global] Instance rp1_clk_change_inhabited : Inhabited rp1_clk_change :=
  populate {| chg_hw := None; new_rate := 0 |}.

(** [rp1_clk_chg_tree[3]], zero-initialised. *)
Definition rp1_clk_chg_tree_init : list rp1_clk_change :=
  replicate 3 {| chg_hw := None; new_rate := 0 |}.

(** [rp1_pll_round_rate]: returns the result, a [long], and [*parent_rate],
    which a matching entry of the pending change tree overrides. *)
Definition rp1_pll_round_rate (hw : clk_hw) (rate parent_rate : Z)
    (tree : list rp1_clk_change) : Z * Z :=
  let chg := tree !!! 1%nat in
  let parent_rate :=
    if bool_decide (chg_hw chg = Some hw) && (new_rate chg =? rate)
    then new_rate (tree !!! 2%nat)
    else parent_rate in
  let '(div1, div2) := get_pll_prim_dividers rate parent_rate in
  (s64 (DIV_ROUND_CLOSEST parent_rate (u32 (div1 * div2))), parent_rate).

Record clk_rate_request := {
  req_rate : Z;
  best_parent_hw : option clk_hw;
  best_parent_rate : Z
}.

(** Outcome of the look-up in the pending change tree. *)
Inductive plan_hit :=
| Hit (prate calc_rate : Z)
| Miss.

Record det_best := DetBest {
  best_parent : option clk_hw;
  best_prate : Z;
  best_rate : Z;
  best_rate_diff : Z
}.

(** Specification side: a parent candidate as [rp1_clock_determine_rate]
    evaluates it. *)
Record candidate := Candidate {
  cand_parent : clk_hw;
  cand_prate : Z;
  cand_rate : Z
}.

Section Negotiation.

Variable hw_status : nat -> Z -> option Z.
Variable clk_hw_get_parent_by_index : clk_hw -> nat -> option clk_hw.
Variable clk_hw_get_rate : clk_hw -> Z.
Variable clk_hw_get_parent : clk_hw -> option clk_hw.
(** The driver's cached handles, [NULL] until the probe finds [clk_i2s]. *)
Variables clk_xosc clk_audio clk_i2s : option clk_hw.

(** [clk_hw_get_rate(p)] dereferences [p]: a [NULL] traps. *)
Definition rate_of (p : option clk_hw) : option Z := clk_hw_get_rate <$> p.

(** The loop over [rp1_clk_chg_tree] at the head of
    [rp1_clock_choose_div_and_prate]. *)
Fixpoint chg_tree_scan (hw : clk_hw) (parent : option clk_hw) (rate : Z)
    (tree : list rp1_clk_change) (idxs : list nat) : option plan_hit :=
  match idxs with
  | [] => Some Miss
  | i :: rest =>
      let chg := tree !!! i in
      if bool_decide (chg_hw chg = Some hw) && (new_rate chg =? rate) then
        if bool_decide (i = 2%nat) then
          prate ← rate_of clk_xosc; Some (Hit prate (new_rate chg))
        else if bool_decide (parent = chg_hw (tree !!! S i)) then
          Some (Hit (new_rate (tree !!! S i)) (new_rate chg))
        else chg_tree_scan hw parent rate tree rest
      else chg_tree_scan hw parent rate tree rest
  end.

(** [rp1_clock_choose_div_and_prate]: returns [( *prate, *calc_rate )] and
    the change tree it leaves. *)
Definition rp1_clock_choose_div_and_prate (clock : rp1_clock)
    (parent_idx : nat) (rate : Z) (tree : list rp1_clk_change)
  : option (Z * Z * list rp1_clk_change) :=
  let hw := clock_hw clock in
  let data := clock_data clock in
  let parent := clk_hw_get_parent_by_index hw parent_idx in
  hit ← chg_tree_scan hw parent rate tree [0; 1; 2]%nat;
  match hit with
  | Hit prate calc_rate => Some (prate, calc_rate, tree)
  | Miss =>
      if bool_decide (Some hw = clk_i2s) && bool_decide (parent = clk_audio)
      then
        xosc_rate ← rate_of clk_xosc;
        '(core_rate, div_prim, div_clk) ← calc_core_pll_rate xosc_rate rate;
        let audio_rate := DIV_NEAREST core_rate div_prim in
        let i2s_rate := DIV_NEAREST audio_rate div_clk in
        p ← parent;
        let tree :=
          <[2%nat := {| chg_hw := clk_hw_get_parent p; new_rate := core_rate |}]>
            tree in
        let tree :=
          <[1%nat := {| chg_hw := clk_audio; new_rate := audio_rate |}]> tree in
        let tree :=
          <[0%nat := {| chg_hw := clk_i2s; new_rate := i2s_rate |}]> tree in
        Some (audio_rate, i2s_rate, tree)
      else
        prate ← rate_of parent;
        div ← rp1_clock_choose_div rate prate data;
        if div =? 0 then Some (prate, 0, tree)
        else
          (* Recalculate to account for rounding errors *)
          tmp ← div_u64 (u64 (Z.shiftl prate CLK_DIV_FRAC_BITS)) div;
          (* Prevent overclocks *)
          if max_freq data <? tmp then Some (prate, 0, tree)
          else Some (prate, tmp, tree)
  end.

(** The parent scan of [rp1_clock_determine_rate]. *)
Fixpoint determine_loop (clock : rp1_clock) (rate : Z) (idxs : list nat)
    (b : det_best) (tree : list rp1_clk_change)
  : option (det_best * list rp1_clk_change) :=
  match idxs with
  | [] => Some (b, tree)
  | i :: rest =>
      match clk_hw_get_parent_by_index (clock_hw clock) i with
      | None => determine_loop clock rate rest b tree
      | Some parent =>
          '(prate, calc_rate, tree) ←
            rp1_clock_choose_div_and_prate clock i rate tree;
          if ABS_DIFF calc_rate rate <? best_rate_diff b then
            let b := DetBest (Some parent) prate calc_rate
                       (ABS_DIFF calc_rate rate) in
            if best_rate_diff b =? 0 then Some (b, tree)
            else determine_loop clock rate rest b tree
          else determine_loop clock rate rest b tree
      end
  end.

(** [rp1_clock_determine_rate]: [clk_hw_get_flags] and
    [clk_hw_get_num_parents] are what [rp1_register_clock] registered; the
    registers are only read. *)
Definition rp1_clock_determine_rate (clock : rp1_clock) (c : rp1_clockman)
    (req : clk_rate_request) (tree : list rp1_clk_change)
  : option (Z * clk_rate_request * list rp1_clk_change) :=
  let data := clock_data clock in
  let hw_flags := Z.lor (flags data) CLK_IGNORE_UNUSED in
  let num_parents := Z.to_nat (num_std_parents data + num_aux_parents data) in
  let scan tree :=
    '(b, tree) ←
      determine_loop clock (req_rate req) (seq 0 num_parents)
        (DetBest None 0 0 ULONG_MAX) tree;
    if best_rate b =? 0 then Some (- EINVAL, req, tree)
    else
      Some (0, {| req_rate := best_rate b;
                  best_parent_hw := best_parent b;
                  best_parent_rate := best_prate b |}, tree) in
  if negb (Z.land hw_flags CLK_SET_RATE_NO_REPARENT =? 0) then
    let cur_parent := Z.to_nat (rp1_clock_get_parent hw_status clock c) in
    match clk_hw_get_parent_by_index (clock_hw clock) cur_parent with
    | Some parent =>
        '(prate, calc_rate, tree) ←
          rp1_clock_choose_div_and_prate clock cur_parent (req_rate req) tree;
        if 0 <? calc_rate then
          Some (0, {| req_rate := calc_rate;
                      best_parent_hw := Some parent;
                      best_parent_rate := prate |}, tree)
        else scan tree
    | None => scan tree
    end
  else scan tree.

(** Specification side: the candidates the scan evaluates for a target, in
index order; unresolved parents are skipped, and the scan stops after the
first exact match. *)
Fixpoint candidate_scan (clock : rp1_clock) (rate : Z) (idxs : list nat)
    (tree : list rp1_clk_change)
  : option (list candidate * list rp1_clk_change) :=
  match idxs with
  | [] => Some ([], tree)
  | i :: rest =>
      match clk_hw_get_parent_by_index (clock_hw clock) i with
      | None => candidate_scan clock rate rest tree
      | Some parent =>
          '(prate, calc_rate, tree) ←
            rp1_clock_choose_div_and_prate clock i rate tree;
          let cand := Candidate parent prate calc_rate in
          if ABS_DIFF calc_rate rate =? 0 then Some ([cand], tree)
          else
            '(cands, tree) ← candidate_scan clock rate rest tree;
            Some (cand :: cands, tree)
      end
  end.

End Negotiation.


(** ** Entries of [clk_desc_array] used below *)

Definition pll_sys_core_data : rp1_pll_core_data := {|
  core_name := "pll_sys_core";
  cs_reg := 0x08000;
  pwr_reg := 0x08004;
  fbdiv_int_reg := 0x08008;
  fbdiv_frac_reg := 0x0800c;
  core_flags := 0;
  core_fc0_src := 0
|}.

Definition pll_sys_sec_data : rp1_pll_data := {|
  pll_name := "pll_sys_sec";
  source_pll := "pll_sys_core";
  pll_ctrl_reg := 0x08014;
  pll_flags := 0;
  pll_fc0_src := FC_NUM 2 2
|}.

Definition clk_sys_data : rp1_clock_data := {|
  name := "clk_sys";
  parents := ["xosc"; "-"; "pll_sys"];
  num_std_parents := 3;
  num_aux_parents := 0;
  flags := 0;
  oe_mask := 0;
  clk_src_mask := 0x3;
  ctrl_reg := 0x00014;
  div_int_reg := 0x00018;
  div_frac_reg := 0;
  sel_reg := 0x00020;
  div_int_max := DIV_INT_24BIT_MAX;
  max_freq := 200 * MHz;
  fc0_src := FC_NUM 0 4
|}.

Definition clk_uart_data : rp1_clock_data := {|
  name := "clk_uart";
  parents := ["pll_sys_pri_ph"; "pll_video"; "xosc"; "clksrc_gp0";
              "clksrc_gp1"; "clksrc_gp2"; "clksrc_gp3"; "clksrc_gp4";
              "clksrc_gp5"];
  num_std_parents := 0;
  num_aux_parents := 9;
  flags := 0;
  oe_mask := 0;
  clk_src_mask := 0;
  ctrl_reg := 0x00054;
  div_int_reg := 0x00058;
  div_frac_reg := 0;
  sel_reg := 0x00060;
  div_int_max := DIV_INT_8BIT_MAX;
  max_freq := 100 * MHz;
  fc0_src := FC_NUM 6 7
|}.

Definition clk_pwm0_data : rp1_clock_data := {|
  name := "clk_pwm0";
  parents := [""; "pll_video_sec"; "xosc"; "clksrc_gp0"; "clksrc_gp1";
              "clksrc_gp2"; "clksrc_gp3"; "clksrc_gp4"; "clksrc_gp5"];
  num_std_parents := 0;
  num_aux_parents := 9;
  flags := 0;
  oe_mask := 0;
  clk_src_mask := 0;
  ctrl_reg := 0x00074;
  div_int_reg := 0x00078;
  div_frac_reg := 0x0007c;
  sel_reg := 0x00080;
  div_int_max := DIV_INT_16BIT_MAX;
  max_freq := 76800 * KHz;
  fc0_src := FC_NUM 0 5
|}.

Definition clk_i2s_data : rp1_clock_data := {|
  name := "clk_i2s";
  parents := ["xosc"; "pll_audio"; "pll_audio_sec"; "clksrc_gp0";
              "clksrc_gp1"; "clksrc_gp2"; "clksrc_gp3"; "clksrc_gp4";
              "clksrc_gp5"];
  num_std_parents := 0;
  num_aux_parents := 9;
  flags := CLK_SET_RATE_PARENT;
  oe_mask := 0;
  clk_src_mask := 0;
  ctrl_reg := 0x000b4;
  div_int_reg := 0x000b8;
  div_frac_reg := 0;
  sel_reg := 0x000c0;
  div_int_max := DIV_INT_8BIT_MAX;
  max_freq := 50 * MHz;
  fc0_src := FC_NUM 4 4
|}.

Definition pll_sys_data : rp1_pll_data := {|
  pll_name := "pll_sys";
  source_pll := "pll_sys_core";
  pll_ctrl_reg := 0x08010;
  pll_flags := 0;
  pll_fc0_src := FC_NUM 0 2
|}.

Definition pll_audio_data : rp1_pll_data := {|
  pll_name := "pll_audio";
  source_pll := "pll_audio_core";
  pll_ctrl_reg := 0x0c010;
  pll_flags := CLK_SET_RATE_PARENT;
  pll_fc0_src := FC_NUM 4 2
|}.

Definition pll_sys_pri_ph_data : rp1_pll_ph_data := {|
  ph_name := "pll_sys_pri_ph";
  ph_source_pll := "pll_sys";
  phase := RP1_PLL_PHASE_0;
  fixed_divider := 2;
  ph_reg := 0x08010;
  ph_flags := 0;
  ph_fc0_src := FC_NUM 1 2
|}.

Definition clk_slow_sys_data : rp1_clock_data := {|
  name := "clk_slow_sys";
  parents := ["xosc"];
  num_std_parents := 1;
  num_aux_parents := 0;
  flags := 0;
  oe_mask := 0;
  clk_src_mask := 0x1;
  ctrl_reg := 0x00024;
  div_int_reg := 0x00028;
  div_frac_reg := 0;
  sel_reg := 0x00030;
  div_int_max := DIV_INT_8BIT_MAX;
  max_freq := 50 * MHz;
  fc0_src := FC_NUM 1 4
|}.

Definition clk_gp0_data : rp1_clock_data := {|
  name := "clk_gp0";
  parents := ["xosc"; "clksrc_gp1"; "clksrc_gp2"; "clksrc_gp3"; "clksrc_gp4";
              "clksrc_gp5"; "pll_sys"; ""; ""; ""; "clk_i2s"; "clk_adc"; "";
              ""; ""; "clk_sys"];
  num_std_parents := 0;
  num_aux_parents := 16;
  flags := 0;
  oe_mask := BIT 0;
  clk_src_mask := 0;
  ctrl_reg := 0x00174;
  div_int_reg := 0x00178;
  div_frac_reg := 0x0017c;
  sel_reg := 0x00180;
  div_int_max := DIV_INT_16BIT_MAX;
  max_freq := 100 * MHz;
  fc0_src := FC_NUM 0 1
|}.

Definition clk_vec_data : rp1_clock_data := {|
  name := "clk_vec";
  parents := ["pll_sys_pri_ph"; "pll_video_sec"; "pll_video"; "clksrc_gp0";
              "clksrc_gp1"; "clksrc_gp2"; "clksrc_gp3"; "clksrc_gp4"];
  num_std_parents := 0;
  num_aux_parents := 8;
  flags := CLK_SET_RATE_NO_REPARENT;
  oe_mask := 0;
  clk_src_mask := 0;
  ctrl_reg := 0x4000;
  div_int_reg := 0x4004;
  div_frac_reg := 0;
  sel_reg := 0x400c;
  div_int_max := DIV_INT_8BIT_MAX;
  max_freq := 108 * MHz;
  fc0_src := FC_NUM 0 6
|}.

(** ** Two clock trees used in the examples

    Handles: 0 is [xosc], 1 [pll_audio_core], 2 [pll_audio],
    3 [pll_audio_sec], 4 [clk_i2s], 5 [clk_uart], 10 [pll_sys_pri_ph],
    11 [pll_video].  The [clksrc_gp*] sources are not registered.  [xosc]
    runs at 50 MHz; [pll_video] has not been programmed and reports 0. *)
Module ExampleTree.

Definition clk_hw_get_parent_by_index (hw : clk_hw) (i : nat) : option clk_hw :=
  match hw, i with
  | 4%nat, 0%nat => Some 0%nat
  | 4%nat, 1%nat => Some 2%nat
  | 4%nat, 2%nat => Some 3%nat
  | 5%nat, 0%nat => Some 10%nat
  | 5%nat, 1%nat => Some 11%nat
  | 5%nat, 2%nat => Some 0%nat
  | _, _ => None
  end.

Definition clk_hw_get_rate (hw : clk_hw) : Z :=
  match hw with
  | 0%nat => 50 * MHz
  | 1%nat => 1536 * MHz
  | 2%nat => 61440 * KHz
  | 3%nat => 153600 * KHz
  | 10%nat => 100 * MHz
  | _ => 0
  end.

Definition clk_hw_get_parent (hw : clk_hw) : option clk_hw :=
  match hw with
  | 2%nat => Some 1%nat
  | 3%nat => Some 1%nat
  | 1%nat => Some 0%nat
  | _ => None
  end.

Definition clk_xosc : option clk_hw := Some 0%nat.
Definition clk_audio : option clk_hw := Some 2%nat.
Definition clk_i2s : option clk_hw := Some 4%nat.

Definition i2s : rp1_clock :=
  {| clock_hw := 4%nat; clock_data := clk_i2s_data; clock_cached_rate := 0 |}.
Definition uart : rp1_clock :=
  {| clock_hw := 5%nat; clock_data := clk_uart_data; clock_cached_rate := 0 |}.

Definition hw_status (_ : nat) (_ : Z) : option Z := None.
Definition clockman0 : rp1_clockman := Clockman ∅ false [] 0.

Definition choose_div_and_prate :=
  rp1_clock_choose_div_and_prate clk_hw_get_parent_by_index clk_hw_get_rate
    clk_hw_get_parent clk_xosc clk_audio clk_i2s.

Definition determine_rate :=
  rp1_clock_determine_rate hw_status clk_hw_get_parent_by_index
    clk_hw_get_rate clk_hw_get_parent clk_xosc clk_audio clk_i2s.

End ExampleTree.

(** ** Specification-side definitions *)

(** The candidate rate of a divider pair and its distance to the target. *)
Definition prim_calc_rate (parent_rate : Z) (p : Z * Z) : Z :=
  DIV_ROUND_CLOSEST parent_rate (u32 (fst p * snd p)).

Definition prim_diff (rate parent_rate : Z) (p : Z * Z) : Z :=
  ABS_DIFF (prim_calc_rate parent_rate p) rate.

(** In the spec's words: the first pair, in loop order, that achieves the
    smallest difference. *)
Definition first_closest_pair (rate parent_rate : Z) : Z * Z :=
  fold_left
    (fun best p =>
       if prim_diff rate parent_rate p <? prim_diff rate parent_rate best
       then p else best)
    prim_pairs (1, 1).

(** The invariant of the search loop of [get_pll_prim_dividers] once the
    pairs [seen] have been tried without an exact match. *)
Definition prim_inv (rate parent_rate : Z) (seen : list (Z * Z))
    (b : prim_best) : Prop :=
  let p := (best_div1 b, best_div2 b) in
  prim_rate_diff b = prim_diff rate parent_rate p /\
  prim_diff rate parent_rate p <= prim_diff rate parent_rate (7, 7) /\
  (forall q, In q seen ->
             prim_diff rate parent_rate p <= prim_diff rate parent_rate q) /\
  (p = (7, 7) \/
   (prim_diff rate parent_rate p < prim_diff rate parent_rate (7, 7) /\
    exists pre post,
      seen = pre ++ p :: post /\
      forall q, In q pre ->
                prim_diff rate parent_rate p < prim_diff rate parent_rate q)).

(** A table combination that meets the minimum VCO/reference ratio. *)
Definition valid_combination (xosc_rate target_rate div_prim div_clk : Z)
  : Prop :=
  In div_prim prim_divs /\ 1 <= div_clk <= 256 /\
  16 * xosc_rate <= target_rate * div_clk * div_prim.

(** In the spec's words: the VCO rates of all table combinations that stay
    in [[16 * reference, 2.4 GHz)], and the lowest of them. *)
Definition vco_combinations (xosc_rate target_rate : Z) : list Z :=
  flat_map
    (fun div_prim =>
       flat_map
         (fun div_clk =>
            let v := target_rate * div_clk * div_prim in
            if (16 * xosc_rate <=? v) && (v <? core_max) then [v] else [])
         div_clks)
    prim_divs.

Definition spec_min_vco_rate (xosc_rate target_rate : Z) : option Z :=
  match vco_combinations xosc_rate target_rate with
  | [] => None
  | v :: vs => Some (fold_left Z.min vs v)
  end.

(** The rate a PLL core reaches on reference [xosc_rate] when its feedback
    divisor is the VCO rate [v] over the reference, rounded at 24 fractional
    bits. *)
Definition rederived_rate (xosc_rate v : Z) : Z :=
  (xosc_rate * ((v * 2 ^ 24 + xosc_rate / 2) / xosc_rate) + 2 ^ 23) / 2 ^ 24.

(** The invariant of the outer loop of [calc_core_pll_rate] once the primary
    divisors [seen] have been tried. *)
Definition core_search_inv (target_rate core_min : Z) (seen : list Z)
    (best : Z * Z * Z) : Prop :=
  let '(best_rate, best_div_prim, best_div_clk) := best in
  (forall p d, In p seen -> 1 <= d <= 256 ->
               core_min <= target_rate * d * p ->
               best_rate <= target_rate * d * p) /\
  (best = (core_max + 1, 1, 1) \/
   (In best_div_prim seen /\ 1 <= best_div_clk <= 256 /\
    best_rate = target_rate * best_div_clk * best_div_prim /\
    core_min <= best_rate /\ best_rate <= core_max)).

(** Time passes: whatever the deadline, some later clock sample is beyond
    it. *)
Definition clock_advances (ktime : nat -> Z) : Prop :=
  forall n t, exists m, (n <= m)%nat /\ t < ktime m.

(** Total correctness of an operation with a polling budget: from state [c],
    every large enough budget makes it return the same result and state, and
    these satisfy [Q]. *)
Definition total {A} (m : nat -> M A) (c : rp1_clockman)
    (Q : A -> rp1_clockman -> Prop) : Prop :=
  exists N a c',
    (forall fuel, (N <= fuel)%nat -> m fuel c = Ok a c') /\ Q a c'.

(** The distance of a candidate's achievable rate to the target. *)
Definition cand_diff (rate : Z) (cand : candidate) : Z :=
  ABS_DIFF (cand_rate cand) rate.

(** [cand], at position [k] of the candidates scanned, is the one the scan
    keeps: it beats the initial [ULONG_MAX], is strictly closer to the target
    than every candidate before it, and at least as close as every
    candidate. *)
Definition closest_first (rate : Z) (cands : list candidate) (k : nat)
    (cand : candidate) : Prop :=
  cands !! k = Some cand /\
  cand_diff rate cand < ULONG_MAX /\
  (forall j c', cands !! j = Some c' -> (j < k)%nat ->
                cand_diff rate cand < cand_diff rate c') /\
  (forall c', In c' cands -> cand_diff rate cand <= cand_diff rate c').

(** What the best-so-far of [rp1_clock_determine_rate] holds once the
    candidates [seen] have been evaluated: its initial value when none of
    them beats [ULONG_MAX], and else the candidate kept. *)
Definition det_sel (rate : Z) (seen : list candidate) (b : det_best) : Prop :=
  (b = DetBest None 0 0 ULONG_MAX /\
   forall c', In c' seen -> ULONG_MAX <= cand_diff rate c')
  \/ (exists k cand,
         closest_first rate seen k cand /\
         b = DetBest (Some (cand_parent cand)) (cand_prate cand)
               (cand_rate cand) (cand_diff rate cand)).

(** * Properties *)

(** ** Machine integers *)

Lemma u32_range x : 0 <= u32 x < 2 ^ 32.
Proof. unfold u32. apply Z.mod_pos_bound. lia. Qed.

Lemma u64_range x : 0 <= u64 x < 2 ^ 64.
Proof. unfold u64. apply Z.mod_pos_bound. lia. Qed.

Lemma u32_small x : 0 <= x < 2 ^ 32 -> u32 x = x.
Proof. intros H. unfold u32. now apply Z.mod_small. Qed.

Lemma u64_small x : 0 <= x < 2 ^ 64 -> u64 x = x.
Proof. intros H. unfold u64. now apply Z.mod_small. Qed.

Lemma s32_small x : - 2 ^ 31 <= x < 2 ^ 31 -> s32 x = x.
Proof. intros H. unfold s32. rewrite Z.mod_small; lia. Qed.

Lemma s64_small x : - 2 ^ 63 <= x < 2 ^ 63 -> s64 x = x.
Proof. intros H. unfold s64. rewrite Z.mod_small; lia. Qed.

Lemma ABS_DIFF_nonneg a b : 0 <= ABS_DIFF a b.
Proof. unfold ABS_DIFF. destruct (b <? a); apply u64_range. Qed.

(** ** Pll: the primary divider search *)

Lemma prim_loop_spec rate parent_rate ps :
  forall seen b,
    prim_inv rate parent_rate seen b ->
    let b' := prim_loop rate parent_rate b ps in
    let p := (best_div1 b', best_div2 b') in
    (exists pre post,
        ps = pre ++ p :: post /\
        prim_calc_rate parent_rate p = rate /\
        forall q, In q pre -> prim_calc_rate parent_rate q <> rate)
    \/ ((forall q, In q ps -> prim_calc_rate parent_rate q <> rate) /\
        prim_inv rate parent_rate (seen ++ ps) b').
Proof.
  induction ps as [|[d1 d2] ps IH]; intros seen b Hinv; cbn zeta.
  - right. split; [intros q []|]. now rewrite app_nil_r.
  - cbn [prim_loop]. unfold prim_step.
    change (DIV_ROUND_CLOSEST parent_rate (u32 (d1 * d2)))
      with (prim_calc_rate parent_rate (d1, d2)).
    change (ABS_DIFF (prim_calc_rate parent_rate (d1, d2)) rate)
      with (prim_diff rate parent_rate (d1, d2)).
    destruct (Z.eqb_spec (prim_calc_rate parent_rate (d1, d2)) rate) as [He|Hne].
    + left. exists [], ps. cbn. repeat split; [exact He | intros q []].
    + destruct Hinv as (Hd & H77 & Hmin & Hfirst).
      cbn zeta in Hd, H77, Hmin, Hfirst.
      remember (best_div1 b, best_div2 b) as p eqn:Ep.
      destruct (Z.ltb_spec (prim_diff rate parent_rate (d1, d2))
                           (prim_rate_diff b)) as [Hlt|Hge].
      * (* the pair is strictly closer and replaces the best *)
        rewrite Hd in Hlt.
        specialize (IH (seen ++ [(d1, d2)])
                       (PrimBest d1 d2 (prim_diff rate parent_rate (d1, d2)))).
        cbn zeta in IH.
        destruct IH as [(pre & post & Eps & Hex & Hpre)|(Hno & Hinv')].
        -- unfold prim_inv; cbn [best_div1 best_div2 prim_rate_diff].
           repeat split.
           ++ lia.
           ++ intros q Hq. apply in_app_or in Hq as [Hq|[<-|[]]];
                [specialize (Hmin q Hq)|]; lia.
           ++ right. split; [lia|]. exists seen, []. split; [reflexivity|].
              intros q Hq. specialize (Hmin q Hq). lia.
        -- left. exists ((d1, d2) :: pre), post. split; [cbn [app]; f_equal; exact Eps|].
           split; [exact Hex|]. intros q [<-|Hq]; [exact Hne | now apply Hpre].
        -- right. split.
           ++ intros q [<-|Hq]; [exact Hne | now apply Hno].
           ++ now rewrite <- app_assoc in Hinv'.
      * (* the best is kept *)
        rewrite Hd in Hge.
        specialize (IH (seen ++ [(d1, d2)]) b). cbn zeta in IH.
        destruct IH as [(pre & post & Eps & Hex & Hpre)|(Hno & Hinv')].
        -- unfold prim_inv; cbn zeta. rewrite <- Ep. repeat split.
           ++ exact Hd.
           ++ exact H77.
           ++ intros q Hq. apply in_app_or in Hq as [Hq|[<-|[]]];
                [now apply Hmin | lia].
           ++ destruct Hfirst as [E|(Hs & pre & post & Es & Hp)]; [now left|].
              right. split; [exact Hs|]. exists pre, (post ++ [(d1, d2)]).
              split; [|exact Hp]. rewrite Es. now rewrite <- app_assoc.
        -- left. exists ((d1, d2) :: pre), post. split; [cbn [app]; f_equal; exact Eps|].
           split; [exact Hex|]. intros q [<-|Hq]; [exact Hne | now apply Hpre].
        -- right. split.
           ++ intros q [<-|Hq]; [exact Hne | now apply Hno].
           ++ now rewrite <- app_assoc in Hinv'.
Qed.

(** C5 (as the spec words it) fails: with a 2.058 GHz parent and a 45.5 MHz
    target no pair is exact, the pairs (7,6) and (7,7) are equally close
    (49 MHz above, 42 MHz below) and closest; the first of them in
    loop order is (7,6), but the search returns (7,7), the pair that seeds
    the best before the loop starts. *)
Lemma get_pll_prim_dividers_tie_counterexample :
  get_pll_prim_dividers 45500000 2058000000 = (7, 7) /\
  first_closest_pair 45500000 2058000000 = (7, 6) /\
  prim_diff 45500000 2058000000 (7, 6) = prim_diff 45500000 2058000000 (7, 7) /\
  forallb (fun q => negb (prim_calc_rate 2058000000 q =? 45500000)) prim_pairs
  = true.
Proof. vm_compute. repeat split. Qed.

(** C5, amended: [get_pll_prim_dividers] returns the first exact match in
    loop order when there is one; otherwise it returns a pair achieving the
    smallest [|candidate - target|], namely (7,7) -- the pair the best is
    seeded with -- whenever (7,7) achieves it, and else the first pair in
    loop order achieving it. *)
Theorem get_pll_prim_dividers_selection (rate parent_rate : Z) :
  let p := get_pll_prim_dividers rate parent_rate in
  (exists pre post,
      prim_pairs = pre ++ p :: post /\
      prim_calc_rate parent_rate p = rate /\
      forall q, In q pre -> prim_calc_rate parent_rate q <> rate)
  \/ ((forall q, In q prim_pairs -> prim_calc_rate parent_rate q <> rate) /\
      (forall q, In q prim_pairs ->
                 prim_diff rate parent_rate p <= prim_diff rate parent_rate q) /\
      (p = (7, 7) \/
       (prim_diff rate parent_rate p < prim_diff rate parent_rate (7, 7) /\
        exists pre post,
          prim_pairs = pre ++ p :: post /\
          forall q, In q pre ->
                    prim_diff rate parent_rate p < prim_diff rate parent_rate q))).
Proof.
  cbn zeta. unfold get_pll_prim_dividers.
  set (b0 := PrimBest 7 7 _).
  assert (Hinv : prim_inv rate parent_rate [] b0).
  { unfold prim_inv, b0; cbn [best_div1 best_div2 prim_rate_diff].
    repeat split; [lia | intros q [] | now left]. }
  destruct (prim_loop_spec rate parent_rate prim_pairs [] b0 Hinv)
    as [Hex|(Hno & _ & _ & Hmin & Hfirst)].
  - left. exact Hex.
  - right. repeat split; [exact Hno | exact Hmin | exact Hfirst].
Qed.

(** ** Clock: the divider choice *)

(** On nodes whose integer divider is at most 16 bits wide, and for rates
    below 2^32, [rp1_clock_choose_div] computes what the spec says. *)
Lemma rp1_clock_choose_div_spec data rate parent_rate :
  0 <= rate < 2 ^ 32 -> 0 <= parent_rate < 2 ^ 32 ->
  0 <= div_int_max data <= DIV_INT_16BIT_MAX ->
  rp1_clock_choose_div rate parent_rate data =
  Some (if (rate =? 0) || (parent_rate + parent_rate / 2 ^ 16 <? rate) then 0
        else clamp (if negb (div_frac_reg data =? 0)
                    then (parent_rate * 2 ^ 16 + rate / 2) / rate
                    else (parent_rate + rate / 2) / rate * 2 ^ 16)
                   (2 ^ 16) (div_int_max data * 2 ^ 16)).
Proof.
  intros Hr Hp Hmax. unfold rp1_clock_choose_div, CLK_DIV_FRAC_BITS.
  unfold DIV_INT_16BIT_MAX in Hmax.
  rewrite !Z.shiftr_div_pow2, !Z.shiftl_mul_pow2 by lia.
  assert (Hq : 0 <= parent_rate / 2 ^ 16 <= parent_rate).
  { split; [apply Z.div_pos; lia|]. apply Z.div_le_upper_bound; lia. }
  rewrite (u64_small (parent_rate + _)) by lia.
  destruct (Z.eqb_spec rate 0) as [->|Hr0]; [reflexivity|].
  cbn [orb].
  destruct (parent_rate + parent_rate / 2 ^ 16 <? rate); [reflexivity|].
  assert (Hh : 0 <= rate / 2 ^ 1 <= rate).
  { split; [apply Z.div_pos; lia|]. apply Z.div_le_upper_bound; lia. }
  unfold DIV_U64_NEAREST, div_u64.
  rewrite !Z.shiftr_div_pow2 by lia.
  rewrite (u32_small rate) by lia.
  destruct (Z.eqb_spec rate 0) as [|_]; [lia|].
  change (2 ^ 1) with 2 in *.
  assert (Hclamp : forall v, u32 (clamp v (1 * 2 ^ 16) (div_int_max data * 2 ^ 16))
                             = clamp v (2 ^ 16) (div_int_max data * 2 ^ 16)).
  { intros v. apply u32_small. unfold clamp. lia. }
  destruct (negb (div_frac_reg data =? 0)).
  - rewrite (u64_small (parent_rate * 2 ^ 16)) by lia.
    rewrite (u64_small (parent_rate * 2 ^ 16 + rate / 2)) by lia.
    now rewrite Hclamp.
  - rewrite (u64_small (parent_rate + rate / 2)) by lia.
    assert (Hd : 0 <= (parent_rate + rate / 2) / rate < 2 ^ 33).
    { split; [apply Z.div_pos; lia|]. apply Z.div_lt_upper_bound; lia. }
    rewrite Z.shiftl_mul_pow2 by lia.
    rewrite (u64_small (_ * 2 ^ 16)) by lia.
    now rewrite Hclamp.
Qed.

(** The spec's example: a fractional node, 200 MHz parent, 100 MHz target
    gives 2 << 16; a zero target gives "no divider". *)
Example rp1_clock_choose_div_example :
  rp1_clock_choose_div (100 * MHz) (200 * MHz) clk_pwm0_data = Some 0x20000 /\
  rp1_clock_choose_div 0 (200 * MHz) clk_pwm0_data = Some 0.
Proof. split; reflexivity. Qed.

(** C6: on [clk_sys], whose [div_int_max] is [DIV_INT_24BIT_MAX], the clamped
    64-bit divider does not fit the [u32] the function returns.  For a
    200 MHz parent and a 1 kHz target the clamp of the claim gives
    200000 << 16 = 0x30D400000, and the function returns its low 32 bits,
    0x0D400000 (a divider of 3392). *)
Theorem rp1_clock_choose_div_clk_sys_truncated :
  rp1_clock_choose_div 1000 (200 * MHz) clk_sys_data = Some 0x0D400000 /\
  clamp ((200 * MHz + 1000 / 2) / 1000 * 2 ^ 16) (2 ^ 16)
        (div_int_max clk_sys_data * 2 ^ 16) = 0x30D400000.
Proof. split; reflexivity. Qed.

(** ** The coordinated PLL-chain retune *)

Lemma prim_divs_range p : In p prim_divs -> 2 <= p <= 49.
Proof.
  unfold prim_divs. cbn [In]. intros H.
  repeat (destruct H as [<-|H]; [lia|]). destruct H.
Qed.

(** The inner loop finds the smallest secondary divisor that reaches
    [core_min], when the products do not wrap. *)
Lemma first_div_clk_spec t m p :
  0 <= t -> 0 < p ->
  forall n a,
    (forall d', Z.of_nat a <= d' < Z.of_nat (a + n) -> t * d' * p < 2 ^ 64) ->
    match first_div_clk t m p (map Z.of_nat (seq a n)) with
    | Some (d, r) =>
        Z.of_nat a <= d < Z.of_nat (a + n) /\ r = t * d * p /\ m <= r /\
        forall d', Z.of_nat a <= d' < d -> t * d' * p < m
    | None => forall d', Z.of_nat a <= d' < Z.of_nat (a + n) -> t * d' * p < m
    end.
Proof.
  intros Ht Hp. induction n as [|n IH]; intros a Hov; cbn [seq map first_div_clk].
  - intros d' Hd'. lia.
  - assert (Hle : t * Z.of_nat a * p < 2 ^ 64) by (apply Hov; lia).
    assert (H0 : 0 <= t * Z.of_nat a) by (apply Z.mul_nonneg_nonneg; lia).
    assert (H1 : t * Z.of_nat a <= t * Z.of_nat a * p) by nia.
    rewrite (u64_small (t * Z.of_nat a)) by lia.
    rewrite (u64_small (t * Z.of_nat a * p)) by lia.
    destruct (Z.leb_spec m (t * Z.of_nat a * p)) as [Hm|Hm].
    + repeat split; try lia.
    + specialize (IH (S a)).
      replace (S a + n)%nat with (a + S n)%nat in IH by lia.
      specialize (IH ltac:(intros d' Hd'; apply Hov; lia)).
      destruct (first_div_clk t m p (map Z.of_nat (seq (S a) n)))
        as [[d r]|].
      * destruct IH as (Hd & Hr & Hmr & Hsm). repeat split; try lia.
        intros d' Hd'. destruct (Z.eq_dec d' (Z.of_nat a)) as [->|Hne];
          [exact Hm | apply Hsm; lia].
      * intros d' Hd'. destruct (Z.eq_dec d' (Z.of_nat a)) as [->|Hne];
          [exact Hm | apply IH; lia].
Qed.

Lemma core_pll_search_spec t m prims :
  0 <= t -> t * 256 * 49 < 2 ^ 64 ->
  (forall p, In p prims -> 2 <= p <= 49) ->
  forall seen best,
    core_search_inv t m seen best ->
    core_search_inv t m (seen ++ prims) (core_pll_search t m best prims).
Proof.
  intros Ht Hov. induction prims as [|p prims IH]; intros Hps seen best Hinv.
  - cbn. now rewrite app_nil_r.
  - cbn [core_pll_search].
    replace (seen ++ p :: prims) with ((seen ++ [p]) ++ prims)
      by now rewrite <- app_assoc.
    apply IH; [intros q Hq; apply Hps; now right|].
    assert (Hp : 2 <= p <= 49) by (apply Hps; now left).
    assert (Hov' : forall d', Z.of_nat 1 <= d' < Z.of_nat (1 + 256) ->
                              t * d' * p < 2 ^ 64).
    { intros d' Hd'. change (Z.of_nat (1 + 256)) with 257 in Hd'.
      assert (t * d' <= t * 256) by (apply Z.mul_le_mono_nonneg_l; lia).
      assert (t * d' * p <= t * 256 * p)
        by (apply Z.mul_le_mono_nonneg_r; lia).
      assert (t * 256 * p <= t * 256 * 49)
        by (apply Z.mul_le_mono_nonneg_l; lia).
      lia. }
    pose proof (first_div_clk_spec t m p Ht ltac:(lia) 256 1 Hov') as Hf.
    fold div_clks in Hf.
    destruct best as [[r bp] bd]. cbn [core_search_inv] in Hinv.
    destruct Hinv as (Hmin & Hbest).
    destruct (first_div_clk t m p div_clks) as [[d cr]|].
    + destruct Hf as (Hd & Hcr & Hm & Hsm). cbn [fst].
      assert (Hmono : forall d', 1 <= d' <= 256 -> m <= t * d' * p ->
                                 cr <= t * d' * p).
      { intros d' Hd' Hm'. subst cr.
        assert (d <= d').
        { destruct (Z.le_gt_cases d d') as [|Hlt]; [assumption|].
          specialize (Hsm d' ltac:(lia)). lia. }
        apply Z.mul_le_mono_nonneg_r; [lia|].
        apply Z.mul_le_mono_nonneg_l; lia. }
      destruct (Z.ltb_spec cr r) as [Hlt|Hge].
      * cbn [core_search_inv]. split.
        -- intros p' d' Hin Hd' Hm'.
           apply in_app_or in Hin as [Hin|[<-|[]]].
           ++ specialize (Hmin p' d' Hin Hd' Hm'). lia.
           ++ now apply Hmono.
        -- right. repeat split; try lia.
           ++ apply in_or_app. right. now left.
           ++ destruct Hbest as [E|(_ & _ & _ & _ & Hr)];
                [injection E as -> _ _|]; lia.
      * cbn [core_search_inv]. split.
        -- intros p' d' Hin Hd' Hm'.
           apply in_app_or in Hin as [Hin|[<-|[]]].
           ++ now apply Hmin.
           ++ specialize (Hmono d' Hd' Hm'). lia.
        -- destruct Hbest as [E|(Hin & Hbd & Hr & Hmr & Hrm)]; [now left|].
           right. repeat split; try lia. apply in_or_app. now left.
    + cbn [core_search_inv]. split.
      * intros p' d' Hin Hd' Hm'.
        apply in_app_or in Hin as [Hin|[<-|[]]].
        -- now apply Hmin.
        -- specialize (Hf d' ltac:(lia)). lia.
      * destruct Hbest as [E|(Hin & Hbd & Hr & Hmr & Hrm)]; [now left|].
        right. repeat split; try lia. apply in_or_app. now left.
Qed.

(** The rate [calc_core_pll_rate] returns for a selected VCO rate [v] is the
    rate re-derived from the 24-bit-rounded feedback divisor, as long as the
    divisor fits the [int] variables that hold it. *)
Lemma core_rate_rederived x v :
  18750000 <= x < 2 ^ 60 -> 0 <= v < core_max ->
  let div := u64 (u64 (Z.shiftl v 24) + x / 2) / x in
  let div_int := s32 (Z.shiftr div 24) in
  let div_frac := s32 (div mod Z.shiftl 1 24) in
  Z.shiftr
    (u64 (u64 (x * u64 (s32 (s32 (Z.shiftl div_int 24) + div_frac)))
          + Z.shiftl 1 23)) 24
  = rederived_rate x v.
Proof.
  intros Hx Hv. unfold core_max in Hv. cbn zeta.
  rewrite !Z.shiftl_mul_pow2, !Z.shiftr_div_pow2 by lia.
  rewrite (u64_small (v * 2 ^ 24)) by lia.
  assert (Hh : 0 <= x / 2 /\ 2 * (x / 2) <= x).
  { pose proof (Z.div_mod x 2 ltac:(lia)).
    pose proof (Z.mod_pos_bound x 2 ltac:(lia)). lia. }
  rewrite (u64_small (v * 2 ^ 24 + x / 2)) by lia.
  set (D := (v * 2 ^ 24 + x / 2) / x).
  assert (HD : 0 <= D < 2 ^ 31).
  { split; [apply Z.div_pos; lia|]. apply Z.div_lt_upper_bound; lia. }
  assert (Hq : 0 <= D / 2 ^ 24 < 2 ^ 7).
  { split; [apply Z.div_pos; lia | apply Z.div_lt_upper_bound; lia]. }
  assert (Hm : 0 <= D mod 2 ^ 24 < 2 ^ 24) by (apply Z.mod_pos_bound; lia).
  change (1 * 2 ^ 24) with (2 ^ 24). change (1 * 2 ^ 23) with (2 ^ 23).
  rewrite (s32_small (D / 2 ^ 24)) by lia.
  rewrite (s32_small (D mod 2 ^ 24)) by lia.
  pose proof (Z.div_mod D (2 ^ 24) ltac:(lia)) as Hdm.
  rewrite (s32_small (D / 2 ^ 24 * 2 ^ 24)) by lia.
  replace (D / 2 ^ 24 * 2 ^ 24 + D mod 2 ^ 24) with D by lia.
  rewrite (s32_small D) by lia. rewrite (u64_small D) by lia.
  assert (HxD : 0 <= x * D <= v * 2 ^ 24 + x / 2).
  { split; [apply Z.mul_nonneg_nonneg; lia|]. apply Z.mul_div_le. lia. }
  rewrite (u64_small (x * D)) by lia.
  rewrite (u64_small (x * D + 2 ^ 23)) by lia.
  reflexivity.
Qed.

(** For a reference of 2^60 Hz or more the feedback divisor of any VCO rate
    below 2.4 GHz rounds to 0, and so does the rate re-derived from it. *)
Lemma core_rate_rederived_zero x v :
  2 ^ 60 <= x < 2 ^ 64 -> 0 <= v < core_max ->
  let div := u64 (u64 (Z.shiftl v 24) + x / 2) / x in
  let div_int := s32 (Z.shiftr div 24) in
  let div_frac := s32 (div mod Z.shiftl 1 24) in
  Z.shiftr
    (u64 (u64 (x * u64 (s32 (s32 (Z.shiftl div_int 24) + div_frac)))
          + Z.shiftl 1 23)) 24
  = 0.
Proof.
  intros Hx Hv. unfold core_max in Hv. cbn zeta.
  rewrite (Z.shiftl_mul_pow2 v) by lia.
  rewrite (u64_small (v * 2 ^ 24)) by lia.
  assert (Hh : 2 ^ 59 <= x / 2 /\ 2 * (x / 2) <= x).
  { pose proof (Z.div_mod x 2 ltac:(lia)).
    pose proof (Z.mod_pos_bound x 2 ltac:(lia)). lia. }
  rewrite (u64_small (v * 2 ^ 24 + x / 2)) by lia.
  rewrite (Z.div_small (v * 2 ^ 24 + x / 2) x) by lia.
  change (u64 (s32 (s32 (Z.shiftl (s32 (Z.shiftr 0 24)) 24)
                    + s32 (0 mod Z.shiftl 1 24)))) with 0.
  rewrite Z.mul_0_r. reflexivity.
Qed.

Lemma rederived_rate_bounds x v :
  0 < x -> 0 <= v ->
  v - x / 2 ^ 25 - 1 <= rederived_rate x v <= v + x / 2 ^ 25 + 1 /\
  (16 * x <= v -> 16 * x <= rederived_rate x v).
Proof.
  intros Hx Hv. unfold rederived_rate.
  set (D := (v * 2 ^ 24 + x / 2) / x).
  assert (Hup : x * D <= v * 2 ^ 24 + x / 2) by (apply Z.mul_div_le; lia).
  assert (Hlo : v * 2 ^ 24 + x / 2 < x * Z.succ D)
    by (apply Z.mul_succ_div_gt; lia).
  replace (x * Z.succ D) with (x * D + x) in Hlo by lia.
  split.
  - generalize dependent (x * D). intros X Hup Hlo.
    pose proof (Z.div_mod (X + 2 ^ 23) (2 ^ 24) ltac:(lia)) as H1.
    pose proof (Z.mod_pos_bound (X + 2 ^ 23) (2 ^ 24) ltac:(lia)) as H2.
    pose proof (Z.div_mod x (2 ^ 25) ltac:(lia)) as H3.
    pose proof (Z.mod_pos_bound x (2 ^ 25) ltac:(lia)) as H4.
    pose proof (Z.div_mod x 2 ltac:(lia)) as H5.
    pose proof (Z.mod_pos_bound x 2 ltac:(lia)) as H6.
    lia.
  - intros H16.
    assert (HD : 16 * 2 ^ 24 <= D).
    { apply Z.div_le_lower_bound; [lia|].
      assert (0 <= x / 2) by (apply Z.div_pos; lia). lia. }
    assert (x * (16 * 2 ^ 24) <= x * D)
      by (apply Z.mul_le_mono_nonneg_l; lia).
    apply Z.div_le_lower_bound; lia.
Qed.

(** C4 (as stated) fails: with the 50 MHz reference and a 1.536 MHz target
    the lowest VCO rate among the table combinations in
    [[16 * reference, 2.4 GHz)] is 1536000 * 174 * 3 = 801792000, but the
    value returned is 801791999, the rate re-derived from the rounded
    feedback divisor; it is the rate of no table combination. *)
Lemma calc_core_pll_rate_counterexample :
  calc_core_pll_rate 50000000 1536000 = Some (801791999, 3, 174) /\
  spec_min_vco_rate 50000000 1536000 = Some 801792000 /\
  forallb (fun v => negb (v =? 801791999))
          (vco_combinations 50000000 1536000) = true.
Proof. vm_compute. repeat split. Qed.

(** The re-derived rate can also reach the ceiling: with a 100 MHz reference
    and a 1199999999 Hz target the selected VCO rate is 2399999998, below
    2.4 GHz, and the rate returned is 2400000000. *)
Example calc_core_pll_rate_reaches_ceiling :
  calc_core_pll_rate 100000000 1199999999 = Some (2400000000, 2, 1).
Proof. vm_compute. reflexivity. Qed.

(** The bound on the reference is needed: at 18749999 Hz, with the same
    target, the feedback divisor of the selected VCO rate 2399999998 no
    longer fits the [int] that holds it, and the rate returned is
    1097111628030. *)
Example calc_core_pll_rate_divisor_overflow :
  calc_core_pll_rate 18749999 1199999999 = Some (1097111628030, 2, 1) /\
  calc_core_pll_rate 18750000 1199999999 = Some (2399999998, 2, 1).
Proof. vm_compute. split; reflexivity. Qed.

(** C4, amended: for every reference rate of at least 18.75 MHz (so that
    the feedback divisor fits an [int]; the rate is an [unsigned long],
    below 2^64) and every target with [target * 256 * 49 < 2^64] (so that no
    product of the search wraps), [calc_core_pll_rate] takes for each
    primary divisor of the table the smallest secondary divisor in 1..256
    with [target * secondary * primary >= 16 * reference], and selects the
    combination whose VCO rate [V] is the lowest; when [V] is below 2.4 GHz
    it returns not [V] but the rate re-derived from the 24-bit-rounded
    feedback divisor for [V], a value that is at least [16 * reference] and
    within [reference / 2^25 + 1] of [V]; when no combination stays below
    2.4 GHz it returns 0. *)
Theorem calc_core_pll_rate_selection (xosc_rate target_rate : Z) :
  0 <= target_rate -> target_rate * 256 * 49 < 2 ^ 64 ->
  18750000 <= xosc_rate < 2 ^ 64 ->
  exists core_rate div_prim div_clk,
    calc_core_pll_rate xosc_rate target_rate
    = Some (core_rate, div_prim, div_clk) /\
    ((core_rate = 0 /\
      forall p d, valid_combination xosc_rate target_rate p d ->
                  core_max <= target_rate * d * p)
     \/
     (let V := target_rate * div_clk * div_prim in
      valid_combination xosc_rate target_rate div_prim div_clk /\
      V < core_max /\
      (forall p d, valid_combination xosc_rate target_rate p d ->
                   V <= target_rate * d * p) /\
      core_rate = rederived_rate xosc_rate V /\
      16 * xosc_rate <= core_rate /\
      V - xosc_rate / 2 ^ 25 - 1 <= core_rate <= V + xosc_rate / 2 ^ 25 + 1)).
Proof.
  intros Ht Hov Hx. unfold calc_core_pll_rate.
  destruct (Z.lt_ge_cases xosc_rate (2 ^ 60)) as [Hsmall|Hbig].
  - rewrite (u64_small (xosc_rate * 16)) by lia.
    assert (Hinit : core_search_inv target_rate (xosc_rate * 16) []
                      (core_max + 1, 1, 1)).
    { cbn. split; [intros p d []|now left]. }
    pose proof (core_pll_search_spec target_rate (xosc_rate * 16) prim_divs
                  Ht Hov prim_divs_range [] _ Hinit) as Hinv.
    cbn [app] in Hinv.
    destruct (core_pll_search target_rate (xosc_rate * 16)
                (core_max + 1, 1, 1) prim_divs) as [[r p] d].
    cbn [core_search_inv] in Hinv. destruct Hinv as (Hmin & Hbest).
    destruct (Z.ltb_spec r core_max) as [Hlt|Hge].
    + destruct (Z.eqb_spec xosc_rate 0) as [|_]; [lia|].
      destruct Hbest as [E|(Hin & Hd & Hr & Hm & Hrm)];
        [injection E as -> _ _; lia|].
      assert (Hp := prim_divs_range p Hin).
      assert (Hr0 : 0 <= r).
      { subst r. apply Z.mul_nonneg_nonneg; [apply Z.mul_nonneg_nonneg|]; lia. }
      rewrite (core_rate_rederived xosc_rate r ltac:(lia) (conj Hr0 Hlt)).
      eexists _, p, d. split; [reflexivity|]. right. cbn zeta. rewrite <- Hr.
      destruct (rederived_rate_bounds xosc_rate r ltac:(lia) Hr0) as (Hb & H16).
      repeat split; try lia.
      * exact Hin.
      * intros p' d' (Hin' & Hd' & Hv'). apply Hmin; [exact Hin'|lia|lia].
    + eexists 0, p, d. split; [reflexivity|]. left. split; [reflexivity|].
      intros p' d' (Hin' & Hd' & Hv'). specialize (Hmin p' d' Hin' Hd').
      lia.
  - (* [16 * reference] wraps: whatever the search selects, the rate
       re-derived from it is 0, and no combination reaches the ratio *)
    assert (Hnone : forall p d, valid_combination xosc_rate target_rate p d ->
                                core_max <= target_rate * d * p).
    { intros p' d' (Hin' & Hd' & Hv'). exfalso.
      pose proof (prim_divs_range p' Hin') as Hp'.
      assert (target_rate * d' <= target_rate * 256)
        by (apply Z.mul_le_mono_nonneg_l; lia).
      assert (target_rate * d' * p' <= target_rate * 256 * p')
        by (apply Z.mul_le_mono_nonneg_r; lia).
      assert (target_rate * 256 * p' <= target_rate * 256 * 49)
        by (apply Z.mul_le_mono_nonneg_l; lia).
      lia. }
    pose proof (u64_range (xosc_rate * 16)) as Hm.
    assert (Hinit : core_search_inv target_rate (u64 (xosc_rate * 16)) []
                      (core_max + 1, 1, 1)).
    { cbn. split; [intros p d []|now left]. }
    pose proof (core_pll_search_spec target_rate (u64 (xosc_rate * 16))
                  prim_divs Ht Hov prim_divs_range [] _ Hinit) as Hinv.
    cbn [app] in Hinv.
    destruct (core_pll_search target_rate (u64 (xosc_rate * 16))
                (core_max + 1, 1, 1) prim_divs) as [[r p] d].
    cbn [core_search_inv] in Hinv. destruct Hinv as (_ & Hbest).
    destruct (Z.ltb_spec r core_max) as [Hlt|Hge].
    + destruct (Z.eqb_spec xosc_rate 0) as [|_]; [lia|].
      destruct Hbest as [E|(Hin & Hd & Hr & Hmr & Hrm)];
        [injection E as -> _ _; lia|].
      assert (Hr0 : 0 <= r) by lia.
      rewrite (core_rate_rederived_zero xosc_rate r ltac:(lia) (conj Hr0 Hlt)).
      eexists 0, p, d. split; [reflexivity|]. left.
      split; [reflexivity | exact Hnone].
    + eexists 0, p, d. split; [reflexivity|]. left.
      split; [reflexivity | exact Hnone].
Qed.

(** The hypotheses hold for the 50 MHz reference and a 1.536 MHz target. *)
Lemma calc_core_pll_rate_selection_witness :
  exists core_rate div_prim div_clk,
    calc_core_pll_rate 50000000 1536000 = Some (core_rate, div_prim, div_clk) /\
    ((core_rate = 0 /\
      forall p d, valid_combination 50000000 1536000 p d ->
                  core_max <= 1536000 * d * p)
     \/
     (let V := 1536000 * div_clk * div_prim in
      valid_combination 50000000 1536000 div_prim div_clk /\
      V < core_max /\
      (forall p d, valid_combination 50000000 1536000 p d ->
                   V <= 1536000 * d * p) /\
      core_rate = rederived_rate 50000000 V /\
      16 * 50000000 <= core_rate /\
      V - 50000000 / 2 ^ 25 - 1 <= core_rate <= V + 50000000 / 2 ^ 25 + 1)).
Proof. apply (calc_core_pll_rate_selection 50000000 1536000); lia. Defined.

(** ** PllCore: rounding and setting the rate *)

Ltac munfold :=
  unfold bind, ret, fail, spin_lock, spin_unlock, clockman_write,
    clockman_read, BUG_ON;
  cbn [regs regs_lock wlog now].





(** ** The register window: polling *)

(** A busy-wait only reads registers and samples the clock. *)
Lemma busy_wait_preserves ktime hw_status fuel ready reg timeout :
  forall c b c',
    busy_wait ktime hw_status fuel ready reg timeout c = Ok b c' ->
    regs c' = regs c /\ regs_lock c' = regs_lock c /\ wlog c' = wlog c /\
    (now c <= now c')%nat.
Proof.
  induction fuel as [|fuel IH]; intros c b c'; cbn [busy_wait];
    unfold bind, ret, fail, clockman_read, ktime_get.
  - discriminate.
  - destruct (ready _).
    + intros [= <- <-]. repeat split; lia.
    + destruct (_ <? _).
      * intros [= <- <-]. cbn. repeat split; lia.
      * intros H. apply IH in H as (H1 & H2 & H3 & H4). cbn in *.
        repeat split; try assumption. lia.
Qed.

(** ** PllCore: the power state report *)

Lemma land_bit_testbit x n :
  0 <= n -> negb (Z.land x (BIT n) =? 0) = Z.testbit x n.
Proof.
  intros Hn. unfold BIT. rewrite Z.shiftl_1_l.
  destruct (Z.testbit x n) eqn:Hb.
  - apply negb_true_iff, Z.eqb_neq. intros H0.
    assert (Hc : Z.testbit (Z.land x (2 ^ n)) n = true)
      by now rewrite Z.land_spec, Hb, Z.pow2_bits_true.
    rewrite H0, Z.bits_0 in Hc. discriminate.
  - apply negb_false_iff, Z.eqb_eq. apply Z.bits_inj'. intros k Hk.
    rewrite Z.land_spec, Z.bits_0.
    destruct (Z.eq_dec n k) as [<-|Hne]; [now rewrite Hb|].
    rewrite Z.pow2_bits_false by assumption. apply andb_false_r.
Qed.

(** C10: [is_enabled] reports true exactly when [PLL_PWR_PD] or
    [PLL_PWR_POSTDIVPD] is set in the power register; so, the power register
    reading back what was written, it reports false after [disable()], which
    writes 0 there, and false after every successful [enable()]; an
    [enable()] that finds the PLL locked with a nonzero fractional divisor
    programmed also writes 0 there. *)
Theorem rp1_pll_core_is_on_reports_power_down ktime hw_status pll_core :
  let data := core_data pll_core in
  (forall n, hw_status n (pwr_reg data) = None) ->
  (forall c,
      rp1_pll_core_is_on hw_status pll_core c = true <->
      (Z.testbit (readl hw_status c (pwr_reg data)) 0 = true \/
       Z.testbit (readl hw_status c (pwr_reg data)) 3 = true)) /\
  (forall c, regs_lock c = false ->
     exists c',
       rp1_pll_core_off pll_core c = Ok tt c' /\
       regs c' !! pwr_reg data = Some 0 /\
       rp1_pll_core_is_on hw_status pll_core c' = false) /\
  (forall fuel c c',
     regs_lock c = false ->
     rp1_pll_core_on ktime hw_status fuel pll_core c = Ok 0 c' ->
     rp1_pll_core_is_on hw_status pll_core c' = false /\
     (Z.land (readl hw_status c (cs_reg data)) PLL_CS_LOCK <> 0 ->
      readl hw_status c (fbdiv_frac_reg data) <> 0 ->
      regs c' !! pwr_reg data = Some 0)).
Proof.
  cbn zeta. intros Hst. split; [|split].
  - intros c. unfold rp1_pll_core_is_on, PLL_PWR_PD, PLL_PWR_POSTDIVPD.
    rewrite !land_bit_testbit by lia. apply orb_true_iff.
  - intros c Hl. unfold rp1_pll_core_off. munfold. rewrite Hl.
    eexists. split; [reflexivity|]. cbn [regs].
    split; [now rewrite lookup_insert_eq|].
    unfold rp1_pll_core_is_on, readl. cbn [regs now].
    rewrite Hst, lookup_insert_eq. reflexivity.
  - intros fuel c c' Hl. unfold rp1_pll_core_on. munfold. rewrite Hl.
    set (cl := Clockman (regs c) true (wlog c) (now c)).
    change (readl hw_status c) with (readl hw_status cl).
    (* whatever the branch, the last write to the power register is 0 or
       PLL_PWR_DSMPD, and the wait for the lock does not write *)
    assert (Hend : forall c1 pwr,
      pwr = 0 \/ pwr = PLL_PWR_DSMPD ->
      match busy_wait ktime hw_status fuel
              (fun v => negb (Z.land v PLL_CS_LOCK =? 0))
              (cs_reg (core_data pll_core))
              (ktime (now c1) + LOCK_TIMEOUT_NS)
              (Clockman (<[pwr_reg (core_data pll_core) := u32 pwr]> (regs c1))
                 false ((pwr_reg (core_data pll_core), u32 pwr) :: wlog c1)
                 (S (now c1)))
      with
      | Ok locked c2 => (if negb locked then ret (- ETIMEDOUT) else ret 0) c2
      | Fault f => Fault f
      end = Ok 0 c' ->
      rp1_pll_core_is_on hw_status pll_core c' = false /\
      regs c' !! pwr_reg (core_data pll_core) = Some (u32 pwr)).
    { intros c1 pwr Hpwr.
      destruct (busy_wait _ _ _ _ _ _ _) as [b c3|] eqn:Hbw; [|discriminate].
      apply busy_wait_preserves in Hbw as (Hregs & _ & _ & _).
      cbn [regs] in Hregs.
      destruct b; cbn [negb]; unfold ret; intros [= <-].
      assert (Hp : regs c3 !! pwr_reg (core_data pll_core) = Some (u32 pwr))
        by (rewrite Hregs; apply lookup_insert_eq).
      split; [|exact Hp].
      unfold rp1_pll_core_is_on, readl. rewrite Hst, Hp.
      now destruct Hpwr as [-> | ->]. }
    destruct (Z.eqb_spec (Z.land (readl hw_status cl (cs_reg (core_data pll_core)))
                                 PLL_CS_LOCK) 0) as [Hunl|Hlocked].
    + (* not locked: reset to a known state first *)
      subst cl. cbn [regs regs_lock wlog now].
      match goal with
      | |- context [u32 (if ?b then 0 else PLL_PWR_DSMPD)] =>
          assert (Hpwr : (if b then 0 else PLL_PWR_DSMPD) = 0 \/
                         (if b then 0 else PLL_PWR_DSMPD) = PLL_PWR_DSMPD)
            by (destruct b; auto);
          set (pwr := if b then 0 else PLL_PWR_DSMPD) in *
      end.
      unfold ktime_get. cbn [regs regs_lock wlog now].
      intros Hrun.
      match type of Hrun with
      | context [busy_wait _ _ _ _ _ _ (Clockman (<[_ := _]> ?r) _ (_ :: ?w) (S ?n))] =>
          destruct (Hend (Clockman r true w n) pwr Hpwr Hrun) as (Hoff & _)
      end.
      split; [exact Hoff|]. intros Hc. contradiction.
    + subst cl. cbn [regs regs_lock wlog now].
      match goal with
      | |- context [u32 (if ?b then 0 else PLL_PWR_DSMPD)] =>
          assert (Hpwr : (if b then 0 else PLL_PWR_DSMPD) = 0 \/
                         (if b then 0 else PLL_PWR_DSMPD) = PLL_PWR_DSMPD)
            by (destruct b; auto);
          destruct b eqn:Hfrac
      end.
      * unfold ktime_get. cbn [regs regs_lock wlog now]. intros Hrun.
        destruct (Hend (Clockman (regs c) true (wlog c) (now c)) 0
                    (or_introl eq_refl) Hrun) as (Hoff & Hp).
        split; [exact Hoff|]. intros _ _. exact Hp.
      * unfold ktime_get. cbn [regs regs_lock wlog now]. intros Hrun.
        destruct (Hend (Clockman (regs c) true (wlog c) (now c)) PLL_PWR_DSMPD
                    (or_intror eq_refl) Hrun) as (Hoff & Hp).
        split; [exact Hoff|]. intros _ Hnz.
        apply negb_false_iff, Z.eqb_eq in Hfrac. contradiction.
Qed.

(** The hypotheses hold for [pll_sys_core], locked, with a fractional divisor
    programmed. *)
Lemma rp1_pll_core_is_on_reports_power_down_witness :
  let hw_status := fun (_ : nat) reg =>
                     if reg =? 0x08000 then Some PLL_CS_LOCK else None in
  let ktime := fun n => Z.of_nat n in
  let pll_core := {| core_hw := 0%nat; core_data := pll_sys_core_data;
                     core_cached_rate := 0 |} in
  let c := Clockman {[ 0x0800c := 0x123 ]} false [] 0 in
  (forall n, hw_status n (pwr_reg pll_sys_core_data) = None) /\
  (exists c', rp1_pll_core_off pll_core c = Ok tt c' /\
              rp1_pll_core_is_on hw_status pll_core c' = false) /\
  (exists c', rp1_pll_core_on ktime hw_status 1 pll_core c = Ok 0 c' /\
              rp1_pll_core_is_on hw_status pll_core c' = false /\
              regs c' !! pwr_reg pll_sys_core_data = Some 0).
Proof.
  intros hw_status ktime pll_core c.
  assert (Hst : forall n, hw_status n (pwr_reg pll_sys_core_data) = None)
    by (intros n; reflexivity).
  destruct (rp1_pll_core_is_on_reports_power_down ktime hw_status pll_core Hst)
    as (_ & Hoff & Hon).
  split; [exact Hst|]. split.
  - destruct (Hoff c eq_refl) as (c' & E & _ & H). exists c'. now split.
  - eexists. split; [vm_compute; reflexivity|].
    match goal with
    | |- rp1_pll_core_is_on _ _ ?c1 = false /\ _ =>
        destruct (Hon 1%nat c c1 eq_refl ltac:(vm_compute; reflexivity))
          as (H1 & H2)
    end.
    split; [exact H1|]. apply H2; vm_compute; lia.
Defined.

(** ** Clock: selecting the parent *)

(** C3: [rp1_clock_set_parent] takes the lock and, for an index outside the
    declared parents, returns [-EINVAL] from inside the locked region: the
    request is rejected and no register is written, but the lock is still
    held when the function returns. *)
Theorem rp1_clock_set_parent_invalid_index_keeps_lock hw_status clock index c :
  let data := clock_data clock in
  regs_lock c = false ->
  0 <= num_aux_parents data ->
  num_std_parents data + num_aux_parents data <= index ->
  exists c',
    rp1_clock_set_parent hw_status clock index c = Ok (- EINVAL) c' /\
    regs c' = regs c /\ wlog c' = wlog c /\
    regs_lock c' = true.
Proof.
  cbn zeta. intros Hl Haux Hidx. unfold rp1_clock_set_parent. munfold.
  rewrite Hl.
  destruct (Z.leb_spec (num_std_parents (clock_data clock)) index); [|lia].
  destruct (Z.leb_spec (num_std_parents (clock_data clock)
                        + num_aux_parents (clock_data clock)) index); [|lia].
  eexists. split; [reflexivity|]. cbn. repeat split.
Qed.

(** The hypotheses hold for [clk_sys], which declares three parents, and
    index 3. *)
Lemma rp1_clock_set_parent_invalid_index_keeps_lock_witness :
  let clock := {| clock_hw := 0%nat; clock_data := clk_sys_data;
                  clock_cached_rate := 0 |} in
  let c := Clockman ∅ false [] 0 in
  exists c',
    rp1_clock_set_parent (fun _ _ => None) clock 3 c = Ok (- EINVAL) c' /\
    regs c' = regs c /\ wlog c' = wlog c /\
    regs_lock c' = true.
Proof.
  intros clock c.
  apply (rp1_clock_set_parent_invalid_index_keeps_lock (fun _ _ => None) clock 3 c);
    [reflexivity | cbn; lia | cbn; lia].
Defined.

(** The sibling paths release the lock: a declared index is programmed and
    the function returns 0 with the lock free. *)
Lemma rp1_clock_set_parent_valid_releases hw_status clock index c :
  let data := clock_data clock in
  regs_lock c = false ->
  index < num_std_parents data + num_aux_parents data ->
  exists c' ctrl,
    rp1_clock_set_parent hw_status clock index c = Ok 0 c' /\
    wlog c' = (ctrl_reg data, ctrl) :: wlog c /\
    regs_lock c' = false.
Proof.
  cbn zeta. intros Hl Hidx. unfold rp1_clock_set_parent. munfold.
  rewrite Hl.
  destruct (Z.leb_spec (num_std_parents (clock_data clock)) index).
  - destruct (Z.leb_spec (num_std_parents (clock_data clock)
                          + num_aux_parents (clock_data clock)) index); [lia|].
    eexists _, _. split; [reflexivity|]. cbn. split; reflexivity.
  - eexists _, _. split; [reflexivity|]. cbn. split; reflexivity.
Qed.

(** Once the lock has leaked, the next operation that takes it spins
    forever. *)
Lemma rp1_clock_off_after_leak clock c :
  regs_lock c = true -> rp1_clock_off (fun _ _ => None) clock c = Fault Deadlock.
Proof.
  intros Hl. unfold rp1_clock_off, bind, spin_lock. now rewrite Hl.
Qed.

(** ** The frequency counter *)

Lemma busy_wait_result ktime hw_status ready reg timeout :
  forall d c,
    timeout < ktime (now c + d)%nat ->
    exists b c',
      forall fuel, (d < fuel)%nat ->
        busy_wait ktime hw_status fuel ready reg timeout c = Ok b c'.
Proof.
  induction d as [|d IH]; intros c Hd.
  - destruct (ready (readl hw_status c reg)) eqn:Hr.
    + exists true, c. intros [|fuel] Hf; [lia|].
      cbn [busy_wait]. unfold bind, clockman_read. now rewrite Hr.
    + eexists false, _. intros [|fuel] Hf; [lia|].
      cbn [busy_wait]. unfold bind, clockman_read, ktime_get. rewrite Hr.
      replace (now c + 0)%nat with (now c) in Hd by lia.
      destruct (Z.ltb_spec timeout (ktime (now c))); [reflexivity|lia].
  - destruct (ready (readl hw_status c reg)) eqn:Hr.
    + exists true, c. intros [|fuel] Hf; [lia|].
      cbn [busy_wait]. unfold bind, clockman_read. now rewrite Hr.
    + destruct (Z.ltb_spec timeout (ktime (now c))) as [Hlt|Hge].
      * eexists false, _. intros [|fuel] Hf; [lia|].
        cbn [busy_wait]. unfold bind, clockman_read, ktime_get. rewrite Hr.
        destruct (Z.ltb_spec timeout (ktime (now c))); [reflexivity|lia].
      * destruct (IH (Clockman (regs c) (regs_lock c) (wlog c) (S (now c))))
          as (b & c' & Hrun).
        { cbn [now]. now replace (S (now c) + d)%nat with (now c + S d)%nat by lia. }
        exists b, c'. intros [|fuel] Hf; [lia|].
        cbn [busy_wait]. unfold bind, clockman_read, ktime_get. rewrite Hr.
        destruct (Z.ltb_spec timeout (ktime (now c))); [lia|].
        apply Hrun. lia.
Qed.

(** Every bounded busy-wait returns once it is given enough polling budget,
    and its result does not depend on the budget. *)
Lemma busy_wait_terminates ktime hw_status ready reg timeout c :
  clock_advances ktime ->
  exists N b c',
    (forall fuel, (N <= fuel)%nat ->
       busy_wait ktime hw_status fuel ready reg timeout c = Ok b c') /\
    regs c' = regs c /\ regs_lock c' = regs_lock c /\ wlog c' = wlog c.
Proof.
  intros Hadv. destruct (Hadv (now c) timeout) as (m & Hm & Ht).
  destruct (busy_wait_result ktime hw_status ready reg timeout (m - now c) c)
    as (b & c' & Hrun).
  { now replace (now c + (m - now c))%nat with m by lia. }
  exists (S (m - now c)), b, c'. split; [intros fuel Hf; apply Hrun; lia|].
  specialize (Hrun (S (m - now c)) ltac:(lia)).
  apply busy_wait_preserves in Hrun. tauto.
Qed.

(** A wait whose condition never shows ends in a timeout. *)
Lemma busy_wait_never_ready ktime hw_status ready reg timeout :
  (forall c, ready (readl hw_status c reg) = false) ->
  forall fuel c b c',
    busy_wait ktime hw_status fuel ready reg timeout c = Ok b c' -> b = false.
Proof.
  intros Hnever. induction fuel as [|fuel IH]; intros c b c'; cbn [busy_wait];
    unfold bind, ret, fail, clockman_read, ktime_get.
  - discriminate.
  - rewrite Hnever. destruct (_ <? _); [now intros [= <- _]|]. apply IH.
Qed.

(** A wait that times out returns right after the first clock sample beyond
    its deadline. *)
Lemma busy_wait_timed_out ktime hw_status ready reg timeout :
  forall fuel c c',
    busy_wait ktime hw_status fuel ready reg timeout c = Ok false c' ->
    exists m, now c' = S m /\ (now c <= m)%nat /\ timeout < ktime m /\
              forall k, (now c <= k < m)%nat -> ktime k <= timeout.
Proof.
  induction fuel as [|fuel IH]; intros c c'; cbn [busy_wait];
    unfold bind, ret, fail, clockman_read, ktime_get.
  - discriminate.
  - destruct (ready _); [discriminate|].
    destruct (Z.ltb_spec timeout (ktime (now c))) as [Hlt|Hge].
    + intros [= <-]. exists (now c). cbn [now]. repeat split; try lia.
    + intros Hrun. apply IH in Hrun as (m & Hm & Hle & Hlt & Hbefore).
      cbn [now] in Hle, Hbefore. exists m. repeat split; try lia.
      intros k Hk. destruct (Nat.eq_dec k (now c)) as [->|Hne];
        [exact Hge | apply Hbefore; lia].
Qed.

(** *** Rules for [total] *)

Lemma total_ret {A} (a : A) c (Q : A -> rp1_clockman -> Prop) :
  Q a c -> total (fun _ => ret a) c Q.
Proof. intros H. exists 0%nat, a, c. split; [reflexivity | exact H]. Qed.

Lemma total_step {A B} (m : M A) (k : nat -> A -> M B) c a c' Q :
  m c = Ok a c' ->
  total (fun fuel => k fuel a) c' Q ->
  total (fun fuel => bind m (k fuel)) c Q.
Proof.
  intros Hm (N & b & c'' & Hk & HQ). exists N, b, c''. split; [|exact HQ].
  intros fuel Hf. unfold bind. rewrite Hm. now apply Hk.
Qed.

Lemma total_bind {A B} (m : nat -> M A) (k : nat -> A -> M B) c
    (R : A -> rp1_clockman -> Prop) Q :
  total m c R ->
  (forall a c', R a c' -> total (fun fuel => k fuel a) c' Q) ->
  total (fun fuel => bind (m fuel) (k fuel)) c Q.
Proof.
  intros (N1 & a & c' & Hm & HR) Hk.
  destruct (Hk a c' HR) as (N2 & b & c'' & Hk' & HQ).
  exists (Nat.max N1 N2), b, c''. split; [|exact HQ].
  intros fuel Hf. unfold bind. rewrite Hm by lia. apply Hk'. lia.
Qed.

Lemma total_conseq {A} (m : nat -> M A) c (Q Q' : A -> rp1_clockman -> Prop) :
  total m c Q -> (forall a c', Q a c' -> Q' a c') -> total m c Q'.
Proof.
  intros (N & a & c' & Hm & HQ) HQQ. exists N, a, c'. split; auto.
Qed.

Lemma total_busy_wait ktime hw_status ready reg timeout c :
  clock_advances ktime ->
  total (fun fuel => busy_wait ktime hw_status fuel ready reg timeout) c
    (fun b c' =>
       regs c' = regs c /\ regs_lock c' = regs_lock c /\ wlog c' = wlog c /\
       ((forall c0, ready (readl hw_status c0 reg) = false) -> b = false) /\
       (b = false ->
        exists m, now c' = S m /\ (now c <= m)%nat /\ timeout < ktime m /\
                  forall k, (now c <= k < m)%nat -> ktime k <= timeout)).
Proof.
  intros Hadv.
  destruct (busy_wait_terminates ktime hw_status ready reg timeout c Hadv)
    as (N & b & c' & Hrun & Hr & Hl & Hw).
  exists N, b, c'. split; [exact Hrun|]. repeat split; try assumption.
  - intros Hnever.
    exact (busy_wait_never_ready ktime hw_status ready reg timeout Hnever
             N c b c' (Hrun N (Nat.le_refl N))).
  - intros ->.
    exact (busy_wait_timed_out ktime hw_status ready reg timeout N c c'
             (Hrun N (Nat.le_refl N))).
Qed.

Ltac total_prim :=
  eapply total_step;
  [ unfold spin_lock, spin_unlock, clockman_write, clockman_read, ktime_get;
    cbn [regs regs_lock wlog now];
    repeat match goal with H : regs_lock _ = _ |- _ => rewrite H end;
    reflexivity
  | cbn beta ].

(** The measurement, seen as an operation of the clock manager: it always
    returns with the lock released once it has enough polling budget; it
    returns 0 when one of its waits times out, and if the counter never
    becomes idle it does so, without a write, right after the first clock
    sample beyond the 100 ms deadline. *)
Lemma clockman_measure_clock_total ktime hw_status ref_rate fc0_src c :
  clock_advances ktime ->
  regs_lock c = false ->
  let status := u32 fc0_src / 32 * FC_SIZE + FC0_STATUS in
  total (fun fuel =>
           clockman_measure_clock ktime hw_status ref_rate fuel fc0_src) c
    (fun result c' =>
       regs_lock c' = false /\
       (exists later, wlog c' = later ++ wlog c) /\
       ((forall c0, Z.land (readl hw_status c0 status) FC0_STATUS_RUNNING <> 0) ->
        result = 0 /\ wlog c' = wlog c /\ regs c' = regs c /\
        (c' = c \/
         exists m, now c' = S m /\ (now c < m)%nat /\
                   ktime (now c) + FC_TIMEOUT_NS < ktime m /\
                   forall k, (now c < k < m)%nat ->
                             ktime k <= ktime (now c) + FC_TIMEOUT_NS)) /\
       ((forall c0, Z.land (readl hw_status c0 status) FC0_STATUS_DONE = 0) ->
        result = 0)).
Proof.
  intros Hadv Hl status. unfold clockman_measure_clock.
  destruct ((u32 fc0_src mod 32 =? 0) || (FC_COUNT <=? u32 fc0_src / 32)).
  { apply total_ret. repeat split; try assumption; try reflexivity;
      [now exists [] | now left]. }
  fold status. total_prim.
  eapply total_bind; [apply total_busy_wait; exact Hadv|].
  cbn [regs regs_lock wlog now].
  intros idle c1 (Hr1 & Hl1 & Hw1 & Hn1 & Ht1).
  try rewrite Hl in Hl1.
  destruct idle; cbn [negb].
  2:{ apply total_ret. repeat split; try assumption; try reflexivity;
        [now exists []|].
      right. destruct (Ht1 eq_refl) as (m & Hm & Hle & Hlt & Hbefore).
      exists m. repeat split; try lia. intros k Hk. apply Hbefore. lia. }
  do 9 total_prim.
  eapply total_bind; [apply total_busy_wait; exact Hadv|].
  cbn [regs regs_lock wlog].
  intros done c2 (Hr2 & Hl2 & Hw2 & Hn2 & _).
  assert (Hrun : (forall c0, Z.land (readl hw_status c0 status)
                                    FC0_STATUS_RUNNING <> 0) -> False).
  { intros Hrun. enough (true = false) by discriminate. apply Hn1.
    intros c0. apply Z.eqb_neq, Hrun. }
  destruct done; cbn [negb].
  - do 4 total_prim. apply total_ret. cbn [regs regs_lock wlog].
    split; [reflexivity|]. split.
    + rewrite Hw2, Hw1. now eexists (_ :: _ :: _ :: _ :: _ :: _ :: _ :: []).
    + split; [intros H; destruct (Hrun H)|].
      intros Hdone. enough (true = false) by discriminate. apply Hn2.
      intros c0. now rewrite Hdone.
  - apply total_ret. split; [exact Hl2|]. split.
    + rewrite Hw2, Hw1. now eexists (_ :: _ :: _ :: _ :: _ :: _ :: []).
    + split; [intros H; destruct (Hrun H)|reflexivity].
Qed.

(** A wait that sees its condition took no clock sample beyond its
    deadline. *)
Lemma busy_wait_ready_samples ktime hw_status ready reg timeout :
  forall fuel c c',
    busy_wait ktime hw_status fuel ready reg timeout c = Ok true c' ->
    forall k, (now c <= k < now c')%nat -> ktime k <= timeout.
Proof.
  induction fuel as [|fuel IH]; intros c c'; cbn [busy_wait];
    unfold bind, ret, fail, clockman_read, ktime_get.
  - discriminate.
  - destruct (ready _).
    + intros [= <-] k Hk. lia.
    + destruct (Z.ltb_spec timeout (ktime (now c))) as [Hlt|Hge];
        [discriminate|].
      intros Hrun k Hk.
      destruct (Nat.eq_dec k (now c)) as [->|Hne]; [exact Hge|].
      apply (IH _ _ Hrun). cbn [now]. lia.
Qed.

(** A wait whose condition always shows succeeds at its first look. *)
Lemma busy_wait_always_ready ktime hw_status ready reg timeout :
  (forall c, ready (readl hw_status c reg) = true) ->
  forall fuel c b c',
    busy_wait ktime hw_status fuel ready reg timeout c = Ok b c' -> b = true.
Proof.
  intros Halways [|fuel] c b c'; cbn [busy_wait];
    unfold bind, ret, fail, clockman_read.
  - discriminate.
  - rewrite Halways. now intros [= <- _].
Qed.

Lemma total_busy_wait_samples ktime hw_status ready reg timeout c :
  clock_advances ktime ->
  total (fun fuel => busy_wait ktime hw_status fuel ready reg timeout) c
    (fun b c' =>
       regs c' = regs c /\ regs_lock c' = regs_lock c /\ wlog c' = wlog c /\
       ((forall c0, ready (readl hw_status c0 reg) = false) -> b = false) /\
       ((forall c0, ready (readl hw_status c0 reg) = true) -> b = true) /\
       (b = false ->
        exists m, now c' = S m /\ (now c <= m)%nat /\ timeout < ktime m /\
                  forall k, (now c <= k < m)%nat -> ktime k <= timeout) /\
       (b = true ->
        (now c <= now c')%nat /\
        forall k, (now c <= k < now c')%nat -> ktime k <= timeout)).
Proof.
  intros Hadv.
  destruct (busy_wait_terminates ktime hw_status ready reg timeout c Hadv)
    as (N & b & c' & Hrun & Hr & Hl & Hw).
  exists N, b, c'. split; [exact Hrun|]. repeat split; try assumption.
  - intros Hnever.
    exact (busy_wait_never_ready ktime hw_status ready reg timeout Hnever
             N c b c' (Hrun N (Nat.le_refl N))).
  - intros Halways.
    exact (busy_wait_always_ready ktime hw_status ready reg timeout Halways
             N c b c' (Hrun N (Nat.le_refl N))).
  - intros ->.
    exact (busy_wait_timed_out ktime hw_status ready reg timeout N c c'
             (Hrun N (Nat.le_refl N))).
  - pose proof (Hrun N (Nat.le_refl N)) as Hp.
    apply busy_wait_preserves in Hp. tauto.
  - subst b.
    exact (busy_wait_ready_samples ktime hw_status ready reg timeout N c c'
             (Hrun N (Nat.le_refl N))).
Qed.

(** The ways a measurement ends, with the clock samples it took.  An invalid
    source returns at once.  Otherwise the first deadline is the sample taken
    at entry plus 100 ms: if the counter does not become idle, the
    measurement returns 0 right after the first sample beyond it, with
    nothing written.  Once idle the counter is programmed, sample [n] sets
    the second deadline, and if DONE does not show the measurement returns 0
    right after the first sample [m] beyond [ktime n] plus 100 ms, leaving
    the source selected. *)
Lemma clockman_measure_clock_ends ktime hw_status ref_rate fc0_src c :
  clock_advances ktime ->
  regs_lock c = false ->
  let fc_idx := u32 fc0_src / 32 in
  let fc_src := u32 fc0_src mod 32 in
  let fc_offset := fc_idx * FC_SIZE in
  let status := fc_offset + FC0_STATUS in
  let programmed :=
    (fc_offset + FC0_SRC, u32 fc_src) :: (fc_offset + FC0_DELAY, 7)
    :: (fc_offset + FC0_INTERVAL, 8) :: (fc_offset + FC0_MAX_KHZ, 0x1ffffff)
    :: (fc_offset + FC0_MIN_KHZ, 0)
    :: (fc_offset + FC0_REF_KHZ, u32 (ref_rate / KHz)) :: wlog c in
  total (fun fuel =>
           clockman_measure_clock ktime hw_status ref_rate fuel fc0_src) c
    (fun result c' =>
       regs_lock c' = false /\
       (((fc_src = 0 \/ FC_COUNT <= fc_idx) /\ result = 0 /\ c' = c)
        \/
        (fc_src <> 0 /\ fc_idx < FC_COUNT /\ result = 0 /\
         wlog c' = wlog c /\ regs c' = regs c /\
         ((forall c0, Z.land (readl hw_status c0 status) FC0_STATUS_RUNNING
                      = 0) -> False) /\
         exists m, now c' = S m /\ (now c < m)%nat /\
                   ktime (now c) + FC_TIMEOUT_NS < ktime m /\
                   forall k, (now c < k < m)%nat ->
                             ktime k <= ktime (now c) + FC_TIMEOUT_NS)
        \/
        (fc_src <> 0 /\ fc_idx < FC_COUNT /\
         ((forall c0, Z.land (readl hw_status c0 status) FC0_STATUS_RUNNING
                      <> 0) -> False) /\
         exists n, (now c < n)%nat /\
           (forall k, (now c < k < n)%nat ->
                      ktime k <= ktime (now c) + FC_TIMEOUT_NS) /\
           ((result = 0 /\ wlog c' = programmed /\
             exists m, now c' = S m /\ (n < m)%nat /\
                       ktime n + FC_TIMEOUT_NS < ktime m /\
                       forall k, (n < k < m)%nat ->
                                 ktime k <= ktime n + FC_TIMEOUT_NS)
            \/
            (((forall c0, Z.land (readl hw_status c0 status) FC0_STATUS_DONE
                          = 0) -> False) /\
             wlog c' = (fc_offset + FC0_SRC, 0) :: programmed))))).
Proof.
  intros Hadv Hl fc_idx fc_src fc_offset status programmed.
  unfold clockman_measure_clock. fold fc_idx fc_src fc_offset status.
  destruct (Z.eqb_spec fc_src 0) as [Hsrc|Hsrc]; cbn [orb].
  { apply total_ret. split; [exact Hl|]. left. now repeat split; try left. }
  destruct (Z.leb_spec FC_COUNT fc_idx) as [Hidx|Hidx].
  { apply total_ret. split; [exact Hl|]. left. now repeat split; try right. }
  total_prim.
  eapply total_bind; [apply total_busy_wait_samples; exact Hadv|].
  cbn [regs regs_lock wlog now].
  intros idle c1 (Hr1 & Hl1 & Hw1 & Hn1 & Ha1 & Ht1 & Hs1).
  try rewrite Hl in Hl1.
  destruct idle; cbn [negb].
  2:{ apply total_ret. split; [exact Hl1|]. right. left.
      destruct (Ht1 eq_refl) as (m & Hm & Hle & Hlt & Hbefore).
      do 5 (split; [assumption || reflexivity|]). split.
      { intros Hidle. enough (false = true) by discriminate. apply Ha1.
        intros c0. now rewrite Hidle. }
      exists m. repeat split; try lia. intros k Hk. apply Hbefore. lia. }
  destruct (Hs1 eq_refl) as (Hle1 & Hbefore1).
  assert (Hrun : (forall c0, Z.land (readl hw_status c0 status)
                                    FC0_STATUS_RUNNING <> 0) -> False).
  { intros Hrun. enough (true = false) by discriminate. apply Hn1.
    intros c0. apply Z.eqb_neq, Hrun. }
  do 9 total_prim.
  eapply total_bind; [apply total_busy_wait_samples; exact Hadv|].
  cbn [regs regs_lock wlog now].
  intros done c2 (Hr2 & Hl2 & Hw2 & Hn2 & _ & Ht2 & _).
  destruct done; cbn [negb].
  - do 4 total_prim. apply total_ret. cbn [regs regs_lock wlog].
    split; [reflexivity|]. right. right.
    split; [exact Hsrc|]. split; [exact Hidx|]. split; [exact Hrun|].
    exists (now c1). split; [lia|]. split.
    { intros k Hk. apply Hbefore1. lia. }
    right. split.
    + intros Hdone. enough (true = false) by discriminate. apply Hn2.
      intros c0. now rewrite Hdone.
    + rewrite Hw2, Hw1. reflexivity.
  - apply total_ret. split; [exact Hl2|]. right. right.
    split; [exact Hsrc|]. split; [exact Hidx|]. split; [exact Hrun|].
    exists (now c1). split; [lia|]. split.
    { intros k Hk. apply Hbefore1. lia. }
    left. split; [reflexivity|]. split.
    + rewrite Hw2, Hw1. reflexivity.
    + destruct (Ht2 eq_refl) as (m & Hm & Hle & Hlt & Hbefore).
      exists m. repeat split; try lia. intros k Hk. apply Hbefore. lia.
Qed.

(** C8: with time passing and the lock free at entry, the measurement
    returns 0 -- it does not hang -- whenever the RUNNING status bit never
    clears or the DONE status bit never sets, and it does so within the
    100 ms timeout of the wait concerned.  If RUNNING never clears, a valid
    source returns right after the first clock sample beyond the deadline
    set at entry (that sample plus 100 ms), having written nothing.  If DONE
    never sets, a valid source either times out in the same way while the
    counter is busy, or programs the counter, takes sample [n] as the start
    of the second wait, and returns right after the first clock sample [m]
    beyond [ktime n] plus 100 ms: every sample between is within that
    deadline, as every sample of the first wait was within the first.  For a
    source index of 0 it returns 0 at once, leaving the clock manager
    untouched. *)
Theorem clockman_measure_clock_bounded ktime hw_status ref_rate fc0_src c :
  clock_advances ktime ->
  regs_lock c = false ->
  let fc_idx := u32 fc0_src / 32 in
  let fc_src := u32 fc0_src mod 32 in
  let fc_offset := fc_idx * FC_SIZE in
  let status := fc_offset + FC0_STATUS in
  let programmed :=
    (fc_offset + FC0_SRC, u32 fc_src) :: (fc_offset + FC0_DELAY, 7)
    :: (fc_offset + FC0_INTERVAL, 8) :: (fc_offset + FC0_MAX_KHZ, 0x1ffffff)
    :: (fc_offset + FC0_MIN_KHZ, 0)
    :: (fc_offset + FC0_REF_KHZ, u32 (ref_rate / KHz)) :: wlog c in
  ((forall c0, Z.land (readl hw_status c0 status) FC0_STATUS_RUNNING <> 0) ->
   total (fun fuel =>
            clockman_measure_clock ktime hw_status ref_rate fuel fc0_src) c
     (fun result c' =>
        result = 0 /\ wlog c' = wlog c /\ regs c' = regs c /\
        regs_lock c' = false /\
        (((fc_src = 0 \/ FC_COUNT <= fc_idx) /\ c' = c)
         \/
         (fc_src <> 0 /\ fc_idx < FC_COUNT /\
          exists m, now c' = S m /\ (now c < m)%nat /\
                    ktime (now c) + FC_TIMEOUT_NS < ktime m /\
                    forall k, (now c < k < m)%nat ->
                              ktime k <= ktime (now c) + FC_TIMEOUT_NS)))) /\
  ((forall c0, Z.land (readl hw_status c0 status) FC0_STATUS_DONE = 0) ->
   total (fun fuel =>
            clockman_measure_clock ktime hw_status ref_rate fuel fc0_src) c
     (fun result c' =>
        result = 0 /\ regs_lock c' = false /\
        (((fc_src = 0 \/ FC_COUNT <= fc_idx) /\ c' = c)
         \/
         (fc_src <> 0 /\ fc_idx < FC_COUNT /\
          wlog c' = wlog c /\ regs c' = regs c /\
          ((forall c0, Z.land (readl hw_status c0 status) FC0_STATUS_RUNNING
                       = 0) -> False) /\
          exists m, now c' = S m /\ (now c < m)%nat /\
                    ktime (now c) + FC_TIMEOUT_NS < ktime m /\
                    forall k, (now c < k < m)%nat ->
                              ktime k <= ktime (now c) + FC_TIMEOUT_NS)
         \/
         (fc_src <> 0 /\ fc_idx < FC_COUNT /\
          wlog c' = programmed /\
          exists n m, (now c < n)%nat /\ (n < m)%nat /\ now c' = S m /\
            (forall k, (now c < k < n)%nat ->
                       ktime k <= ktime (now c) + FC_TIMEOUT_NS) /\
            ktime n + FC_TIMEOUT_NS < ktime m /\
            (forall k, (n < k < m)%nat ->
                       ktime k <= ktime n + FC_TIMEOUT_NS))))) /\
  (fc_src = 0 ->
   forall fuel,
     clockman_measure_clock ktime hw_status ref_rate fuel fc0_src c = Ok 0 c).
Proof.
  intros Hadv Hl fc_idx fc_src fc_offset status programmed.
  pose proof (clockman_measure_clock_ends ktime hw_status ref_rate fc0_src c
                Hadv Hl) as Htot.
  cbn zeta in Htot. fold fc_idx fc_src fc_offset status programmed in Htot.
  split; [|split].
  - intros Hrun. apply (total_conseq _ _ _ _ Htot).
    intros r c' (Hl' & [(Hinv & -> & ->)|[Hidle|Hprog]]).
    + repeat split; try assumption. left. now split.
    + destruct Hidle as (Hs & Hi & -> & Hw & Hr & _ & Hm).
      repeat split; try assumption. right. now repeat split.
    + destruct Hprog as (_ & _ & Hnot & _). destruct (Hnot Hrun).
  - intros Hdone. apply (total_conseq _ _ _ _ Htot).
    intros r c' (Hl' & [(Hinv & -> & ->)|[Hidle|Hprog]]).
    + repeat split; try assumption. left. now split.
    + destruct Hidle as (Hs & Hi & -> & Hw & Hr & Hseen & Hm).
      split; [reflexivity|]. split; [exact Hl'|]. right. left.
      now repeat split.
    + destruct Hprog as (Hs & Hi & _ & n & Hn & Hbefore & [Hto|(Hnot & _)]);
        [|destruct (Hnot Hdone)].
      destruct Hto as (-> & Hw & m & Hm & Hnm & Hlt & Hafter).
      split; [reflexivity|]. split; [exact Hl'|]. right. right.
      split; [exact Hs|]. split; [exact Hi|]. split; [exact Hw|].
      exists n, m. now repeat split.
  - intros Hsrc fuel. unfold clockman_measure_clock. fold fc_src.
    rewrite Hsrc. reflexivity.
Qed.

Lemma clock_advances_linear :
  clock_advances (fun n => Z.of_nat n * 50000000).
Proof.
  intros n t. exists (n + Z.to_nat t + 1)%nat. split; lia.
Qed.

(** The hypotheses hold for a clock sampled every 50 ms, both with a counter
    that stays busy and with an idle counter that never reports DONE; for
    the valid source [FC_NUM 0 4] the first run times out in the idle wait
    and the second after the counter was programmed. *)
Lemma clockman_measure_clock_bounded_witness :
  let ktime := fun n => Z.of_nat n * 50000000 in
  let busy := fun (_ : nat) (_ : Z) => Some FC0_STATUS_RUNNING in
  let idle := fun (_ : nat) (_ : Z) => Some 0 in
  let c := Clockman ∅ false [] 0 in
  let fc0_src := FC_NUM 0 4 in
  let fc_offset := u32 fc0_src / 32 * FC_SIZE in
  let status := fc_offset + FC0_STATUS in
  clock_advances ktime /\
  (forall c0, Z.land (readl busy c0 status) FC0_STATUS_RUNNING <> 0) /\
  total (fun fuel => clockman_measure_clock ktime busy 50000000 fuel fc0_src) c
    (fun result c' =>
       result = 0 /\ wlog c' = wlog c /\ regs c' = regs c /\
       regs_lock c' = false /\
       exists m, now c' = S m /\ (now c < m)%nat /\
                 ktime (now c) + FC_TIMEOUT_NS < ktime m /\
                 forall k, (now c < k < m)%nat ->
                           ktime k <= ktime (now c) + FC_TIMEOUT_NS) /\
  (forall c0, Z.land (readl idle c0 status) FC0_STATUS_DONE = 0) /\
  total (fun fuel => clockman_measure_clock ktime idle 50000000 fuel fc0_src) c
    (fun result c' =>
       result = 0 /\ regs_lock c' = false /\
       wlog c' = [ (fc_offset + FC0_SRC, 4); (fc_offset + FC0_DELAY, 7);
                   (fc_offset + FC0_INTERVAL, 8);
                   (fc_offset + FC0_MAX_KHZ, 0x1ffffff);
                   (fc_offset + FC0_MIN_KHZ, 0);
                   (fc_offset + FC0_REF_KHZ, 50000) ] /\
       exists n m, (now c < n)%nat /\ (n < m)%nat /\ now c' = S m /\
         (forall k, (now c < k < n)%nat ->
                    ktime k <= ktime (now c) + FC_TIMEOUT_NS) /\
         ktime n + FC_TIMEOUT_NS < ktime m /\
         (forall k, (n < k < m)%nat -> ktime k <= ktime n + FC_TIMEOUT_NS)).
Proof.
  intros ktime busy idle c fc0_src fc_offset status.
  assert (Hrun : forall c0, Z.land (readl busy c0 status)
                                   FC0_STATUS_RUNNING <> 0)
    by (intros c0; vm_compute; discriminate).
  assert (Hclear : forall c0, Z.land (readl idle c0 status)
                                     FC0_STATUS_RUNNING = 0)
    by (intros c0; vm_compute; reflexivity).
  assert (Hdone : forall c0, Z.land (readl idle c0 status)
                                    FC0_STATUS_DONE = 0)
    by (intros c0; vm_compute; reflexivity).
  assert (Hvalid : ~ (u32 fc0_src mod 32 = 0 \/ FC_COUNT <= u32 fc0_src / 32))
    by (vm_compute; intros [H|H]; [discriminate H | apply H; reflexivity]).
  split; [exact clock_advances_linear|]. split; [exact Hrun|].
  split; [|split; [exact Hdone|]].
  - destruct (clockman_measure_clock_bounded ktime busy 50000000 fc0_src c
                clock_advances_linear eq_refl) as (HA & _ & _).
    apply (total_conseq _ _ _ _ (HA Hrun)).
    intros r c' (Hr & Hw & Hregs & Hl & [(Hbad & _)|(_ & _ & Hm)]);
      [destruct (Hvalid Hbad)|].
    now repeat split.
  - destruct (clockman_measure_clock_bounded ktime idle 50000000 fc0_src c
                clock_advances_linear eq_refl) as (_ & HB & _).
    apply (total_conseq _ _ _ _ (HB Hdone)).
    intros r c' (Hr & Hl & [(Hbad & _)|[Hidle|(_ & _ & Hw & Hnm)]]).
    + destruct (Hvalid Hbad).
    + destruct Hidle as (_ & _ & _ & _ & Hseen & _). destruct (Hseen Hclear).
    + split; [exact Hr|]. split; [exact Hl|]. split; [exact Hw|exact Hnm].
Defined.

(** A run of the model: the counter stays busy, the clock is sampled every
    50 ms, and the third sample after the deadline was set is beyond it. *)
Example clockman_measure_clock_busy_run :
  clockman_measure_clock (fun n => Z.of_nat n * 50000000)
    (fun _ _ => Some FC0_STATUS_RUNNING) 50000000 5 (FC_NUM 0 4)
    (Clockman ∅ false [] 0)
  = Ok 0 (Clockman ∅ false [] 4).
Proof. vm_compute. reflexivity. Qed.

(** Another run: the counter is idle but never reports DONE.  The counter is
    programmed, the sample taken next (50 ms) sets the deadline to 150 ms,
    and the sample at 200 ms is the first beyond it; the source stays
    selected. *)
Example clockman_measure_clock_wait_run :
  clockman_measure_clock (fun n => Z.of_nat n * 50000000)
    (fun _ _ => Some 0) 50000000 5 (FC_NUM 0 4)
    (Clockman ∅ false [] 0)
  = Ok 0 (Clockman
            (<[FC0_SRC := 4]> (<[FC0_DELAY := 7]> (<[FC0_INTERVAL := 8]>
             (<[FC0_MAX_KHZ := 0x1ffffff]> (<[FC0_MIN_KHZ := 0]>
              (<[FC0_REF_KHZ := 50000]> ∅))))))
            false
            [ (FC0_SRC, 4); (FC0_DELAY, 7); (FC0_INTERVAL, 8);
              (FC0_MAX_KHZ, 0x1ffffff); (FC0_MIN_KHZ, 0);
              (FC0_REF_KHZ, 50000) ]
            5).
Proof. vm_compute. reflexivity. Qed.

(** ** PllSecondary: the divider *)

Lemma land_u32_mask x m : 0 <= m < 2 ^ 32 -> Z.land (u32 x) m = Z.land x m.
Proof.
  intros Hm. unfold u32. rewrite <- Z.land_ones by lia.
  rewrite <- Z.land_assoc. f_equal.
  rewrite Z.land_comm, Z.land_ones by lia. now apply Z.mod_small.
Qed.

Lemma pll_sec_field_written v div :
  8 <= div <= 19 ->
  let sec := Z.lor (set_register_field v div PLL_SEC_DIV_MASK PLL_SEC_DIV_SHIFT)
               PLL_SEC_RST in
  Z.shiftr (Z.land (u32 sec) PLL_SEC_DIV_MASK) PLL_SEC_DIV_SHIFT = div /\
  Z.testbit (u32 sec) 16 = true /\
  Z.shiftr (Z.land (u32 (Z.land sec (u32 (Z.lnot PLL_SEC_RST))))
                   PLL_SEC_DIV_MASK) PLL_SEC_DIV_SHIFT = div /\
  Z.testbit (u32 (Z.land sec (u32 (Z.lnot PLL_SEC_RST)))) 16 = false.
Proof.
  intros Hdiv. cbn zeta. unfold set_register_field.
  assert (Hmask : 0 <= PLL_SEC_DIV_MASK < 2 ^ 32) by (vm_compute; split; congruence).
  assert (Hfield :
    Z.land (Z.lor (Z.lor (Z.land v (u32 (Z.lnot PLL_SEC_DIV_MASK)))
                         (Z.land (u32 (Z.shiftl div PLL_SEC_DIV_SHIFT))
                                 PLL_SEC_DIV_MASK)) PLL_SEC_RST)
           PLL_SEC_DIV_MASK
    = Z.land (u32 (Z.shiftl div PLL_SEC_DIV_SHIFT)) PLL_SEC_DIV_MASK).
  { rewrite !Z.land_lor_distr_l. rewrite <- !Z.land_assoc.
    change (Z.land (u32 (Z.lnot PLL_SEC_DIV_MASK)) PLL_SEC_DIV_MASK) with 0.
    change (Z.land PLL_SEC_RST PLL_SEC_DIV_MASK) with 0.
    rewrite Z.land_diag, Z.land_0_r, Z.lor_0_l, Z.lor_0_r. reflexivity. }
  assert (Hval : Z.shiftr (Z.land (u32 (Z.shiftl div PLL_SEC_DIV_SHIFT))
                                  PLL_SEC_DIV_MASK) PLL_SEC_DIV_SHIFT = div).
  { assert (Hcases : div = 8 \/ div = 9 \/ div = 10 \/ div = 11 \/ div = 12 \/
                     div = 13 \/ div = 14 \/ div = 15 \/ div = 16 \/
                     div = 17 \/ div = 18 \/ div = 19) by lia.
    repeat (destruct Hcases as [->|Hcases]; [reflexivity|]).
    subst div. reflexivity. }
  repeat split.
  - rewrite land_u32_mask by exact Hmask. now rewrite Hfield.
  - unfold u32. rewrite Z.mod_pow2_bits_low by lia.
    rewrite Z.lor_spec. apply orb_true_r.
  - rewrite land_u32_mask by exact Hmask. rewrite <- Z.land_assoc.
    change (Z.land (u32 (Z.lnot PLL_SEC_RST)) PLL_SEC_DIV_MASK)
      with PLL_SEC_DIV_MASK.
    now rewrite Hfield.
  - unfold u32 at 1. rewrite Z.mod_pow2_bits_low by lia.
    rewrite Z.land_spec. apply andb_false_r.
Qed.

Lemma pll_sec_round_up rate parent_rate :
  0 < rate < 2 ^ 32 -> 0 <= parent_rate < 2 ^ 32 ->
  DIV_ROUND_UP_ULL parent_rate rate = Some ((parent_rate + rate - 1) / rate) /\
  u32 ((parent_rate + rate - 1) / rate) = (parent_rate + rate - 1) / rate.
Proof.
  intros Hr Hp. unfold DIV_ROUND_UP_ULL. rewrite (u32_small rate) by lia.
  destruct (Z.eqb_spec rate 0) as [|_]; [lia|].
  rewrite (u64_small (parent_rate + rate - 1)) by lia.
  split; [reflexivity|]. apply u32_small.
  split; [apply Z.div_pos; lia | apply Z.div_lt_upper_bound; lia].
Qed.

Lemma pll_sec_div_table_decodes code :
  0 <= code < 32 ->
  table_div pll_sec_div_table code
  = if (8 <=? code) && (code <=? 0x12) then code else 19.
Proof.
  intros Hc.
  assert (Hn : exists n, (n < 32)%nat /\ code = Z.of_nat n)
    by (exists (Z.to_nat code); lia).
  destruct Hn as (n & Hn & ->).
  do 32 (destruct n as [|n]; [reflexivity|]). lia.
Qed.

(** C9 (as stated) fails: with a parent rate of 2^32 + 9 Hz and a target of
    1 Hz the quotient 2^32 + 9 is cut to the 32-bit [div] variable, 9, so the
    field written (under reset, then released) is 9, while
    [clamp(ceil(parent_rate / target), 8, 19)] is 19. *)
Lemma rp1_pll_divider_set_rate_counterexample :
  match rp1_pll_divider_set_rate (fun n => Z.of_nat n * 50000000)
          (fun _ _ => None) 50000000 5 pll_sys_sec_data 1 4294967305
          (Clockman ∅ false [] 0)
  with
  | Ok _ c' => wlog c'
  | Fault _ => []
  end
  = [ (0x270, 2); (0x268, 7); (0x26c, 8); (0x264, 0x1ffffff); (0x260, 0);
      (0x25c, 50000); (0x08014, 0x00900); (0x08014, 0x10900) ] /\
  Z.shiftr (Z.land 0x10900 PLL_SEC_DIV_MASK) PLL_SEC_DIV_SHIFT = 9 /\
  clamp ((4294967305 + 1 - 1) / 1) 8 19 = 19.
Proof. vm_compute. repeat split. Qed.

(** C9, amended: the PllSecondary divider always lies in [8,19]: for every
    target that is nonzero as the 32-bit divisor, [set_rate] writes the
    control register twice, first with the divider field equal to the
    rounded-up quotient, cut to 32 bits and clamped to [8,19], and the reset
    bit asserted, then with the same field and the reset bit released, and
    returns 0 with the lock released; for rates below 2^32 that field is
    [clamp(ceil(parent_rate / target), 8, 19)]; and every 5-bit raw code
    decodes through the table to a divisor in [8,19]: codes 8..0x12 to
    themselves, all others to 19. *)
Theorem rp1_pll_divider_set_rate_writes ktime hw_status ref_rate data
    rate parent_rate c :
  clock_advances ktime ->
  regs_lock c = false ->
  u32 rate <> 0 ->
  let div := clamp (u32 (u64 (parent_rate + rate - 1) / u32 rate)) 8 19 in
  let field v := Z.shiftr (Z.land v PLL_SEC_DIV_MASK) PLL_SEC_DIV_SHIFT in
  8 <= div <= 19 /\
  (0 < rate < 2 ^ 32 -> 0 <= parent_rate < 2 ^ 32 ->
   div = clamp ((parent_rate + rate - 1) / rate) 8 19) /\
  total (fun fuel =>
           rp1_pll_divider_set_rate ktime hw_status ref_rate fuel data
             rate parent_rate) c
    (fun r c' =>
       r = 0 /\ regs_lock c' = false /\
       exists held released later,
         wlog c' = later ++ (pll_ctrl_reg data, released)
                         :: (pll_ctrl_reg data, held) :: wlog c /\
         field held = div /\ Z.testbit held 16 = true /\
         field released = div /\ Z.testbit released 16 = false) /\
  (forall code, 0 <= code < 32 ->
     8 <= table_div pll_sec_div_table code <= 19 /\
     table_div pll_sec_div_table code
     = if (8 <=? code) && (code <=? 0x12) then code else 19).
Proof.
  intros Hadv Hl Hr div field.
  assert (Hdiv : 8 <= div <= 19) by (unfold div, clamp; lia).
  split; [exact Hdiv|]. split; [|split].
  - intros Hrate Hparent. unfold div.
    destruct (pll_sec_round_up rate parent_rate Hrate Hparent) as (_ & Hq).
    rewrite (u32_small rate) by lia.
    rewrite (u64_small (parent_rate + rate - 1)) by lia.
    now rewrite Hq.
  - unfold rp1_pll_divider_set_rate, DIV_ROUND_UP_ULL.
    destruct (Z.eqb_spec (u32 rate) 0) as [|_]; [contradiction|].
    fold div.
    destruct (pll_sec_field_written (readl hw_status
                (Clockman (regs c) true (wlog c) (now c)) (pll_ctrl_reg data))
                div Hdiv) as (F1 & B1 & F2 & B2).
    do 6 total_prim.
    match goal with
    | |- context [rp1_pll_divider_is_on ?h ?d ?c0] =>
        destruct (rp1_pll_divider_is_on h d c0)
    end.
    + eapply total_bind;
        [apply clockman_measure_clock_total; [exact Hadv | reflexivity]|].
      cbn [regs regs_lock wlog].
      intros result c' (Hl' & (later & Hw) & _).
      apply total_ret. split; [reflexivity|]. split; [exact Hl'|].
      eexists _, _, later. split; [exact Hw|]. now repeat split.
    + total_prim. apply total_ret. cbn [regs regs_lock wlog].
      split; [reflexivity|]. split; [reflexivity|].
      eexists _, _, []. split; [reflexivity|]. now repeat split.
  - intros code Hc. rewrite (pll_sec_div_table_decodes code Hc).
    split; [|reflexivity].
    destruct (Z.leb_spec 8 code), (Z.leb_spec code 0x12); cbn [andb]; lia.
Qed.

(** The hypotheses hold for [pll_sys_sec], a 1 GHz core and a 125 MHz
    target. *)
Lemma rp1_pll_divider_set_rate_writes_witness :
  let ktime := fun n => Z.of_nat n * 50000000 in
  let hw_status := fun (_ : nat) (_ : Z) => @None Z in
  let c := Clockman ∅ false [] 0 in
  let rate := 125000000 in
  let parent_rate := 1000000000 in
  let div := clamp (u32 (u64 (parent_rate + rate - 1) / u32 rate)) 8 19 in
  let field v := Z.shiftr (Z.land v PLL_SEC_DIV_MASK) PLL_SEC_DIV_SHIFT in
  8 <= div <= 19 /\
  (0 < rate < 2 ^ 32 -> 0 <= parent_rate < 2 ^ 32 ->
   div = clamp ((parent_rate + rate - 1) / rate) 8 19) /\
  total (fun fuel =>
           rp1_pll_divider_set_rate ktime hw_status 50000000 fuel
             pll_sys_sec_data rate parent_rate) c
    (fun r c' =>
       r = 0 /\ regs_lock c' = false /\
       exists held released later,
         wlog c' = later ++ (pll_ctrl_reg pll_sys_sec_data, released)
                         :: (pll_ctrl_reg pll_sys_sec_data, held) :: wlog c /\
         field held = div /\ Z.testbit held 16 = true /\
         field released = div /\ Z.testbit released 16 = false) /\
  (forall code, 0 <= code < 32 ->
     8 <= table_div pll_sec_div_table code <= 19 /\
     table_div pll_sec_div_table code
     = if (8 <=? code) && (code <=? 0x12) then code else 19).
Proof.
  apply (rp1_pll_divider_set_rate_writes (fun n => Z.of_nat n * 50000000)
           (fun _ _ => None) 50000000 pll_sys_sec_data 125000000 1000000000
           (Clockman ∅ false [] 0));
    [exact clock_advances_linear | reflexivity | vm_compute; lia].
Defined.

(** A run: from a 1 GHz core, asking the secondary output for 125 MHz
    programs the divider 8, first held in reset, then released; the
    frequency counter is then programmed for the measurement. *)
Example rp1_pll_divider_set_rate_run :
  match rp1_pll_divider_set_rate (fun n => Z.of_nat n * 50000000)
          (fun _ _ => None) 50000000 5 pll_sys_sec_data 125000000 1000000000
          (Clockman ∅ false [] 0)
  with
  | Ok r c' => (r, wlog c', regs_lock c')
  | Fault _ => (-1, [], true)
  end
  = (0, [ (0x270, 2); (0x268, 7); (0x26c, 8); (0x264, 0x1ffffff); (0x260, 0);
          (0x25c, 50000); (0x08014, 0x00800); (0x08014, 0x10800) ], false).
Proof. vm_compute. reflexivity. Qed.

(** ** Clock: rate negotiation *)

Section NegotiationProps.

Variable hw_status : nat -> Z -> option Z.
Variable clk_hw_get_parent_by_index : clk_hw -> nat -> option clk_hw.
Variable clk_hw_get_rate : clk_hw -> Z.
Variable clk_hw_get_parent : clk_hw -> option clk_hw.
Variables clk_xosc clk_audio clk_i2s : option clk_hw.

Local Abbreviation choose :=
  (rp1_clock_choose_div_and_prate clk_hw_get_parent_by_index clk_hw_get_rate
     clk_hw_get_parent clk_xosc clk_audio clk_i2s).
Local Abbreviation dloop :=
  (determine_loop clk_hw_get_parent_by_index clk_hw_get_rate
     clk_hw_get_parent clk_xosc clk_audio clk_i2s).
Local Abbreviation scan :=
  (candidate_scan clk_hw_get_parent_by_index clk_hw_get_rate
     clk_hw_get_parent clk_xosc clk_audio clk_i2s).
Local Abbreviation determine :=
  (rp1_clock_determine_rate hw_status clk_hw_get_parent_by_index
     clk_hw_get_rate clk_hw_get_parent clk_xosc clk_audio clk_i2s).

Lemma det_sel_diff_bound rate seen b :
  det_sel rate seen b ->
  best_rate_diff b <= ULONG_MAX /\
  forall c', In c' seen -> best_rate_diff b <= cand_diff rate c'.
Proof.
  intros [(-> & Hall)|(k & cand & (Hk & Hlt & Hbefore & Hmin) & ->)];
    cbn [best_rate_diff].
  - split; [lia|exact Hall].
  - split; [lia|exact Hmin].
Qed.

(** A candidate that is strictly closer than the best so far is kept. *)
Lemma det_sel_adopt rate seen b cand :
  det_sel rate seen b ->
  cand_diff rate cand < best_rate_diff b ->
  det_sel rate (seen ++ [cand])
    (DetBest (Some (cand_parent cand)) (cand_prate cand) (cand_rate cand)
       (cand_diff rate cand)).
Proof.
  intros Hsel Hlt. destruct (det_sel_diff_bound rate seen b Hsel) as (Hmax & Hall).
  right. exists (length seen), cand. split; [|reflexivity].
  repeat split.
  - now apply list_lookup_middle.
  - lia.
  - intros j c' Hj Hjk. rewrite lookup_app_l in Hj by exact Hjk.
    apply list_elem_of_lookup_2, list_elem_of_In in Hj.
    specialize (Hall c' Hj). lia.
  - intros c' Hin. apply in_app_or in Hin as [Hin|[<-|[]]];
      [specialize (Hall c' Hin)|]; lia.
Qed.

(** A candidate that is not strictly closer leaves the best so far. *)
Lemma det_sel_keep rate seen b cand :
  det_sel rate seen b ->
  best_rate_diff b <= cand_diff rate cand ->
  det_sel rate (seen ++ [cand]) b.
Proof.
  intros [(-> & Hall)|(k & c0 & (Hk & Hlt & Hbefore & Hmin) & ->)] Hge;
    cbn [best_rate_diff] in Hge.
  - left. split; [reflexivity|].
    intros c' Hin. apply in_app_or in Hin as [Hin|[<-|[]]];
      [now apply Hall | exact Hge].
  - right. exists k, c0. split; [|reflexivity].
    assert (Hklt : (k < length seen)%nat) by (eapply lookup_lt_Some; eauto).
    repeat split.
    + now rewrite lookup_app_l.
    + exact Hlt.
    + intros j c' Hj Hjk. rewrite lookup_app_l in Hj by lia.
      now apply (Hbefore j).
    + intros c' Hin. apply in_app_or in Hin as [Hin|[<-|[]]];
        [now apply Hmin | exact Hge].
Qed.

(** The parent scan of [rp1_clock_determine_rate] evaluates exactly the
    candidates of [candidate_scan] and keeps the first closest of them. *)
Lemma determine_loop_scan clock rate idxs :
  forall b tree seen,
    det_sel rate seen b ->
    0 < best_rate_diff b ->
    match scan clock rate idxs tree with
    | None => dloop clock rate idxs b tree = None
    | Some (cands, tree') =>
        exists b',
          dloop clock rate idxs b tree = Some (b', tree') /\
          det_sel rate (seen ++ cands) b' /\
          (forall k cand, cands !! k = Some cand ->
                          cand_diff rate cand = 0 -> S k = length cands)
    end.
Proof.
  induction idxs as [|i idxs IH]; intros b tree seen Hsel Hpos;
    cbn [candidate_scan determine_loop].
  - exists b. rewrite app_nil_r. repeat split; [assumption|].
    intros k cand Hk. now rewrite lookup_nil in Hk.
  - destruct (clk_hw_get_parent_by_index (clock_hw clock) i) as [parent|];
      [|now apply IH].
    destruct (choose clock i rate tree) as [[[prate calc_rate] tree1]|];
      [|reflexivity].
    cbn [mbind option_bind].
    set (cand := Candidate parent prate calc_rate).
    change (ABS_DIFF calc_rate rate) with (cand_diff rate cand).
    change (DetBest (Some parent) prate calc_rate (cand_diff rate cand))
      with (DetBest (Some (cand_parent cand)) (cand_prate cand)
              (cand_rate cand) (cand_diff rate cand)).
    assert (Hnn : 0 <= cand_diff rate cand) by apply ABS_DIFF_nonneg.
    destruct (Z.ltb_spec (cand_diff rate cand) (best_rate_diff b)) as [Hlt|Hge].
    + pose proof (det_sel_adopt rate seen b cand Hsel Hlt) as Hsel'.
      cbn [best_rate_diff].
      destruct (Z.eqb_spec (cand_diff rate cand) 0) as [H0|Hne].
      * eexists. split; [reflexivity|]. split; [exact Hsel'|].
        intros [|[|k]] c' Hk Hc'; [reflexivity|discriminate Hk|discriminate Hk].
      * specialize (IH _ tree1 (seen ++ [cand]) Hsel' ltac:(cbn; lia)).
        destruct (scan clock rate idxs tree1) as [[cands tree']|].
        -- destruct IH as (b' & Hrun & Hsel'' & Hstop). exists b'.
           cbn [mbind option_bind].
           split; [exact Hrun|]. rewrite <- app_assoc in Hsel''.
           split; [exact Hsel''|].
           intros [|k] c' Hk Hc'; cbn in Hk.
           ++ injection Hk as <-. contradiction.
           ++ cbn [length]. f_equal. now apply (Hstop k c').
        -- exact IH.
    + destruct (Z.eqb_spec (cand_diff rate cand) 0) as [H0|Hne]; [lia|].
      pose proof (det_sel_keep rate seen b cand Hsel Hge) as Hsel'.
      specialize (IH b tree1 (seen ++ [cand]) Hsel' Hpos).
      destruct (scan clock rate idxs tree1) as [[cands tree']|].
      * destruct IH as (b' & Hrun & Hsel'' & Hstop). exists b'.
        cbn [mbind option_bind].
        split; [exact Hrun|]. rewrite <- app_assoc in Hsel''.
        split; [exact Hsel''|].
        intros [|k] c' Hk Hc'; cbn in Hk.
        -- injection Hk as <-. contradiction.
        -- cbn [length]. f_equal. now apply (Hstop k c').
      * exact IH.
Qed.


(** C2, amended: on a node not marked no-reparent, [determine_rate] evaluates
    the declared parent candidates in index order (skipping unresolved ones)
    and stops after the first exact match; it keeps the first candidate
    whose achievable rate minimises [|achieved - target|]; it succeeds with
    that candidate when its rate is nonzero, and fails with [-EINVAL] exactly
    when the candidate kept has rate zero or no candidate is kept -- in
    particular when every candidate yields zero. *)
Theorem rp1_clock_determine_rate_selection clock c req tree :
  let data := clock_data clock in
  let rate := req_rate req in
  Z.land (Z.lor (flags data) CLK_IGNORE_UNUSED) CLK_SET_RATE_NO_REPARENT = 0 ->
  match scan clock rate
          (seq 0 (Z.to_nat (num_std_parents data + num_aux_parents data))) tree
  with
  | None => determine clock c req tree = None
  | Some (cands, tree') =>
      (forall k cand, cands !! k = Some cand ->
                      cand_diff rate cand = 0 -> S k = length cands) /\
      ((exists k cand,
           closest_first rate cands k cand /\ cand_rate cand <> 0 /\
           determine clock c req tree
           = Some (0, {| req_rate := cand_rate cand;
                         best_parent_hw := Some (cand_parent cand);
                         best_parent_rate := cand_prate cand |}, tree'))
       \/ (determine clock c req tree = Some (- EINVAL, req, tree') /\
           ((forall cand, In cand cands -> ULONG_MAX <= cand_diff rate cand) \/
            exists k cand,
              closest_first rate cands k cand /\ cand_rate cand = 0))) /\
      ((forall cand, In cand cands -> cand_rate cand = 0) ->
       determine clock c req tree = Some (- EINVAL, req, tree'))
  end.
Proof.
  cbn zeta. intros Hflags. unfold rp1_clock_determine_rate.
  rewrite Hflags. cbn [Z.eqb negb].
  assert (Hinit : det_sel (req_rate req) [] (DetBest None 0 0 ULONG_MAX))
    by (left; split; [reflexivity | intros c' []]).
  pose proof (determine_loop_scan clock (req_rate req)
                (seq 0 (Z.to_nat (num_std_parents (clock_data clock)
                                  + num_aux_parents (clock_data clock))))
                _ tree [] Hinit ltac:(cbn; reflexivity)) as Hloop.
  destruct (scan clock (req_rate req) _ tree) as [[cands tree']|];
    [|now rewrite Hloop].
  destruct Hloop as (b' & -> & Hsel & Hstop). cbn [app] in Hsel.
  cbn [mbind option_bind].
  split; [exact Hstop|].
  destruct Hsel as [(-> & Hall)|(k & cand & Hcf & ->)]; cbn [best_rate].
  - cbn [Z.eqb]. split.
    + right. split; [reflexivity|]. now left.
    + reflexivity.
  - cbn [best_parent best_prate].
    destruct (Z.eqb_spec (cand_rate cand) 0) as [H0|Hne].
    + split; [|reflexivity].
      right. split; [reflexivity|]. right. now exists k, cand.
    + split.
      * left. exists k, cand. split; [exact Hcf|]. split; [exact Hne|reflexivity].
      * intros Hzero. destruct Hcf as (Hk & _).
        apply list_elem_of_lookup_2, list_elem_of_In in Hk.
        now specialize (Hzero cand Hk).
Qed.

(** *** The overclock guard on the ordinary path *)

Lemma chg_tree_scan_miss hw parent rate tree idxs :
  (forall j, chg_hw (tree !!! j) <> Some hw) ->
  chg_tree_scan clk_hw_get_rate clk_xosc hw parent rate tree idxs = Some Miss.
Proof.
  intros Hno. induction idxs as [|i idxs IH]; cbn [chg_tree_scan];
    [reflexivity|].
  rewrite bool_decide_eq_false_2 by apply Hno. exact IH.
Qed.

(** A clock that is not [clk_i2s] and has no entry in the pending change tree
    goes through the overclock guard: the achievable rate is zero or at most
    [max_freq], and the change tree is left as it is. *)
Lemma rp1_clock_choose_div_and_prate_guard clock i rate tree prate calc tree' :
  (forall j, chg_hw (tree !!! j) <> Some (clock_hw clock)) ->
  clk_i2s <> Some (clock_hw clock) ->
  choose clock i rate tree = Some (prate, calc, tree') ->
  tree' = tree /\ (calc = 0 \/ calc <= max_freq (clock_data clock)).
Proof.
  intros Hno Hi2s. unfold rp1_clock_choose_div_and_prate.
  rewrite chg_tree_scan_miss by exact Hno. cbn [mbind option_bind].
  rewrite (bool_decide_eq_false_2 (Some (clock_hw clock) = clk_i2s))
    by congruence.
  cbn [andb].
  destruct (rate_of clk_hw_get_rate _) as [pr|]; [|discriminate].
  cbn [mbind option_bind].
  destruct (rp1_clock_choose_div rate pr (clock_data clock)) as [div|];
    [|discriminate].
  cbn [mbind option_bind].
  destruct (div =? 0); [intros [= <- <- <-]; auto|].
  destruct (div_u64 _ div) as [tmp|]; [|discriminate].
  cbn [mbind option_bind].
  destruct (Z.ltb_spec (max_freq (clock_data clock)) tmp);
    intros [= <- <- <-]; auto.
Qed.

Lemma determine_loop_guard clock rate idxs :
  forall b tree b' tree',
    (forall j, chg_hw (tree !!! j) <> Some (clock_hw clock)) ->
    clk_i2s <> Some (clock_hw clock) ->
    best_rate b = 0 \/ best_rate b <= max_freq (clock_data clock) ->
    dloop clock rate idxs b tree = Some (b', tree') ->
    tree' = tree /\
    (best_rate b' = 0 \/ best_rate b' <= max_freq (clock_data clock)).
Proof.
  induction idxs as [|i idxs IH]; intros b tree b' tree' Hno Hi2s Hb;
    cbn [determine_loop].
  - intros [= <- <-]. now split.
  - destruct (clk_hw_get_parent_by_index (clock_hw clock) i) as [parent|];
      [|now apply IH].
    destruct (choose clock i rate tree) as [[[prate calc] tree1]|] eqn:Hch;
      [|discriminate].
    cbn [mbind option_bind].
    destruct (rp1_clock_choose_div_and_prate_guard clock i rate tree prate
                calc tree1 Hno Hi2s Hch) as (-> & Hcalc).
    destruct (_ <? best_rate_diff b).
    + cbn [best_rate_diff]. destruct (_ =? 0).
      * intros [= <- <-]. now split.
      * now apply IH.
    + now apply IH.
Qed.

(** X28: so for every leaf other than [clk_i2s], absent a pending
    change-tree entry, a [determine_rate] that succeeds never reports a
    rate above [max_freq], whether it kept the current parent of a
    no-reparent node or scanned all parents. *)
Lemma rp1_clock_determine_rate_guard clock c req tree req' tree' :
  (forall j, chg_hw (tree !!! j) <> Some (clock_hw clock)) ->
  clk_i2s <> Some (clock_hw clock) ->
  determine clock c req tree = Some (0, req', tree') ->
  req_rate req' <= max_freq (clock_data clock).
Proof.
  intros Hno Hi2s. unfold rp1_clock_determine_rate.
  set (n := Z.to_nat (num_std_parents (clock_data clock)
                      + num_aux_parents (clock_data clock))).
  assert (Hscan : forall t,
    (forall j, chg_hw (t !!! j) <> Some (clock_hw clock)) ->
    ('(b, tree0) ← dloop clock (req_rate req) (seq 0 n)
                      (DetBest None 0 0 ULONG_MAX) t;
     if best_rate b =? 0 then Some (- EINVAL, req, tree0)
     else Some (0, {| req_rate := best_rate b;
                      best_parent_hw := best_parent b;
                      best_parent_rate := best_prate b |}, tree0))
    = Some (0, req', tree') ->
    req_rate req' <= max_freq (clock_data clock)).
  { intros t Ht.
    destruct (dloop clock (req_rate req) (seq 0 n) _ t) as [[b t']|] eqn:Hl;
      [|discriminate].
    cbn [mbind option_bind].
    destruct (determine_loop_guard clock (req_rate req) (seq 0 n)
                (DetBest None 0 0 ULONG_MAX) t b t'
                Ht Hi2s (or_introl eq_refl) Hl) as (_ & Hb).
    destruct (Z.eqb_spec (best_rate b) 0); [discriminate|].
    intros [= <- _]. cbn [req_rate]. lia. }
  destruct (negb _); [|now apply Hscan].
  destruct (clk_hw_get_parent_by_index _ _) as [parent|]; [|now apply Hscan].
  destruct (choose clock _ (req_rate req) tree) as [[[prate calc] tree1]|]
    eqn:Hch; [|discriminate].
  cbn [mbind option_bind].
  destruct (rp1_clock_choose_div_and_prate_guard clock _ _ tree prate calc
              tree1 Hno Hi2s Hch) as (-> & Hcalc).
  destruct (Z.ltb_spec 0 calc).
  - intros [= <- _]. cbn [req_rate]. lia.
  - now apply Hscan.
Qed.

(** *** No trap on the ordinary path *)

Lemma rp1_clock_choose_div_defined rate parent_rate data :
  rate = 0 \/ u32 rate <> 0 ->
  exists div, rp1_clock_choose_div rate parent_rate data = Some div /\
              0 <= div < 2 ^ 32.
Proof.
  intros Hr. unfold rp1_clock_choose_div.
  destruct ((rate =? 0) || _) eqn:Hguard; [exists 0; split; [reflexivity|lia]|].
  apply orb_false_iff in Hguard as (Hr0 & _). apply Z.eqb_neq in Hr0.
  destruct Hr as [|Hr]; [contradiction|].
  unfold DIV_U64_NEAREST, div_u64.
  destruct (Z.eqb_spec (u32 rate) 0) as [|_]; [contradiction|].
  destruct (negb _); eexists; (split; [reflexivity | apply u32_range]).
Qed.

(** A clock that is not [clk_i2s] and has no entry in the pending change tree
    gets an answer for every resolved parent, whenever the target is zero or
    nonzero as the 32-bit divisor. *)
Lemma rp1_clock_choose_div_and_prate_defined clock i rate tree parent :
  (forall j, chg_hw (tree !!! j) <> Some (clock_hw clock)) ->
  clk_i2s <> Some (clock_hw clock) ->
  clk_hw_get_parent_by_index (clock_hw clock) i = Some parent ->
  rate = 0 \/ u32 rate <> 0 ->
  exists calc, choose clock i rate tree
               = Some (clk_hw_get_rate parent, calc, tree).
Proof.
  intros Hno Hi2s Hparent Hr. unfold rp1_clock_choose_div_and_prate.
  rewrite chg_tree_scan_miss by exact Hno. cbn [mbind option_bind].
  rewrite (bool_decide_eq_false_2 (Some (clock_hw clock) = clk_i2s))
    by congruence.
  cbn [andb]. rewrite Hparent. unfold rate_of. cbn [fmap option_fmap option_map].
  cbn [mbind option_bind].
  destruct (rp1_clock_choose_div_defined rate (clk_hw_get_rate parent)
              (clock_data clock) Hr) as (div & -> & Hrange).
  cbn [mbind option_bind].
  destruct (Z.eqb_spec div 0) as [|Hne]; [now eexists|].
  unfold div_u64. rewrite (u32_small div) by exact Hrange.
  destruct (Z.eqb_spec div 0) as [|_]; [contradiction|].
  cbn [mbind option_bind]. destruct (_ <? _); now eexists.
Qed.

Lemma candidate_scan_defined clock rate tree idxs :
  (forall j, chg_hw (tree !!! j) <> Some (clock_hw clock)) ->
  clk_i2s <> Some (clock_hw clock) ->
  rate = 0 \/ u32 rate <> 0 ->
  exists cands, scan clock rate idxs tree = Some (cands, tree).
Proof.
  intros Hno Hi2s Hr. induction idxs as [|i idxs IH]; cbn [candidate_scan].
  - now exists [].
  - destruct (clk_hw_get_parent_by_index (clock_hw clock) i) as [parent|]
      eqn:Hparent; [|exact IH].
    destruct (rp1_clock_choose_div_and_prate_defined clock i rate tree parent
                Hno Hi2s Hparent Hr) as (calc & ->).
    cbn [mbind option_bind].
    destruct (_ =? 0); [now eexists|].
    destruct IH as (cands & ->). cbn [mbind option_bind]. now eexists.
Qed.

End NegotiationProps.

(** C2 (as stated) fails: [clk_uart], asked for 9600 Hz, has the candidates
    [pll_sys_pri_ph] (100 MHz, achievable 392156 Hz with the divider clamped
    at 255), [pll_video] (not programmed, rate 0: no divider, achievable 0)
    and [xosc] (50 MHz, achievable 196078 Hz).  The zero of [pll_video] is
    9600 Hz away from the target, closer than the others, so it is kept and
    [determine_rate] fails with [-EINVAL] although two candidates yield a
    nonzero achievable rate. *)
Lemma rp1_clock_determine_rate_counterexample :
  let req := {| req_rate := 9600; best_parent_hw := None;
                best_parent_rate := 0 |} in
  ExampleTree.determine_rate ExampleTree.uart ExampleTree.clockman0 req
    rp1_clk_chg_tree_init
  = Some (- EINVAL, req, rp1_clk_chg_tree_init) /\
  ExampleTree.choose_div_and_prate ExampleTree.uart 0 9600 rp1_clk_chg_tree_init
  = Some (100000000, 392156, rp1_clk_chg_tree_init) /\
  ExampleTree.choose_div_and_prate ExampleTree.uart 1 9600 rp1_clk_chg_tree_init
  = Some (0, 0, rp1_clk_chg_tree_init) /\
  ExampleTree.choose_div_and_prate ExampleTree.uart 2 9600 rp1_clk_chg_tree_init
  = Some (50000000, 196078, rp1_clk_chg_tree_init).
Proof. vm_compute. repeat split. Qed.

(** The hypothesis holds for [clk_uart], which is not marked no-reparent. *)
Lemma rp1_clock_determine_rate_selection_witness :
  let clock := ExampleTree.uart in
  let req := {| req_rate := 1000000; best_parent_hw := None;
                best_parent_rate := 0 |} in
  let tree := rp1_clk_chg_tree_init in
  let determine := ExampleTree.determine_rate in
  match candidate_scan ExampleTree.clk_hw_get_parent_by_index
          ExampleTree.clk_hw_get_rate ExampleTree.clk_hw_get_parent
          ExampleTree.clk_xosc ExampleTree.clk_audio ExampleTree.clk_i2s
          clock 1000000 (seq 0 9) tree
  with
  | None => determine clock ExampleTree.clockman0 req tree = None
  | Some (cands, tree') =>
      (forall k cand, cands !! k = Some cand ->
                      cand_diff 1000000 cand = 0 -> S k = length cands) /\
      ((exists k cand,
           closest_first 1000000 cands k cand /\ cand_rate cand <> 0 /\
           determine clock ExampleTree.clockman0 req tree
           = Some (0, {| req_rate := cand_rate cand;
                         best_parent_hw := Some (cand_parent cand);
                         best_parent_rate := cand_prate cand |}, tree'))
       \/ (determine clock ExampleTree.clockman0 req tree
           = Some (- EINVAL, req, tree') /\
           ((forall cand, In cand cands -> ULONG_MAX <= cand_diff 1000000 cand)
            \/ exists k cand,
                 closest_first 1000000 cands k cand /\ cand_rate cand = 0))) /\
      ((forall cand, In cand cands -> cand_rate cand = 0) ->
       determine clock ExampleTree.clockman0 req tree
       = Some (- EINVAL, req, tree'))
  end.
Proof.
  exact (rp1_clock_determine_rate_selection ExampleTree.hw_status
           ExampleTree.clk_hw_get_parent_by_index ExampleTree.clk_hw_get_rate
           ExampleTree.clk_hw_get_parent ExampleTree.clk_xosc
           ExampleTree.clk_audio ExampleTree.clk_i2s ExampleTree.uart
           ExampleTree.clockman0
           {| req_rate := 1000000; best_parent_hw := None;
              best_parent_rate := 0 |}
           rp1_clk_chg_tree_init eq_refl).
Defined.

(** A run: [clk_uart] asked for 1 MHz settles on [pll_sys_pri_ph] divided by
    100, an exact match, and the scan stops there. *)
Example rp1_clock_determine_rate_exact_run :
  ExampleTree.determine_rate ExampleTree.uart ExampleTree.clockman0
    {| req_rate := 1000000; best_parent_hw := None; best_parent_rate := 0 |}
    rp1_clk_chg_tree_init
  = Some (0, {| req_rate := 1000000; best_parent_hw := Some 10%nat;
                best_parent_rate := 100000000 |}, rp1_clk_chg_tree_init).
Proof. vm_compute. reflexivity. Qed.

(** C1: the chain retune of [clk_i2s] has no overclock guard.  With the
    50 MHz reference, asking [clk_i2s] (max_freq 50 MHz) for 100 MHz from
    its parent [pll_audio] makes [rp1_clock_choose_div_and_prate] plan a
    800 MHz core, a 400 MHz PLL and report 100 MHz as achievable, and
    [determine_rate] succeeds with 100 MHz, twice the node's maximum. *)
Theorem rp1_clock_i2s_chain_skips_overclock_guard :
  let req := {| req_rate := 100 * MHz; best_parent_hw := None;
                best_parent_rate := 0 |} in
  let plan := [ {| chg_hw := Some 4%nat; new_rate := 100 * MHz |};
                {| chg_hw := Some 2%nat; new_rate := 400 * MHz |};
                {| chg_hw := Some 1%nat; new_rate := 800 * MHz |} ] in
  max_freq (clock_data ExampleTree.i2s) = 50 * MHz /\
  ExampleTree.choose_div_and_prate ExampleTree.i2s 1 (100 * MHz)
    rp1_clk_chg_tree_init
  = Some (400 * MHz, 100 * MHz, plan) /\
  ExampleTree.determine_rate ExampleTree.i2s ExampleTree.clockman0 req
    rp1_clk_chg_tree_init
  = Some (0, {| req_rate := 100 * MHz; best_parent_hw := Some 2%nat;
                best_parent_rate := 400 * MHz |}, plan).
Proof. vm_compute. repeat split. Qed.

(** ** The lock discipline of the other node operations

    Every other operation that takes the lock releases it before it
    returns. *)

Ltac total_block :=
  eapply total_step;
  [ unfold bind, ret, spin_lock, spin_unlock, clockman_write, clockman_read,
      ktime_get;
    cbn [regs regs_lock wlog now];
    repeat match goal with H : regs_lock _ = _ |- _ => rewrite H end;
    reflexivity
  | cbn beta ].

Lemma rp1_pll_core_off_releases pll_core c :
  regs_lock c = false ->
  exists c', rp1_pll_core_off pll_core c = Ok tt c' /\ regs_lock c' = false.
Proof.
  intros Hl. unfold rp1_pll_core_off. munfold. rewrite Hl.
  eexists. split; reflexivity.
Qed.

Lemma rp1_pll_divider_off_releases data c :
  regs_lock c = false ->
  exists c', rp1_pll_divider_off data c = Ok tt c' /\ regs_lock c' = false.
Proof.
  intros Hl. unfold rp1_pll_divider_off. munfold. rewrite Hl.
  eexists. split; reflexivity.
Qed.

Lemma rp1_clock_off_releases hw_status clock c :
  regs_lock c = false ->
  exists c', rp1_clock_off hw_status clock c = Ok tt c' /\ regs_lock c' = false.
Proof.
  intros Hl. unfold rp1_clock_off. munfold. rewrite Hl.
  destruct (negb _); eexists; split; reflexivity.
Qed.

Lemma rp1_clock_on_releases ktime hw_status ref_rate clock c :
  clock_advances ktime ->
  regs_lock c = false ->
  total (fun fuel => rp1_clock_on ktime hw_status ref_rate fuel clock) c
    (fun r c' => r = 0 /\ regs_lock c' = false).
Proof.
  intros Hadv Hl. unfold rp1_clock_on.
  do 3 total_prim.
  destruct (negb (oe_mask (clock_data clock) =? 0)).
  - do 2 total_block.
    eapply total_bind;
      [apply clockman_measure_clock_total; [exact Hadv | reflexivity]|].
    intros result c' (Hl' & _). apply total_ret. now split.
  - do 2 total_block.
    eapply total_bind;
      [apply clockman_measure_clock_total; [exact Hadv | reflexivity]|].
    intros result c' (Hl' & _). apply total_ret. now split.
Qed.

Lemma rp1_pll_divider_on_releases ktime hw_status ref_rate data c :
  clock_advances ktime ->
  regs_lock c = false ->
  total (fun fuel => rp1_pll_divider_on ktime hw_status ref_rate fuel data) c
    (fun r c' => r = 0 /\ regs_lock c' = false).
Proof.
  intros Hadv Hl. unfold rp1_pll_divider_on.
  do 4 total_prim.
  eapply total_bind;
    [apply clockman_measure_clock_total; [exact Hadv | reflexivity]|].
  intros result c' (Hl' & _). apply total_ret. now split.
Qed.

Lemma rp1_pll_set_rate_releases ktime hw_status ref_rate data rate parent_rate c :
  clock_advances ktime ->
  regs_lock c = false ->
  total (fun fuel =>
           rp1_pll_set_rate ktime hw_status ref_rate fuel data rate parent_rate)
    c (fun r c' => r = 0 /\ regs_lock c' = false).
Proof.
  intros Hadv Hl. unfold rp1_pll_set_rate.
  destruct (get_pll_prim_dividers rate parent_rate) as [prim_div1 prim_div2].
  do 4 total_prim.
  eapply total_bind;
    [apply clockman_measure_clock_total; [exact Hadv | reflexivity]|].
  intros result c' (Hl' & _). apply total_ret. now split.
Qed.

(** What the leaked lock of [rp1_clock_set_parent] leads to: setting rate and
    parent of the running [clk_sys] with the undeclared parent index 3
    programs the divider, leaks the lock in [rp1_clock_set_parent], and then
    spins on it when the rate is measured. *)
Example rp1_clock_set_rate_and_parent_deadlock :
  rp1_clock_set_rate_and_parent (fun n => Z.of_nat n * 50000000)
    (fun _ _ => None) 50000000 5
    {| clock_hw := 0%nat; clock_data := clk_sys_data; clock_cached_rate := 0 |}
    (100 * MHz) (200 * MHz) 3
    (Clockman {[ 0x00014 := CLK_CTRL_ENABLE ]} false [] 0)
  = Fault Deadlock.
Proof. vm_compute. reflexivity. Qed.

(** * Further properties of the node operations *)

(** ** Register fields *)

Lemma u32_testbit x n :
  0 <= n -> Z.testbit (u32 x) n = (n <? 32) && Z.testbit x n.
Proof.
  intros Hn. unfold u32. destruct (Z.ltb_spec n 32).
  - now rewrite Z.mod_pow2_bits_low by lia.
  - now rewrite Z.mod_pow2_bits_high by lia.
Qed.

Lemma u32_bits_eq x : (forall n, 32 <= n -> Z.testbit x n = false) -> u32 x = x.
Proof.
  intros Hhigh. apply Z.bits_inj'. intros n Hn. rewrite u32_testbit by exact Hn.
  destruct (Z.ltb_spec n 32); [reflexivity|]. now rewrite Hhigh.
Qed.

Lemma set_register_field_testbit reg val mask shift n :
  0 <= n ->
  Z.testbit (set_register_field reg val mask shift) n
  = (n <? 32) && (if Z.testbit mask n then Z.testbit (Z.shiftl val shift) n
                  else Z.testbit reg n).
Proof.
  intros Hn. unfold set_register_field.
  rewrite Z.lor_spec, !Z.land_spec, !u32_testbit, Z.lnot_spec by exact Hn.
  destruct (n <? 32), (Z.testbit mask n), (Z.testbit reg n),
    (Z.testbit (Z.shiftl val shift) n); reflexivity.
Qed.

(** X1: [set_register_field] returns a 32-bit word whose bits under [mask]
    are those of [val << shift] and whose other bits are those of [reg]. *)
Theorem set_register_field_spec reg val mask shift :
  let reg' := set_register_field reg val mask shift in
  0 <= reg' < 2 ^ 32 /\
  Z.land reg' mask = Z.land (u32 (Z.shiftl val shift)) mask /\
  Z.land reg' (u32 (Z.lnot mask)) = Z.land reg (u32 (Z.lnot mask)).
Proof.
  cbn zeta. split; [|split].
  - rewrite <- (u32_bits_eq (set_register_field reg val mask shift)).
    + apply u32_range.
    + intros n Hn. rewrite set_register_field_testbit by lia.
      destruct (Z.ltb_spec n 32); [lia|reflexivity].
  - apply Z.bits_inj'. intros n Hn.
    rewrite !Z.land_spec, set_register_field_testbit, u32_testbit by exact Hn.
    destruct (n <? 32), (Z.testbit mask n), (Z.testbit reg n),
      (Z.testbit (Z.shiftl val shift) n); reflexivity.
  - apply Z.bits_inj'. intros n Hn.
    rewrite !Z.land_spec, set_register_field_testbit, u32_testbit, Z.lnot_spec
      by exact Hn.
    destruct (n <? 32), (Z.testbit mask n), (Z.testbit reg n),
      (Z.testbit (Z.shiftl val shift) n); reflexivity.
Qed.

(** A value that fits a field of [width] bits at [shift] reads back from
    it. *)
Lemma field_reads_back v val shift width :
  0 <= shift -> 0 <= width -> shift + width <= 32 -> 0 <= val < 2 ^ width ->
  let mask := Z.shiftl (Z.ones width) shift in
  Z.shiftr (Z.land (set_register_field v val mask shift) mask) shift = val.
Proof.
  intros Hs Hw Hsw Hval mask. apply Z.bits_inj'. intros n Hn.
  rewrite Z.shiftr_spec, Z.land_spec, set_register_field_testbit by lia.
  unfold mask. rewrite !Z.shiftl_spec by lia.
  replace (n + shift - shift) with n by lia.
  destruct (Z.ltb_spec n width) as [Hlt|Hge].
  - rewrite Z.ones_spec_low by lia.
    destruct (Z.ltb_spec (n + shift) 32); [|lia].
    cbn [andb]. now rewrite andb_true_r.
  - rewrite Z.ones_spec_high by lia. rewrite andb_false_r.
    symmetry. destruct (Z.eq_dec val 0) as [->|Hnz]; [apply Z.bits_0|].
    apply Z.bits_above_log2; [lia|].
    assert (2 ^ width <= 2 ^ n) by (apply Z.pow_le_mono_r; lia).
    apply Z.log2_lt_pow2; lia.
Qed.

(** Two fields that do not overlap: setting one leaves the other as it
    was. *)
Lemma field_untouched v val mask shift mask' :
  0 <= mask' < 2 ^ 32 -> Z.land mask mask' = 0 ->
  Z.land (set_register_field v val mask shift) mask' = Z.land v mask'.
Proof.
  intros Hm Hdis. apply Z.bits_inj'. intros n Hn.
  rewrite !Z.land_spec, set_register_field_testbit by exact Hn.
  assert (Hb : Z.testbit mask n && Z.testbit mask' n = false).
  { rewrite <- Z.land_spec, Hdis. apply Z.bits_0. }
  destruct (Z.ltb_spec n 32).
  - cbn [andb]. destruct (Z.testbit mask n), (Z.testbit mask' n);
      try discriminate; try reflexivity. now rewrite !andb_false_r.
  - cbn [andb]. symmetry. rewrite andb_comm.
    destruct (Z.eq_dec mask' 0) as [->|Hnz]; [now rewrite Z.bits_0|].
    rewrite (Z.bits_above_log2 mask' n); [reflexivity|lia|].
    assert (2 ^ 32 <= 2 ^ n) by (apply Z.pow_le_mono_r; lia).
    apply Z.log2_lt_pow2; lia.
Qed.

(** ** The frequency counter: what a measurement touches *)

Ltac fc_consts :=
  unfold FC_COUNT, FC_SIZE, FC0_REF_KHZ, FC0_MIN_KHZ, FC0_MAX_KHZ, FC0_DELAY,
    FC0_INTERVAL, FC0_SRC, FC0_STATUS, FC0_RESULT in *.

Lemma clockman_measure_clock_frame ktime hw_status ref_rate fc0_src c :
  clock_advances ktime ->
  regs_lock c = false ->
  let fc_idx := u32 fc0_src / 32 in
  let fc_offset := fc_idx * FC_SIZE in
  total (fun fuel =>
           clockman_measure_clock ktime hw_status ref_rate fuel fc0_src) c
    (fun _ c' =>
       regs_lock c' = false /\
       forall r,
         ~ (fc_idx < FC_COUNT /\
            fc_offset + FC0_REF_KHZ <= r <= fc_offset + FC0_SRC) ->
         regs c' !! r = regs c !! r).
Proof.
  intros Hadv Hl fc_idx fc_offset. unfold clockman_measure_clock.
  fold fc_idx.
  destruct ((u32 fc0_src mod 32 =? 0) || (FC_COUNT <=? fc_idx)) eqn:Hg.
  { apply total_ret. split; [assumption|reflexivity]. }
  apply orb_false_iff in Hg as (_ & Hidx). apply Z.leb_gt in Hidx.
  fold fc_offset. clearbody fc_idx. total_prim.
  eapply total_bind; [apply total_busy_wait; exact Hadv|].
  cbn [regs regs_lock wlog now].
  intros idle c1 (Hr1 & Hl1 & _).
  try rewrite Hl in Hl1.
  destruct idle; cbn [negb].
  2:{ apply total_ret. split; [assumption|]. intros r _. now rewrite Hr1. }
  do 9 total_prim.
  eapply total_bind; [apply total_busy_wait; exact Hadv|].
  cbn [regs regs_lock wlog].
  intros done c2 (Hr2 & Hl2 & _).
  destruct done; cbn [negb].
  - do 4 total_prim. apply total_ret. cbn [regs regs_lock wlog].
    split; [reflexivity|]. intros r Hr. rewrite Hr2.
    subst fc_offset. fc_consts.
    rewrite !lookup_insert_ne by lia. now rewrite Hr1.
  - apply total_ret. split; [exact Hl2|]. intros r Hr. rewrite Hr2.
    subst fc_offset. fc_consts.
    rewrite !lookup_insert_ne by lia. now rewrite Hr1.
Qed.

(** The registers of the frequency counters lie in
    [[FC0_REF_KHZ, FC0_REF_KHZ + FC_COUNT * FC_SIZE)]; a node register
    outside that block is not affected by a measurement. *)
Lemma clockman_measure_clock_outside ktime hw_status ref_rate fc0_src c :
  clock_advances ktime ->
  regs_lock c = false ->
  total (fun fuel =>
           clockman_measure_clock ktime hw_status ref_rate fuel fc0_src) c
    (fun _ c' =>
       regs_lock c' = false /\
       forall r, r < FC0_REF_KHZ \/ FC0_REF_KHZ + FC_COUNT * FC_SIZE <= r ->
                 regs c' !! r = regs c !! r).
Proof.
  intros Hadv Hl.
  eapply total_conseq;
    [exact (clockman_measure_clock_frame ktime hw_status ref_rate fc0_src c
              Hadv Hl)|].
  cbn beta. intros _ c' (Hl' & Hframe). split; [exact Hl'|].
  intros r Hr. apply Hframe.
  assert (0 <= u32 fc0_src / 32)
    by (apply Z.div_pos; [apply u32_range | lia]).
  fc_consts. lia.
Qed.

(** X2: a measurement programs only the frequency counter that [fc0_src]
    selects: whichever way it ends, it returns with the lock released, and
    every register other than the six programming registers of that counter
    holds what it held before; for a counter index of [FC_COUNT] or more no
    register changes at all. *)
Theorem clockman_measure_clock_confined ktime hw_status ref_rate fc0_src c :
  clock_advances ktime ->
  regs_lock c = false ->
  let fc_idx := u32 fc0_src / 32 in
  let fc_offset := fc_idx * FC_SIZE in
  total (fun fuel =>
           clockman_measure_clock ktime hw_status ref_rate fuel fc0_src) c
    (fun _ c' =>
       regs_lock c' = false /\
       (forall r,
          ~ (fc_offset + FC0_REF_KHZ <= r <= fc_offset + FC0_SRC) ->
          regs c' !! r = regs c !! r) /\
       (FC_COUNT <= fc_idx -> regs c' = regs c)).
Proof.
  intros Hadv Hl fc_idx fc_offset.
  eapply total_conseq;
    [exact (clockman_measure_clock_frame ktime hw_status ref_rate fc0_src c
              Hadv Hl)|].
  cbn beta. fold fc_idx fc_offset. intros _ c' (Hl' & Hframe).
  split; [exact Hl'|]. split.
  - intros r Hr. apply Hframe. tauto.
  - intros Hidx. apply map_eq. intros r. apply Hframe. lia.
Qed.

Lemma clockman_measure_clock_confined_witness :
  let ktime := fun n => Z.of_nat n * 50000000 in
  let hw_status := fun (_ : nat) (_ : Z) => @None Z in
  let c := Clockman ∅ false [] 0 in
  let fc_idx := u32 (FC_NUM 4 4) / 32 in
  let fc_offset := fc_idx * FC_SIZE in
  total (fun fuel =>
           clockman_measure_clock ktime hw_status 50000000 fuel (FC_NUM 4 4)) c
    (fun _ c' =>
       regs_lock c' = false /\
       (forall r,
          ~ (fc_offset + FC0_REF_KHZ <= r <= fc_offset + FC0_SRC) ->
          regs c' !! r = regs c !! r) /\
       (FC_COUNT <= fc_idx -> regs c' = regs c)).
Proof.
  exact (clockman_measure_clock_confined (fun n => Z.of_nat n * 50000000)
           (fun _ _ => None) 50000000 (FC_NUM 4 4) (Clockman ∅ false [] 0)
           clock_advances_linear eq_refl).
Defined.

(** X3: when the counter is idle and reports DONE at the first look, the
    measurement needs no polling budget beyond one read per wait: it
    programs the reference rate in kHz and the source, returns the RESULT
    register, and leaves the counter disabled (source 0) with the lock
    released. *)
Theorem clockman_measure_clock_done ktime hw_status ref_rate fc0_src c fuel :
  let fc_idx := u32 fc0_src / 32 in
  let fc_src := u32 fc0_src mod 32 in
  let fc_offset := fc_idx * FC_SIZE in
  regs_lock c = false ->
  fc_src <> 0 -> fc_idx < FC_COUNT ->
  (forall n, exists v, hw_status n (fc_offset + FC0_STATUS) = Some v /\
                       Z.land (u32 v) FC0_STATUS_RUNNING = 0 /\
                       Z.land (u32 v) FC0_STATUS_DONE <> 0) ->
  (0 < fuel)%nat ->
  exists result c',
    clockman_measure_clock ktime hw_status ref_rate fuel fc0_src c
    = Ok result c' /\
    result = readl hw_status c' (fc_offset + FC0_RESULT) /\
    regs_lock c' = false /\ now c' = (now c + 2)%nat /\
    regs c' !! (fc_offset + FC0_REF_KHZ) = Some (u32 (ref_rate / KHz)) /\
    regs c' !! (fc_offset + FC0_SRC) = Some 0 /\
    wlog c' = (fc_offset + FC0_SRC, 0) :: (fc_offset + FC0_SRC, u32 fc_src)
              :: (fc_offset + FC0_DELAY, 7) :: (fc_offset + FC0_INTERVAL, 8)
              :: (fc_offset + FC0_MAX_KHZ, 0x1ffffff)
              :: (fc_offset + FC0_MIN_KHZ, 0)
              :: (fc_offset + FC0_REF_KHZ, u32 (ref_rate / KHz)) :: wlog c.
Proof.
  intros fc_idx fc_src fc_offset Hl Hsrc Hidx Hst Hfuel.
  destruct fuel as [|fuel]; [lia|].
  unfold clockman_measure_clock. fold fc_idx fc_src fc_offset.
  destruct (Z.eqb_spec fc_src 0) as [|_]; [contradiction|].
  destruct (Z.leb_spec FC_COUNT fc_idx) as [|_]; [lia|].
  cbn [orb busy_wait]. munfold. unfold ktime_get, readl.
  cbn [regs regs_lock wlog now].
  destruct (Hst (S (now c))) as (v1 & -> & Hrun1 & _).
  rewrite Hrun1. cbn [Z.eqb negb]. rewrite Hl. cbn [regs regs_lock wlog now].
  destruct (Hst (S (S (now c)))) as (v2 & -> & _ & Hdone2).
  destruct (Z.eqb_spec (Z.land (u32 v2) FC0_STATUS_DONE) 0) as [|_];
    [contradiction|].
  cbn [negb]. unfold readl. cbn [regs regs_lock wlog now].
  eexists _, _. split; [reflexivity|]. cbn [regs regs_lock wlog now].
  subst fc_offset. fc_consts.
  split.
  { destruct (hw_status _ _); [reflexivity|].
    rewrite !lookup_insert_ne by lia. reflexivity. }
  split; [reflexivity|]. split; [lia|].
  split; [|split].
  - rewrite !lookup_insert_ne by lia. apply lookup_insert_eq.
  - apply lookup_insert_eq.
  - reflexivity.
Qed.

Lemma clockman_measure_clock_done_witness :
  let ktime := fun n => Z.of_nat n in
  let hw_status := fun (_ : nat) reg =>
                     if reg =? 0x00234 then Some FC0_STATUS_DONE
                     else if reg =? 0x00238 then Some 200000 else None in
  let c := Clockman ∅ false [] 0 in
  let fc0_src := FC_NUM 0 4 in
  let fc_idx := u32 fc0_src / 32 in
  let fc_src := u32 fc0_src mod 32 in
  let fc_offset := fc_idx * FC_SIZE in
  exists result c',
    clockman_measure_clock ktime hw_status 50000000 1 fc0_src c
    = Ok result c' /\
    result = readl hw_status c' (fc_offset + FC0_RESULT) /\
    regs_lock c' = false /\ now c' = (now c + 2)%nat /\
    regs c' !! (fc_offset + FC0_REF_KHZ) = Some (u32 (50000000 / KHz)) /\
    regs c' !! (fc_offset + FC0_SRC) = Some 0 /\
    wlog c' = (fc_offset + FC0_SRC, 0) :: (fc_offset + FC0_SRC, u32 fc_src)
              :: (fc_offset + FC0_DELAY, 7) :: (fc_offset + FC0_INTERVAL, 8)
              :: (fc_offset + FC0_MAX_KHZ, 0x1ffffff)
              :: (fc_offset + FC0_MIN_KHZ, 0)
              :: (fc_offset + FC0_REF_KHZ, u32 (50000000 / KHz)) :: wlog c.
Proof.
  apply (clockman_measure_clock_done (fun n => Z.of_nat n)
           (fun _ reg => if reg =? 0x00234 then Some FC0_STATUS_DONE
                         else if reg =? 0x00238 then Some 200000 else None)
           50000000 (FC_NUM 0 4) (Clockman ∅ false [] 0) 1%nat);
    [ reflexivity | vm_compute; discriminate | reflexivity
    | intros n; exists FC0_STATUS_DONE; split; [reflexivity|];
      split; [reflexivity | vm_compute; discriminate]
    | lia ].
Defined.

(** ** Pll: the dividers programmed and read back *)

Lemma in_middle {A} (x : A) l pre post : l = pre ++ x :: post -> In x l.
Proof. intros ->. apply in_elt. Qed.

Lemma get_pll_prim_dividers_cases rate parent_rate :
  let p := get_pll_prim_dividers rate parent_rate in
  In p prim_pairs /\
  ((exists q, In q prim_pairs /\ prim_calc_rate parent_rate q = rate) ->
   prim_calc_rate parent_rate p = rate).
Proof.
  cbn zeta. unfold get_pll_prim_dividers.
  set (b0 := PrimBest 7 7 _).
  assert (Hinv : prim_inv rate parent_rate [] b0).
  { unfold prim_inv, b0; cbn [best_div1 best_div2 prim_rate_diff].
    repeat split; [lia | intros q [] | now left]. }
  destruct (prim_loop_spec rate parent_rate prim_pairs [] b0 Hinv)
    as [(pre & post & Eps & Hex & _)|(Hno & _ & _ & _ & Hfirst)];
    cbn zeta in *.
  - split; [|intros _; exact Hex].
    exact (in_middle _ _ _ _ Eps).
  - split.
    + destruct Hfirst as [->|(_ & pre & post & Eps & _)].
      * vm_compute. tauto.
      * exact (in_middle _ _ _ _ Eps).
    + intros (q & Hq & Hex). destruct (Hno q Hq Hex).
Qed.

Lemma prim_pairs_range p :
  In p prim_pairs -> 1 <= snd p <= fst p /\ fst p <= 7.
Proof.
  intros Hp.
  assert (Hall : forallb (fun p => (1 <=? snd p) && (snd p <=? fst p)
                                   && (fst p <=? 7)) prim_pairs = true)
    by reflexivity.
  rewrite forallb_forall in Hall. specialize (Hall p Hp). lia.
Qed.

(** X4: whatever the rates, the divider pair [get_pll_prim_dividers] returns
    is one of the loop: [1 <= div2 <= div1 <= 7], so both dividers are
    nonzero and fit their 3-bit register fields. *)
Theorem get_pll_prim_dividers_range rate parent_rate :
  let '(div1, div2) := get_pll_prim_dividers rate parent_rate in
  1 <= div2 <= div1 /\ div1 <= 7.
Proof.
  destruct (get_pll_prim_dividers_cases rate parent_rate) as (Hin & _).
  destruct (get_pll_prim_dividers rate parent_rate) as [div1 div2].
  exact (prim_pairs_range (div1, div2) Hin).
Qed.

Lemma pll_prim_fields_read_back prim div1 div2 :
  0 <= div1 < 8 -> 0 <= div2 < 8 ->
  let v := set_register_field
             (set_register_field prim div1 PLL_PRIM_DIV1_MASK
                PLL_PRIM_DIV1_SHIFT)
             div2 PLL_PRIM_DIV2_MASK PLL_PRIM_DIV2_SHIFT in
  u32 v = v /\
  Z.shiftr (Z.land v PLL_PRIM_DIV1_MASK) PLL_PRIM_DIV1_SHIFT = div1 /\
  Z.shiftr (Z.land v PLL_PRIM_DIV2_MASK) PLL_PRIM_DIV2_SHIFT = div2 /\
  forall n, 0 <= n < 32 -> ~ 12 <= n <= 14 -> ~ 16 <= n <= 18 ->
            Z.testbit v n = Z.testbit prim n.
Proof.
  intros H1 H2 v. split; [|split; [|split]].
  - apply u32_small, set_register_field_spec.
  - unfold v. rewrite field_untouched by (vm_compute; intuition congruence).
    exact (field_reads_back prim div1 16 3 ltac:(lia) ltac:(lia) ltac:(lia) H1).
  - exact (field_reads_back _ div2 12 3 ltac:(lia) ltac:(lia) ltac:(lia) H2).
  - intros n Hn H12 H16. unfold v.
    rewrite !set_register_field_testbit by lia.
    destruct (Z.ltb_spec n 32); [|lia]. cbn [andb].
    assert (Hm2 : Z.testbit PLL_PRIM_DIV2_MASK n = false).
    { change PLL_PRIM_DIV2_MASK with (Z.shiftl (Z.ones 3) 12).
      destruct (Z.ltb_spec n 12).
      - apply Z.shiftl_spec_low; lia.
      - rewrite Z.shiftl_spec by lia. apply Z.ones_spec_high. lia. }
    assert (Hm1 : Z.testbit PLL_PRIM_DIV1_MASK n = false).
    { change PLL_PRIM_DIV1_MASK with (Z.shiftl (Z.ones 3) 16).
      destruct (Z.ltb_spec n 16).
      - apply Z.shiftl_spec_low; lia.
      - rewrite Z.shiftl_spec by lia. apply Z.ones_spec_high. lia. }
    now rewrite Hm2, Hm1.
Qed.

(** X5: [rp1_pll_set_rate] followed by [rp1_pll_recalc_rate].  With the
    control register reading back what was written and lying outside the
    frequency-counter block, [set_rate] returns 0 with the lock released, and
    [recalc_rate] then finds the two dividers [get_pll_prim_dividers] chose:
    for every parent rate it returns that rate divided by their product,
    rounded to nearest -- never the zero-divider error value -- which for
    the parent rate given to [set_rate] is the target itself whenever some
    divider pair of the search reaches the target exactly, and in any case
    what [rp1_pll_round_rate] answers when the pending change tree holds no
    entry.  The other bits of
    the register, among them the enable bit of a PllPhase node that shares
    it, are left as they were. *)
Theorem rp1_pll_set_rate_recalc_rate ktime hw_status ref_rate data
    rate parent_rate c :
  clock_advances ktime ->
  regs_lock c = false ->
  (forall n, hw_status n (pll_ctrl_reg data) = None) ->
  pll_ctrl_reg data < FC0_REF_KHZ \/
  FC0_REF_KHZ + FC_COUNT * FC_SIZE <= pll_ctrl_reg data ->
  total (fun fuel =>
           rp1_pll_set_rate ktime hw_status ref_rate fuel data rate parent_rate)
    c
    (fun r c' =>
       r = 0 /\ regs_lock c' = false /\
       (forall prate,
          rp1_pll_recalc_rate hw_status data prate c'
          = DIV_ROUND_CLOSEST prate
              (u32 (fst (get_pll_prim_dividers rate parent_rate)
                    * snd (get_pll_prim_dividers rate parent_rate)))) /\
       (forall q, In q prim_pairs ->
          DIV_ROUND_CLOSEST parent_rate (u32 (fst q * snd q)) = rate ->
          rp1_pll_recalc_rate hw_status data parent_rate c' = rate) /\
       (forall hw,
          rp1_pll_round_rate hw rate parent_rate rp1_clk_chg_tree_init
          = (s64 (rp1_pll_recalc_rate hw_status data parent_rate c'),
             parent_rate)) /\
       (forall n, 0 <= n < 32 -> ~ 12 <= n <= 14 -> ~ 16 <= n <= 18 ->
          Z.testbit (readl hw_status c' (pll_ctrl_reg data)) n
          = Z.testbit (readl hw_status c (pll_ctrl_reg data)) n) /\
       (forall ph, ph_reg ph = pll_ctrl_reg data ->
          rp1_pll_ph_is_on hw_status ph c' = rp1_pll_ph_is_on hw_status ph c)).
Proof.
  intros Hadv Hl Hst Hout. unfold rp1_pll_set_rate.
  pose proof (get_pll_prim_dividers_range rate parent_rate) as Hrange.
  destruct (get_pll_prim_dividers_cases rate parent_rate) as (_ & Hexact).
  unfold prim_calc_rate in Hexact.
  destruct (get_pll_prim_dividers rate parent_rate) as [div1 div2] eqn:Hdivs.
  cbn [fst snd].
  do 4 total_prim.
  eapply total_bind;
    [apply clockman_measure_clock_outside; [exact Hadv | reflexivity]|].
  cbn [regs regs_lock wlog now]. intros result c' (Hl' & Hframe).
  apply total_ret. split; [reflexivity|]. split; [exact Hl'|].
  set (prim := readl hw_status (Clockman (regs c) true (wlog c) (now c))
                 (pll_ctrl_reg data)) in *.
  destruct (pll_prim_fields_read_back prim div1 div2 ltac:(lia) ltac:(lia))
    as (Hv & Hf1 & Hf2 & Hbits).
  cbn zeta in Hv, Hf1, Hf2, Hbits.
  assert (Hread : readl hw_status c' (pll_ctrl_reg data)
                  = set_register_field
                      (set_register_field prim div1 PLL_PRIM_DIV1_MASK
                         PLL_PRIM_DIV1_SHIFT)
                      div2 PLL_PRIM_DIV2_MASK PLL_PRIM_DIV2_SHIFT).
  { unfold readl at 1. rewrite Hst, (Hframe _ Hout), lookup_insert_eq.
    exact Hv. }
  assert (Hrecalc : forall prate,
            rp1_pll_recalc_rate hw_status data prate c'
            = DIV_ROUND_CLOSEST prate (u32 (div1 * div2))).
  { intros prate. unfold rp1_pll_recalc_rate. rewrite Hread, Hf1, Hf2.
    destruct (Z.eqb_spec div1 0); [lia|]. destruct (Z.eqb_spec div2 0); [lia|].
    reflexivity. }
  assert (Hold : readl hw_status c (pll_ctrl_reg data) = prim) by reflexivity.
  split; [exact Hrecalc|]. split; [|split; [|split]].
  - intros q Hq Hq_exact. rewrite Hrecalc. apply Hexact. now exists q.
  - intros hw. unfold rp1_pll_round_rate.
    change (chg_hw (rp1_clk_chg_tree_init !!! 1%nat)) with (@None clk_hw).
    rewrite bool_decide_eq_false_2 by discriminate. cbn [andb].
    rewrite Hdivs, Hrecalc. reflexivity.
  - intros n Hn H12 H16. rewrite Hread, Hold. now apply Hbits.
  - intros ph Hph. unfold rp1_pll_ph_is_on, PLL_PH_EN.
    rewrite !land_bit_testbit by lia. rewrite Hph, Hread, Hold.
    apply Hbits; lia.
Qed.

Lemma rp1_pll_set_rate_recalc_rate_witness :
  let ktime := fun n => Z.of_nat n * 50000000 in
  let hw_status := fun (_ : nat) (_ : Z) => @None Z in
  let c := Clockman ∅ false [] 0 in
  let data := pll_sys_data in
  let rate := 200000000 in
  let parent_rate := 1000000000 in
  total (fun fuel =>
           rp1_pll_set_rate ktime hw_status 50000000 fuel data rate parent_rate)
    c
    (fun r c' =>
       r = 0 /\ regs_lock c' = false /\
       (forall prate,
          rp1_pll_recalc_rate hw_status data prate c'
          = DIV_ROUND_CLOSEST prate
              (u32 (fst (get_pll_prim_dividers rate parent_rate)
                    * snd (get_pll_prim_dividers rate parent_rate)))) /\
       (forall q, In q prim_pairs ->
          DIV_ROUND_CLOSEST parent_rate (u32 (fst q * snd q)) = rate ->
          rp1_pll_recalc_rate hw_status data parent_rate c' = rate) /\
       (forall hw,
          rp1_pll_round_rate hw rate parent_rate rp1_clk_chg_tree_init
          = (s64 (rp1_pll_recalc_rate hw_status data parent_rate c'),
             parent_rate)) /\
       (forall n, 0 <= n < 32 -> ~ 12 <= n <= 14 -> ~ 16 <= n <= 18 ->
          Z.testbit (readl hw_status c' (pll_ctrl_reg data)) n
          = Z.testbit (readl hw_status c (pll_ctrl_reg data)) n) /\
       (forall ph, ph_reg ph = pll_ctrl_reg data ->
          rp1_pll_ph_is_on hw_status ph c' = rp1_pll_ph_is_on hw_status ph c)).
Proof.
  apply (rp1_pll_set_rate_recalc_rate (fun n => Z.of_nat n * 50000000)
           (fun _ _ => None) 50000000 pll_sys_data 200000000 1000000000
           (Clockman ∅ false [] 0));
    [exact clock_advances_linear | reflexivity | intros n; reflexivity
    | right; vm_compute; discriminate].
Defined.

(** ** PllPhase: the enable bit next to the primary dividers *)

Lemma field_mask_bits shift width n :
  0 <= shift -> 0 <= width ->
  Z.testbit (Z.shiftl (Z.ones width) shift) n = true ->
  shift <= n < shift + width.
Proof.
  intros Hs Hw Hb. destruct (Z.ltb_spec n 0) as [Hneg|Hn].
  { now rewrite Z.testbit_neg_r in Hb by lia. }
  destruct (Z.ltb_spec n shift).
  { now rewrite Z.shiftl_spec_low in Hb by lia. }
  rewrite Z.shiftl_spec in Hb by lia.
  destruct (Z.ltb_spec (n - shift) width); [lia|].
  now rewrite Z.ones_spec_high in Hb by lia.
Qed.

Lemma land_field_ext v v' shift width :
  0 <= shift -> 0 <= width ->
  (forall n, shift <= n < shift + width -> Z.testbit v' n = Z.testbit v n) ->
  Z.land v' (Z.shiftl (Z.ones width) shift)
  = Z.land v (Z.shiftl (Z.ones width) shift).
Proof.
  intros Hs Hw Hbits. apply Z.bits_inj'. intros n Hn. rewrite !Z.land_spec.
  destruct (Z.testbit (Z.shiftl (Z.ones width) shift) n) eqn:Hm.
  - rewrite (Hbits n (field_mask_bits shift width n Hs Hw Hm)). reflexivity.
  - now rewrite !andb_false_r.
Qed.

(** [rp1_pll_recalc_rate] looks at bits 12..14 and 16..18 only. *)
Lemma rp1_pll_recalc_rate_ext hw_status data prate c c' :
  (forall n, 12 <= n <= 18 ->
     Z.testbit (readl hw_status c' (pll_ctrl_reg data)) n
     = Z.testbit (readl hw_status c (pll_ctrl_reg data)) n) ->
  rp1_pll_recalc_rate hw_status data prate c'
  = rp1_pll_recalc_rate hw_status data prate c.
Proof.
  intros Hbits. unfold rp1_pll_recalc_rate.
  change PLL_PRIM_DIV1_MASK with (Z.shiftl (Z.ones 3) 16).
  change PLL_PRIM_DIV2_MASK with (Z.shiftl (Z.ones 3) 12).
  rewrite (land_field_ext (readl hw_status c (pll_ctrl_reg data))
             (readl hw_status c' (pll_ctrl_reg data)) 16 3)
    by (try lia; intros n Hn; apply Hbits; lia).
  rewrite (land_field_ext (readl hw_status c (pll_ctrl_reg data))
             (readl hw_status c' (pll_ctrl_reg data)) 12 3)
    by (try lia; intros n Hn; apply Hbits; lia).
  reflexivity.
Qed.

Lemma small_bits_high x k n : 0 <= x < 2 ^ k -> 0 <= k <= n -> Z.testbit x n = false.
Proof.
  intros Hx Hk. destruct (Z.eq_dec x 0) as [->|Hnz]; [apply Z.bits_0|].
  apply Z.bits_above_log2; [lia|].
  assert (2 ^ k <= 2 ^ n) by (apply Z.pow_le_mono_r; lia).
  apply Z.log2_lt_pow2; lia.
Qed.

(** X6: [rp1_pll_ph_on].  With the phase register reading back what was
    written and lying outside the frequency-counter block, and a phase
    selector of two bits, [prepare] returns 0 with the lock released and the
    node then reports itself on; the phase selector is OR-ed into bits 0..1
    without clearing what was there; every other bit keeps its value, so a
    Pll node that shares the register recalculates the same rate. *)
Theorem rp1_pll_ph_on_enables ktime hw_status ref_rate data c :
  clock_advances ktime ->
  regs_lock c = false ->
  (forall n, hw_status n (ph_reg data) = None) ->
  ph_reg data < FC0_REF_KHZ \/
  FC0_REF_KHZ + FC_COUNT * FC_SIZE <= ph_reg data ->
  0 <= phase data < 4 ->
  total (fun fuel => rp1_pll_ph_on ktime hw_status ref_rate fuel data) c
    (fun r c' =>
       r = 0 /\ regs_lock c' = false /\
       rp1_pll_ph_is_on hw_status data c' = true /\
       (forall n, 0 <= n < 32 -> n <> 4 ->
          Z.testbit (readl hw_status c' (ph_reg data)) n
          = Z.testbit (readl hw_status c (ph_reg data)) n
            || Z.testbit (phase data) n) /\
       (forall pll prate, pll_ctrl_reg pll = ph_reg data ->
          rp1_pll_recalc_rate hw_status pll prate c'
          = rp1_pll_recalc_rate hw_status pll prate c)).
Proof.
  intros Hadv Hl Hst Hout Hphase. unfold rp1_pll_ph_on.
  do 4 total_prim.
  eapply total_bind;
    [apply clockman_measure_clock_outside; [exact Hadv | reflexivity]|].
  cbn [regs regs_lock wlog now]. intros result c' (Hl' & Hframe).
  apply total_ret. split; [reflexivity|]. split; [exact Hl'|].
  set (old := readl hw_status (Clockman (regs c) true (wlog c) (now c))
                (ph_reg data)) in *.
  assert (Hold : readl hw_status c (ph_reg data) = old) by reflexivity.
  assert (Hread : readl hw_status c' (ph_reg data)
                  = u32 (Z.lor (Z.lor old
                                  (u32 (Z.shiftl (phase data)
                                          PLL_PH_PHASE_SHIFT)))
                               PLL_PH_EN)).
  { unfold readl at 1. rewrite Hst, (Hframe _ Hout), lookup_insert_eq.
    reflexivity. }
  assert (Hbits : forall n, 0 <= n < 32 ->
            Z.testbit (readl hw_status c' (ph_reg data)) n
            = Z.testbit old n || Z.testbit (phase data) n
              || Z.testbit PLL_PH_EN n).
  { intros n Hn. rewrite Hread, u32_testbit, !Z.lor_spec, u32_testbit by lia.
    unfold PLL_PH_PHASE_SHIFT. rewrite Z.shiftl_0_r.
    destruct (Z.ltb_spec n 32); [reflexivity|lia]. }
  assert (Hen : forall n, n <> 4 -> Z.testbit PLL_PH_EN n = false).
  { intros n Hn. unfold PLL_PH_EN, BIT. rewrite Z.shiftl_1_l.
    apply Z.pow2_bits_false. lia. }
  split; [|split].
  - unfold rp1_pll_ph_is_on, PLL_PH_EN. rewrite land_bit_testbit by lia.
    rewrite Hbits by lia. apply orb_true_r.
  - intros n Hn H4. rewrite Hbits, Hold, (Hen n H4) by lia. apply orb_false_r.
  - intros pll prate Hreg. apply rp1_pll_recalc_rate_ext. intros n Hn.
    rewrite Hreg, Hbits, Hold, (Hen n) by lia.
    rewrite (small_bits_high (phase data) 2 n) by lia.
    now rewrite !orb_false_r.
Qed.

Lemma rp1_pll_ph_on_enables_witness :
  let ktime := fun n => Z.of_nat n * 50000000 in
  let hw_status := fun (_ : nat) (_ : Z) => @None Z in
  let c := Clockman {[ 0x08010 := 0x52000 ]} false [] 0 in
  let data := pll_sys_pri_ph_data in
  total (fun fuel => rp1_pll_ph_on ktime hw_status 50000000 fuel data) c
    (fun r c' =>
       r = 0 /\ regs_lock c' = false /\
       rp1_pll_ph_is_on hw_status data c' = true /\
       (forall n, 0 <= n < 32 -> n <> 4 ->
          Z.testbit (readl hw_status c' (ph_reg data)) n
          = Z.testbit (readl hw_status c (ph_reg data)) n
            || Z.testbit (phase data) n) /\
       (forall pll prate, pll_ctrl_reg pll = ph_reg data ->
          rp1_pll_recalc_rate hw_status pll prate c'
          = rp1_pll_recalc_rate hw_status pll prate c)).
Proof.
  apply (rp1_pll_ph_on_enables (fun n => Z.of_nat n * 50000000)
           (fun _ _ => None) 50000000 pll_sys_pri_ph_data
           (Clockman {[ 0x08010 := 0x52000 ]} false [] 0));
    [exact clock_advances_linear | reflexivity | intros n; reflexivity
    | right; vm_compute; discriminate | vm_compute; split; congruence].
Defined.

(** X7: [rp1_pll_ph_off] clears the enable bit and nothing else: it returns
    with the lock released, the node then reports itself off, and every
    other bit of the register -- the phase selector, and the primary
    dividers of a Pll node sharing the register -- keeps its value. *)
Theorem rp1_pll_ph_off_disables hw_status data c :
  regs_lock c = false ->
  (forall n, hw_status n (ph_reg data) = None) ->
  exists c',
    rp1_pll_ph_off hw_status data c = Ok tt c' /\
    regs_lock c' = false /\
    rp1_pll_ph_is_on hw_status data c' = false /\
    (forall n, 0 <= n < 32 -> n <> 4 ->
       Z.testbit (readl hw_status c' (ph_reg data)) n
       = Z.testbit (readl hw_status c (ph_reg data)) n) /\
    (forall pll prate, pll_ctrl_reg pll = ph_reg data ->
       rp1_pll_recalc_rate hw_status pll prate c'
       = rp1_pll_recalc_rate hw_status pll prate c).
Proof.
  intros Hl Hst. unfold rp1_pll_ph_off. munfold. rewrite Hl.
  eexists. split; [reflexivity|]. cbn [regs regs_lock wlog now].
  split; [reflexivity|].
  set (old := readl hw_status (Clockman (regs c) true (wlog c) (now c))
                (ph_reg data)) in *.
  assert (Hold : readl hw_status c (ph_reg data) = old) by reflexivity.
  set (c' := Clockman _ _ _ _).
  assert (Hbits : forall n, 0 <= n < 32 ->
            Z.testbit (readl hw_status c' (ph_reg data)) n
            = Z.testbit old n && negb (Z.testbit PLL_PH_EN n)).
  { intros n Hn. unfold readl at 1, c'. cbn [regs now].
    rewrite Hst, lookup_insert_eq. cbn [from_option id].
    rewrite u32_testbit, Z.land_spec, u32_testbit, Z.lnot_spec by lia.
    destruct (Z.ltb_spec n 32); [reflexivity|lia]. }
  assert (Hen : forall n, n <> 4 -> Z.testbit PLL_PH_EN n = false).
  { intros n Hn. unfold PLL_PH_EN, BIT. rewrite Z.shiftl_1_l.
    apply Z.pow2_bits_false. lia. }
  split; [|split].
  - unfold rp1_pll_ph_is_on, PLL_PH_EN. rewrite land_bit_testbit by lia.
    rewrite Hbits by lia. apply andb_false_r.
  - intros n Hn H4. rewrite Hbits, Hold, (Hen n H4) by lia. apply andb_true_r.
  - intros pll prate Hreg. apply rp1_pll_recalc_rate_ext. intros n Hn.
    rewrite Hreg, Hbits, Hold, (Hen n) by lia. apply andb_true_r.
Qed.

Lemma rp1_pll_ph_off_disables_witness :
  let hw_status := fun (_ : nat) (_ : Z) => @None Z in
  let c := Clockman {[ 0x08010 := 0x52010 ]} false [] 0 in
  let data := pll_sys_pri_ph_data in
  exists c',
    rp1_pll_ph_off hw_status data c = Ok tt c' /\
    regs_lock c' = false /\
    rp1_pll_ph_is_on hw_status data c' = false /\
    (forall n, 0 <= n < 32 -> n <> 4 ->
       Z.testbit (readl hw_status c' (ph_reg data)) n
       = Z.testbit (readl hw_status c (ph_reg data)) n) /\
    (forall pll prate, pll_ctrl_reg pll = ph_reg data ->
       rp1_pll_recalc_rate hw_status pll prate c'
       = rp1_pll_recalc_rate hw_status pll prate c).
Proof.
  apply (rp1_pll_ph_off_disables (fun _ _ => None) pll_sys_pri_ph_data
           (Clockman {[ 0x08010 := 0x52010 ]} false [] 0));
    [reflexivity | intros n; reflexivity].
Defined.

(** X8: [rp1_pll_ph_set_rate] has nothing to program: for a nonzero fixed
    divider it returns 0 with the lock released, and no register outside the
    frequency-counter block changes -- the phase register in particular. *)
Theorem rp1_pll_ph_set_rate_keeps_registers ktime hw_status ref_rate data
    rate parent_rate c :
  clock_advances ktime ->
  regs_lock c = false ->
  fixed_divider data <> 0 ->
  total (fun fuel =>
           rp1_pll_ph_set_rate ktime hw_status ref_rate fuel data
             rate parent_rate) c
    (fun r c' =>
       r = 0 /\ regs_lock c' = false /\
       forall reg, reg < FC0_REF_KHZ \/ FC0_REF_KHZ + FC_COUNT * FC_SIZE <= reg ->
                   regs c' !! reg = regs c !! reg).
Proof.
  intros Hadv Hl Hdiv. unfold rp1_pll_ph_set_rate.
  destruct (Z.eqb_spec (fixed_divider data) 0) as [|_]; [contradiction|].
  eapply total_step; [reflexivity|]. cbn beta.
  destruct (rp1_pll_ph_is_on hw_status data c).
  - eapply total_bind;
      [apply clockman_measure_clock_outside; [exact Hadv | exact Hl]|].
    cbn beta. intros result c' (Hl' & Hframe).
    apply total_ret. now repeat split.
  - eapply total_step; [reflexivity|]. apply total_ret. now repeat split.
Qed.

Lemma rp1_pll_ph_set_rate_keeps_registers_witness :
  let ktime := fun n => Z.of_nat n * 50000000 in
  let hw_status := fun (_ : nat) (_ : Z) => @None Z in
  let c := Clockman {[ 0x08010 := 0x52010 ]} false [] 0 in
  total (fun fuel =>
           rp1_pll_ph_set_rate ktime hw_status 50000000 fuel
             pll_sys_pri_ph_data 100000000 200000000) c
    (fun r c' =>
       r = 0 /\ regs_lock c' = false /\
       forall reg, reg < FC0_REF_KHZ \/ FC0_REF_KHZ + FC_COUNT * FC_SIZE <= reg ->
                   regs c' !! reg = regs c !! reg).
Proof.
  apply (rp1_pll_ph_set_rate_keeps_registers (fun n => Z.of_nat n * 50000000)
           (fun _ _ => None) 50000000 pll_sys_pri_ph_data 100000000 200000000
           (Clockman {[ 0x08010 := 0x52010 ]} false [] 0));
    [exact clock_advances_linear | reflexivity | vm_compute; discriminate].
Defined.

(** ** PllSecondary: reset and the divider field *)

Lemma rp1_pll_divider_is_on_testbit hw_status data c :
  rp1_pll_divider_is_on hw_status data c
  = negb (Z.testbit (readl hw_status c (pll_ctrl_reg data)) 16).
Proof.
  unfold rp1_pll_divider_is_on, PLL_SEC_RST.
  rewrite <- (land_bit_testbit _ 16) by lia. now rewrite negb_involutive.
Qed.

(** X9: [rp1_pll_divider_off] does not read the control register: it
    overwrites it with the reset bit alone.  It returns with the lock
    released and the node then reports itself off, but the divider field is
    zero afterwards, whatever divider had been programmed, and the raw code
    0 decodes through [pll_sec_div_table] to the divisor 19. *)
Theorem rp1_pll_divider_off_clears_divider hw_status data c :
  regs_lock c = false ->
  (forall n, hw_status n (pll_ctrl_reg data) = None) ->
  exists c',
    rp1_pll_divider_off data c = Ok tt c' /\
    regs_lock c' = false /\
    rp1_pll_divider_is_on hw_status data c' = false /\
    readl hw_status c' (pll_ctrl_reg data) = PLL_SEC_RST /\
    Z.shiftr (Z.land (readl hw_status c' (pll_ctrl_reg data))
                PLL_SEC_DIV_MASK) PLL_SEC_DIV_SHIFT = 0 /\
    table_div pll_sec_div_table
      (Z.shiftr (Z.land (readl hw_status c' (pll_ctrl_reg data))
                   PLL_SEC_DIV_MASK) PLL_SEC_DIV_SHIFT) = 19.
Proof.
  intros Hl Hst. unfold rp1_pll_divider_off. munfold. rewrite Hl.
  cbn [regs regs_lock wlog now].
  eexists. split; [reflexivity|]. split; [reflexivity|].
  assert (Hread : readl hw_status
                    (Clockman (<[pll_ctrl_reg data := u32 PLL_SEC_RST]> (regs c))
                       false ((pll_ctrl_reg data, u32 PLL_SEC_RST) :: wlog c)
                       (now c)) (pll_ctrl_reg data) = PLL_SEC_RST).
  { unfold readl. cbn [regs now]. now rewrite Hst, lookup_insert_eq. }
  unfold rp1_pll_divider_is_on. rewrite !Hread. now repeat split.
Qed.

Lemma rp1_pll_divider_off_clears_divider_witness :
  let hw_status := fun (_ : nat) (_ : Z) => @None Z in
  let data := pll_sys_sec_data in
  let c := Clockman {[ 0x08014 := 0x00800 ]} false [] 0 in
  exists c',
    rp1_pll_divider_off data c = Ok tt c' /\
    regs_lock c' = false /\
    rp1_pll_divider_is_on hw_status data c' = false /\
    readl hw_status c' (pll_ctrl_reg data) = PLL_SEC_RST /\
    Z.shiftr (Z.land (readl hw_status c' (pll_ctrl_reg data))
                PLL_SEC_DIV_MASK) PLL_SEC_DIV_SHIFT = 0 /\
    table_div pll_sec_div_table
      (Z.shiftr (Z.land (readl hw_status c' (pll_ctrl_reg data))
                   PLL_SEC_DIV_MASK) PLL_SEC_DIV_SHIFT) = 19.
Proof.
  apply (rp1_pll_divider_off_clears_divider (fun _ _ => None) pll_sys_sec_data
           (Clockman {[ 0x08014 := 0x00800 ]} false [] 0));
    [reflexivity | intros n; reflexivity].
Defined.

(** X10: [rp1_pll_divider_on] releases the reset and nothing else: with the
    control register reading back what was written and lying outside the
    frequency-counter block, it returns 0 with the lock released, the node
    then reports itself on, and every other bit of the register -- the
    divider field among them -- keeps its value. *)
Theorem rp1_pll_divider_on_releases_reset ktime hw_status ref_rate data c :
  clock_advances ktime ->
  regs_lock c = false ->
  (forall n, hw_status n (pll_ctrl_reg data) = None) ->
  pll_ctrl_reg data < FC0_REF_KHZ \/
  FC0_REF_KHZ + FC_COUNT * FC_SIZE <= pll_ctrl_reg data ->
  total (fun fuel => rp1_pll_divider_on ktime hw_status ref_rate fuel data) c
    (fun r c' =>
       r = 0 /\ regs_lock c' = false /\
       rp1_pll_divider_is_on hw_status data c' = true /\
       (forall n, 0 <= n < 32 -> n <> 16 ->
          Z.testbit (readl hw_status c' (pll_ctrl_reg data)) n
          = Z.testbit (readl hw_status c (pll_ctrl_reg data)) n) /\
       Z.land (readl hw_status c' (pll_ctrl_reg data)) PLL_SEC_DIV_MASK
       = Z.land (readl hw_status c (pll_ctrl_reg data)) PLL_SEC_DIV_MASK).
Proof.
  intros Hadv Hl Hst Hout. unfold rp1_pll_divider_on.
  do 4 total_prim.
  eapply total_bind;
    [apply clockman_measure_clock_outside; [exact Hadv | reflexivity]|].
  cbn [regs regs_lock wlog now]. intros result c' (Hl' & Hframe).
  apply total_ret. split; [reflexivity|]. split; [exact Hl'|].
  set (old := readl hw_status (Clockman (regs c) true (wlog c) (now c))
                (pll_ctrl_reg data)) in *.
  assert (Hold : readl hw_status c (pll_ctrl_reg data) = old) by reflexivity.
  assert (Hbits : forall n, 0 <= n < 32 ->
            Z.testbit (readl hw_status c' (pll_ctrl_reg data)) n
            = Z.testbit old n && negb (Z.testbit PLL_SEC_RST n)).
  { intros n Hn. unfold readl at 1.
    rewrite Hst, (Hframe _ Hout), lookup_insert_eq. cbn [from_option id].
    rewrite u32_testbit, Z.land_spec, u32_testbit, Z.lnot_spec by lia.
    destruct (Z.ltb_spec n 32); [reflexivity|lia]. }
  assert (Hrst : forall n, n <> 16 -> Z.testbit PLL_SEC_RST n = false).
  { intros n Hn. unfold PLL_SEC_RST, BIT. rewrite Z.shiftl_1_l.
    apply Z.pow2_bits_false. lia. }
  split; [|split].
  - rewrite rp1_pll_divider_is_on_testbit, Hbits by lia.
    now rewrite andb_false_r.
  - intros n Hn H16. rewrite Hbits, Hold, (Hrst n H16) by lia.
    apply andb_true_r.
  - rewrite Hold. change PLL_SEC_DIV_MASK with (Z.shiftl (Z.ones 5) 8).
    apply land_field_ext; [lia|lia|]. intros n Hn.
    rewrite Hbits, (Hrst n) by lia. apply andb_true_r.
Qed.

Lemma rp1_pll_divider_on_releases_reset_witness :
  let ktime := fun n => Z.of_nat n * 50000000 in
  let hw_status := fun (_ : nat) (_ : Z) => @None Z in
  let data := pll_sys_sec_data in
  let c := Clockman {[ 0x08014 := 0x10800 ]} false [] 0 in
  total (fun fuel => rp1_pll_divider_on ktime hw_status 50000000 fuel data) c
    (fun r c' =>
       r = 0 /\ regs_lock c' = false /\
       rp1_pll_divider_is_on hw_status data c' = true /\
       (forall n, 0 <= n < 32 -> n <> 16 ->
          Z.testbit (readl hw_status c' (pll_ctrl_reg data)) n
          = Z.testbit (readl hw_status c (pll_ctrl_reg data)) n) /\
       Z.land (readl hw_status c' (pll_ctrl_reg data)) PLL_SEC_DIV_MASK
       = Z.land (readl hw_status c (pll_ctrl_reg data)) PLL_SEC_DIV_MASK).
Proof.
  apply (rp1_pll_divider_on_releases_reset (fun n => Z.of_nat n * 50000000)
           (fun _ _ => None) 50000000 pll_sys_sec_data
           (Clockman {[ 0x08014 := 0x10800 ]} false [] 0));
    [exact clock_advances_linear | reflexivity | intros n; reflexivity
    | right; vm_compute; discriminate].
Defined.

(** X11: [rp1_pll_divider_set_rate] followed by a read of the register.
    With the control register reading back what was written and lying
    outside the frequency-counter block, and a target that is nonzero as the
    32-bit divisor, [set_rate] returns 0 with the lock released and leaves
    the divider out of reset -- the node reports itself on even if it was
    held in reset before -- and the divider field read back decodes through
    [pll_sec_div_table] to the divisor [set_rate] chose. *)
Theorem rp1_pll_divider_set_rate_reads_back ktime hw_status ref_rate data
    rate parent_rate c :
  clock_advances ktime ->
  regs_lock c = false ->
  (forall n, hw_status n (pll_ctrl_reg data) = None) ->
  pll_ctrl_reg data < FC0_REF_KHZ \/
  FC0_REF_KHZ + FC_COUNT * FC_SIZE <= pll_ctrl_reg data ->
  u32 rate <> 0 ->
  let div := clamp (u32 (u64 (parent_rate + rate - 1) / u32 rate)) 8 19 in
  total (fun fuel =>
           rp1_pll_divider_set_rate ktime hw_status ref_rate fuel data
             rate parent_rate) c
    (fun r c' =>
       r = 0 /\ regs_lock c' = false /\
       rp1_pll_divider_is_on hw_status data c' = true /\
       Z.shiftr (Z.land (readl hw_status c' (pll_ctrl_reg data))
                   PLL_SEC_DIV_MASK) PLL_SEC_DIV_SHIFT = div /\
       table_div pll_sec_div_table
         (Z.shiftr (Z.land (readl hw_status c' (pll_ctrl_reg data))
                      PLL_SEC_DIV_MASK) PLL_SEC_DIV_SHIFT) = div).
Proof.
  intros Hadv Hl Hst Hout Hr div.
  assert (Hdiv : 8 <= div <= 19) by (unfold div, clamp; lia).
  unfold rp1_pll_divider_set_rate, DIV_ROUND_UP_ULL.
  destruct (Z.eqb_spec (u32 rate) 0) as [|_]; [contradiction|].
  fold div.
  destruct (pll_sec_field_written (readl hw_status
              (Clockman (regs c) true (wlog c) (now c)) (pll_ctrl_reg data))
              div Hdiv) as (_ & _ & F2 & B2).
  do 6 total_prim.
  match goal with
  | |- context [rp1_pll_divider_is_on ?h ?d ?c0] =>
      assert (Hread0 : readl hw_status c0 (pll_ctrl_reg data)
                       = default 0 (regs c0 !! pll_ctrl_reg data))
        by (unfold readl; now rewrite Hst);
      assert (Hon0 : rp1_pll_divider_is_on h d c0 = true)
  end.
  { rewrite rp1_pll_divider_is_on_testbit, Hread0. cbn [regs].
    rewrite lookup_insert_eq. cbn [from_option id]. now rewrite B2. }
  rewrite Hon0.
  eapply total_bind;
    [apply clockman_measure_clock_outside; [exact Hadv | reflexivity]|].
  cbn [regs regs_lock wlog now]. intros result c' (Hl' & Hframe).
  apply total_ret. split; [reflexivity|]. split; [exact Hl'|].
  assert (Hread : readl hw_status c' (pll_ctrl_reg data)
                  = default 0 (regs c' !! pll_ctrl_reg data))
    by (unfold readl; now rewrite Hst).
  rewrite rp1_pll_divider_is_on_testbit, Hread, (Hframe _ Hout),
    lookup_insert_eq.
  cbn [from_option id]. rewrite B2, F2. split; [reflexivity|].
  split; [reflexivity|].
  rewrite pll_sec_div_table_decodes by lia.
  destruct (Z.leb_spec 8 div); [|lia]. cbn [andb].
  destruct (Z.leb_spec div 0x12); [reflexivity|lia].
Qed.

Lemma rp1_pll_divider_set_rate_reads_back_witness :
  let ktime := fun n => Z.of_nat n * 50000000 in
  let hw_status := fun (_ : nat) (_ : Z) => @None Z in
  let data := pll_sys_sec_data in
  let c := Clockman {[ 0x08014 := 0x10000 ]} false [] 0 in
  let rate := 125000000 in
  let parent_rate := 1000000000 in
  let div := clamp (u32 (u64 (parent_rate + rate - 1) / u32 rate)) 8 19 in
  total (fun fuel =>
           rp1_pll_divider_set_rate ktime hw_status 50000000 fuel data
             rate parent_rate) c
    (fun r c' =>
       r = 0 /\ regs_lock c' = false /\
       rp1_pll_divider_is_on hw_status data c' = true /\
       Z.shiftr (Z.land (readl hw_status c' (pll_ctrl_reg data))
                   PLL_SEC_DIV_MASK) PLL_SEC_DIV_SHIFT = div /\
       table_div pll_sec_div_table
         (Z.shiftr (Z.land (readl hw_status c' (pll_ctrl_reg data))
                      PLL_SEC_DIV_MASK) PLL_SEC_DIV_SHIFT) = div).
Proof.
  apply (rp1_pll_divider_set_rate_reads_back (fun n => Z.of_nat n * 50000000)
           (fun _ _ => None) 50000000 pll_sys_sec_data 125000000 1000000000
           (Clockman {[ 0x08014 := 0x10000 ]} false [] 0));
    [exact clock_advances_linear | reflexivity | intros n; reflexivity
    | right; vm_compute; discriminate | vm_compute; lia].
Defined.

(** ** Clock: the enable bit and the output enable *)

Lemma bit_testbit_other k n : 0 <= k -> n <> k -> Z.testbit (BIT k) n = false.
Proof.
  intros Hk Hn. unfold BIT. rewrite Z.shiftl_1_l.
  apply Z.pow2_bits_false. lia.
Qed.

Lemma bit_testbit_same k : 0 <= k -> Z.testbit (BIT k) k = true.
Proof.
  intros Hk. unfold BIT. rewrite Z.shiftl_1_l. now apply Z.pow2_bits_true.
Qed.

Lemma rp1_clock_is_on_testbit hw_status clock c :
  rp1_clock_is_on hw_status clock c
  = Z.testbit (readl hw_status c (ctrl_reg (clock_data clock))) 11.
Proof.
  unfold rp1_clock_is_on, CLK_CTRL_ENABLE. now rewrite land_bit_testbit by lia.
Qed.

(** X12: [rp1_clock_on].  With the control register and [GPCLK_OE_CTRL]
    reading back what was written, and the control register a register of
    its own outside the frequency-counter block, [prepare] returns 0 with
    the lock released; the node then reports itself on; no other bit of its
    control register changes; and in [GPCLK_OE_CTRL] exactly the bits of the
    node's output-enable mask are set in addition to those that were. *)
Theorem rp1_clock_on_enables ktime hw_status ref_rate clock c :
  let data := clock_data clock in
  clock_advances ktime ->
  regs_lock c = false ->
  (forall n, hw_status n (ctrl_reg data) = None) ->
  (forall n, hw_status n GPCLK_OE_CTRL = None) ->
  ctrl_reg data <> GPCLK_OE_CTRL ->
  ctrl_reg data < FC0_REF_KHZ \/
  FC0_REF_KHZ + FC_COUNT * FC_SIZE <= ctrl_reg data ->
  total (fun fuel => rp1_clock_on ktime hw_status ref_rate fuel clock) c
    (fun r c' =>
       r = 0 /\ regs_lock c' = false /\
       rp1_clock_is_on hw_status clock c' = true /\
       (forall n, 0 <= n < 32 -> n <> 11 ->
          Z.testbit (readl hw_status c' (ctrl_reg data)) n
          = Z.testbit (readl hw_status c (ctrl_reg data)) n) /\
       (forall n, 0 <= n < 32 ->
          Z.testbit (readl hw_status c' GPCLK_OE_CTRL) n
          = Z.testbit (readl hw_status c GPCLK_OE_CTRL) n
            || Z.testbit (oe_mask data) n)).
Proof.
  cbn zeta. intros Hadv Hl Hst Hoe Hne Hout. unfold rp1_clock_on.
  assert (Hoe_out : GPCLK_OE_CTRL < FC0_REF_KHZ \/
                    FC0_REF_KHZ + FC_COUNT * FC_SIZE <= GPCLK_OE_CTRL)
    by (left; reflexivity).
  set (data := clock_data clock) in *.
  set (old := readl hw_status (Clockman (regs c) true (wlog c) (now c))
                (ctrl_reg data)).
  assert (Hold : readl hw_status c (ctrl_reg data) = old) by reflexivity.
  assert (Hen : forall n, 0 <= n < 32 ->
            Z.testbit (u32 (Z.lor old CLK_CTRL_ENABLE)) n
            = Z.testbit old n || Z.testbit CLK_CTRL_ENABLE n).
  { intros n Hn. rewrite u32_testbit, Z.lor_spec by lia.
    destruct (Z.ltb_spec n 32); [reflexivity|lia]. }
  do 3 total_prim. fold old.
  destruct (Z.eqb_spec (oe_mask data) 0) as [Hmask|Hmask]; cbn [negb].
  - do 2 total_block.
    eapply total_bind;
      [apply clockman_measure_clock_outside; [exact Hadv | reflexivity]|].
    cbn [regs regs_lock wlog now]. intros result c' (Hl' & Hframe).
    apply total_ret. split; [reflexivity|]. split; [exact Hl'|].
    assert (Hread : readl hw_status c' (ctrl_reg data)
                    = u32 (Z.lor old CLK_CTRL_ENABLE)).
    { unfold readl. now rewrite Hst, (Hframe _ Hout), lookup_insert_eq. }
    assert (Hreadoe : readl hw_status c' GPCLK_OE_CTRL
                      = readl hw_status c GPCLK_OE_CTRL).
    { unfold readl. rewrite !Hoe, (Hframe _ Hoe_out).
      now rewrite lookup_insert_ne by exact Hne. }
    split; [|split].
    + rewrite rp1_clock_is_on_testbit. fold data. rewrite Hread, Hen by lia.
      unfold CLK_CTRL_ENABLE. rewrite bit_testbit_same by lia.
      apply orb_true_r.
    + intros n Hn H11. rewrite Hread, Hold, Hen by lia.
      unfold CLK_CTRL_ENABLE. rewrite bit_testbit_other by lia.
      apply orb_false_r.
    + intros n Hn. rewrite Hreadoe, Hmask, Z.bits_0. now rewrite orb_false_r.
  - set (oe := readl hw_status
                 (Clockman (<[ctrl_reg data := u32 (Z.lor old CLK_CTRL_ENABLE)]>
                              (regs c)) true
                    ((ctrl_reg data, u32 (Z.lor old CLK_CTRL_ENABLE)) :: wlog c)
                    (now c)) GPCLK_OE_CTRL).
    assert (Hoe_old : oe = readl hw_status c GPCLK_OE_CTRL).
    { unfold oe, readl. cbn [regs now]. rewrite !Hoe.
      now rewrite lookup_insert_ne by exact Hne. }
    do 2 total_block. fold oe.
    eapply total_bind;
      [apply clockman_measure_clock_outside; [exact Hadv | reflexivity]|].
    cbn [regs regs_lock wlog now]. intros result c' (Hl' & Hframe).
    apply total_ret. split; [reflexivity|]. split; [exact Hl'|].
    assert (Hread : readl hw_status c' (ctrl_reg data)
                    = u32 (Z.lor old CLK_CTRL_ENABLE)).
    { unfold readl. rewrite Hst, (Hframe _ Hout).
      rewrite lookup_insert_ne by congruence. now rewrite lookup_insert_eq. }
    assert (Hreadoe : readl hw_status c' GPCLK_OE_CTRL
                      = u32 (Z.lor oe (oe_mask data))).
    { unfold readl. now rewrite Hoe, (Hframe _ Hoe_out), lookup_insert_eq. }
    split; [|split].
    + rewrite rp1_clock_is_on_testbit. fold data. rewrite Hread, Hen by lia.
      unfold CLK_CTRL_ENABLE. rewrite bit_testbit_same by lia.
      apply orb_true_r.
    + intros n Hn H11. rewrite Hread, Hold, Hen by lia.
      unfold CLK_CTRL_ENABLE. rewrite bit_testbit_other by lia.
      apply orb_false_r.
    + intros n Hn. rewrite Hreadoe, u32_testbit, Z.lor_spec, Hoe_old by lia.
      destruct (Z.ltb_spec n 32); [reflexivity|lia].
Qed.

Lemma rp1_clock_on_enables_witness :
  let ktime := fun n => Z.of_nat n * 50000000 in
  let hw_status := fun (_ : nat) (_ : Z) => @None Z in
  let clock := {| clock_hw := 0%nat; clock_data := clk_gp0_data;
                  clock_cached_rate := 0 |} in
  let data := clock_data clock in
  let c := Clockman {[ 0x00000 := 0x2 ]} false [] 0 in
  total (fun fuel => rp1_clock_on ktime hw_status 50000000 fuel clock) c
    (fun r c' =>
       r = 0 /\ regs_lock c' = false /\
       rp1_clock_is_on hw_status clock c' = true /\
       (forall n, 0 <= n < 32 -> n <> 11 ->
          Z.testbit (readl hw_status c' (ctrl_reg data)) n
          = Z.testbit (readl hw_status c (ctrl_reg data)) n) /\
       (forall n, 0 <= n < 32 ->
          Z.testbit (readl hw_status c' GPCLK_OE_CTRL) n
          = Z.testbit (readl hw_status c GPCLK_OE_CTRL) n
            || Z.testbit (oe_mask data) n)).
Proof.
  apply (rp1_clock_on_enables (fun n => Z.of_nat n * 50000000)
           (fun _ _ => None) 50000000
           {| clock_hw := 0%nat; clock_data := clk_gp0_data;
              clock_cached_rate := 0 |}
           (Clockman {[ 0x00000 := 0x2 ]} false [] 0));
    [exact clock_advances_linear | reflexivity | intros n; reflexivity
    | intros n; reflexivity | vm_compute; discriminate
    | left; vm_compute; reflexivity ].
Defined.

(** X13: [rp1_clock_off].  With the control register and [GPCLK_OE_CTRL]
    reading back what was written, and the control register a register of
    its own, [unprepare] returns with the lock released; the node then
    reports itself off; no other bit of its control register changes -- the
    parent selection stays -- and in [GPCLK_OE_CTRL] exactly the bits of the
    node's output-enable mask are cleared: the outputs of the other GPCLKs
    stay as they were. *)
Theorem rp1_clock_off_disables hw_status clock c :
  let data := clock_data clock in
  regs_lock c = false ->
  (forall n, hw_status n (ctrl_reg data) = None) ->
  (forall n, hw_status n GPCLK_OE_CTRL = None) ->
  ctrl_reg data <> GPCLK_OE_CTRL ->
  exists c',
    rp1_clock_off hw_status clock c = Ok tt c' /\
    regs_lock c' = false /\
    rp1_clock_is_on hw_status clock c' = false /\
    (forall n, 0 <= n < 32 -> n <> 11 ->
       Z.testbit (readl hw_status c' (ctrl_reg data)) n
       = Z.testbit (readl hw_status c (ctrl_reg data)) n) /\
    (forall n, 0 <= n < 32 ->
       Z.testbit (readl hw_status c' GPCLK_OE_CTRL) n
       = Z.testbit (readl hw_status c GPCLK_OE_CTRL) n
         && negb (Z.testbit (oe_mask data) n)).
Proof.
  cbn zeta. intros Hl Hst Hoe Hne. unfold rp1_clock_off.
  set (data := clock_data clock) in *.
  munfold. rewrite Hl. cbn [regs regs_lock wlog now].
  set (old := readl hw_status (Clockman (regs c) true (wlog c) (now c))
                (ctrl_reg data)).
  assert (Hold : readl hw_status c (ctrl_reg data) = old) by reflexivity.
  set (new := u32 (Z.land old (u32 (Z.lnot CLK_CTRL_ENABLE)))).
  assert (Hnew : forall n, 0 <= n < 32 ->
            Z.testbit new n
            = Z.testbit old n && negb (Z.testbit CLK_CTRL_ENABLE n)).
  { intros n Hn. unfold new.
    rewrite u32_testbit, Z.land_spec, u32_testbit, Z.lnot_spec by lia.
    destruct (Z.ltb_spec n 32); [reflexivity|lia]. }
  destruct (Z.eqb_spec (oe_mask data) 0) as [Hmask|Hmask]; cbn [negb].
  - cbn [regs regs_lock wlog now].
    eexists. split; [reflexivity|]. split; [reflexivity|].
    set (c' := Clockman _ _ _ _).
    assert (Hread : readl hw_status c' (ctrl_reg data) = new).
    { unfold readl, c'. cbn [regs now]. now rewrite Hst, lookup_insert_eq. }
    assert (Hreadoe : readl hw_status c' GPCLK_OE_CTRL
                      = readl hw_status c GPCLK_OE_CTRL).
    { unfold readl, c'. cbn [regs now]. rewrite !Hoe.
      now rewrite lookup_insert_ne by exact Hne. }
    split; [|split].
    + rewrite rp1_clock_is_on_testbit. fold data. rewrite Hread, Hnew by lia.
      unfold CLK_CTRL_ENABLE. rewrite bit_testbit_same by lia.
      apply andb_false_r.
    + intros n Hn H11. rewrite Hread, Hold, Hnew by lia.
      unfold CLK_CTRL_ENABLE. rewrite bit_testbit_other by lia.
      apply andb_true_r.
    + intros n Hn. rewrite Hreadoe, Hmask, Z.bits_0. now rewrite andb_true_r.
  - cbn [regs regs_lock wlog now].
    set (oe := readl hw_status
                 (Clockman (<[ctrl_reg data := new]> (regs c)) true
                    ((ctrl_reg data, new) :: wlog c) (now c)) GPCLK_OE_CTRL).
    assert (Hoe_old : oe = readl hw_status c GPCLK_OE_CTRL).
    { unfold oe, readl. cbn [regs now]. rewrite !Hoe.
      now rewrite lookup_insert_ne by exact Hne. }
    eexists. split; [reflexivity|]. split; [reflexivity|].
    set (c' := Clockman _ _ _ _).
    assert (Hread : readl hw_status c' (ctrl_reg data) = new).
    { unfold readl, c'. cbn [regs now]. rewrite Hst.
      rewrite lookup_insert_ne by congruence. now rewrite lookup_insert_eq. }
    assert (Hreadoe : readl hw_status c' GPCLK_OE_CTRL
                      = u32 (Z.land oe (u32 (Z.lnot (oe_mask data))))).
    { unfold readl, c'. cbn [regs now]. now rewrite Hoe, lookup_insert_eq. }
    split; [|split].
    + rewrite rp1_clock_is_on_testbit. fold data. rewrite Hread, Hnew by lia.
      unfold CLK_CTRL_ENABLE. rewrite bit_testbit_same by lia.
      apply andb_false_r.
    + intros n Hn H11. rewrite Hread, Hold, Hnew by lia.
      unfold CLK_CTRL_ENABLE. rewrite bit_testbit_other by lia.
      apply andb_true_r.
    + intros n Hn.
      rewrite Hreadoe, u32_testbit, Z.land_spec, u32_testbit, Z.lnot_spec,
        Hoe_old by lia.
      destruct (Z.ltb_spec n 32); [reflexivity|lia].
Qed.

Lemma rp1_clock_off_disables_witness :
  let hw_status := fun (_ : nat) (_ : Z) => @None Z in
  let clock := {| clock_hw := 0%nat; clock_data := clk_gp0_data;
                  clock_cached_rate := 0 |} in
  let data := clock_data clock in
  let c := Clockman {[ 0x00000 := 0x3; 0x00174 := 0x840 ]} false [] 0 in
  exists c',
    rp1_clock_off hw_status clock c = Ok tt c' /\
    regs_lock c' = false /\
    rp1_clock_is_on hw_status clock c' = false /\
    (forall n, 0 <= n < 32 -> n <> 11 ->
       Z.testbit (readl hw_status c' (ctrl_reg data)) n
       = Z.testbit (readl hw_status c (ctrl_reg data)) n) /\
    (forall n, 0 <= n < 32 ->
       Z.testbit (readl hw_status c' GPCLK_OE_CTRL) n
       = Z.testbit (readl hw_status c GPCLK_OE_CTRL) n
         && negb (Z.testbit (oe_mask data) n)).
Proof.
  apply (rp1_clock_off_disables (fun _ _ => None)
           {| clock_hw := 0%nat; clock_data := clk_gp0_data;
              clock_cached_rate := 0 |}
           (Clockman {[ 0x00000 := 0x3; 0x00174 := 0x840 ]} false [] 0));
    [reflexivity | intros n; reflexivity | intros n; reflexivity
    | vm_compute; discriminate].
Defined.

(** ** Clock: the divider programmed and read back *)

Lemma bits_bound x k :
  0 <= k -> (forall n, k <= n -> Z.testbit x n = false) -> 0 <= x < 2 ^ k.
Proof.
  intros Hk Hhigh.
  assert (E : x mod 2 ^ k = x).
  { apply Z.bits_inj'. intros n Hn. destruct (Z.ltb_spec n k).
    - now rewrite Z.mod_pow2_bits_low by lia.
    - rewrite Z.mod_pow2_bits_high by lia. symmetry. apply Hhigh. lia. }
  rewrite <- E. apply Z.mod_pos_bound. lia.
Qed.

(** The 16.16 divider is split over the two registers and put together
    again. *)
Lemma clock_div_recompose div :
  0 <= div < 2 ^ 32 ->
  Z.lor (u64 (Z.shiftl (Z.shiftr div 16) 16))
        (Z.shiftr (u32 (Z.shiftl div 16)) 16) = div.
Proof.
  intros Hd.
  assert (Hhi : 0 <= Z.shiftl (Z.shiftr div 16) 16 < 2 ^ 64).
  { rewrite Z.shiftl_mul_pow2, Z.shiftr_div_pow2 by lia.
    pose proof (Z.mul_div_le div (2 ^ 16) ltac:(lia)).
    assert (0 <= div / 2 ^ 16) by (apply Z.div_pos; lia). lia. }
  rewrite u64_small by exact Hhi.
  apply Z.bits_inj'. intros n Hn.
  rewrite Z.lor_spec, Z.shiftr_spec, u32_testbit by lia.
  destruct (Z.ltb_spec n 16).
  - rewrite Z.shiftl_spec_low by lia. cbn [orb].
    destruct (Z.ltb_spec (n + 16) 32); [|lia]. cbn [andb].
    rewrite Z.shiftl_spec by lia. f_equal. lia.
  - rewrite Z.shiftl_spec, Z.shiftr_spec by lia.
    destruct (Z.ltb_spec (n + 16) 32); [lia|]. cbn [andb].
    rewrite orb_false_r. f_equal. lia.
Qed.

Lemma clock_div_recompose_int div :
  0 <= div < 2 ^ 32 -> div mod 2 ^ 16 = 0 ->
  Z.lor (u64 (Z.shiftl (Z.shiftr div 16) 16)) (Z.shiftr 0 16) = div.
Proof.
  intros Hd Hlow. rewrite Z.shiftr_0_l, Z.lor_0_r.
  rewrite Z.shiftl_mul_pow2, Z.shiftr_div_pow2 by lia.
  pose proof (Z.div_mod div (2 ^ 16) ltac:(lia)) as E. rewrite Hlow in E.
  rewrite u64_small by lia. lia.
Qed.

Lemma rp1_clock_set_rate_programs ktime hw_status ref_rate clock
    rate parent_rate c div0 :
  let data := clock_data clock in
  let div := if div0 =? 0 then Z.shiftl 1 CLK_DIV_FRAC_BITS else div0 in
  clock_advances ktime ->
  regs_lock c = false ->
  (forall n, hw_status n (div_int_reg data) = None) ->
  (div_frac_reg data <> 0 ->
   forall n, hw_status n (div_frac_reg data) = None) ->
  div_int_reg data <> div_frac_reg data ->
  div_int_reg data < FC0_REF_KHZ \/
  FC0_REF_KHZ + FC_COUNT * FC_SIZE <= div_int_reg data ->
  div_frac_reg data < FC0_REF_KHZ \/
  FC0_REF_KHZ + FC_COUNT * FC_SIZE <= div_frac_reg data ->
  rp1_clock_choose_div rate parent_rate data = Some div0 ->
  2 ^ 16 <= div < 2 ^ 32 ->
  (div_frac_reg data = 0 -> div mod 2 ^ 16 = 0) ->
  total (fun fuel =>
           rp1_clock_set_rate ktime hw_status ref_rate fuel clock
             rate parent_rate) c
    (fun r c' =>
       r = 0 /\ regs_lock c' = false /\
       forall prate,
         rp1_clock_recalc_rate hw_status clock prate c'
         = Some (u64 (Z.shiftl prate CLK_DIV_FRAC_BITS) / div)).
Proof.
  intros data div Hadv Hl Hint Hfrac Hne Hout_i Hout_f Hch Hdiv Hlow.
  unfold rp1_clock_set_rate, rp1_clock_set_rate_and_parent.
  fold data. rewrite Hch. cbn zeta. fold div.
  change (negb (255 =? 255)) with false. cbn match.
  assert (Hint_val : u32 (Z.shiftr div CLK_DIV_FRAC_BITS) = Z.shiftr div 16).
  { apply u32_small. unfold CLK_DIV_FRAC_BITS.
    rewrite Z.shiftr_div_pow2 by lia.
    split; [apply Z.div_pos; lia | apply Z.div_lt_upper_bound; lia]. }
  assert (Hint_nz : Z.shiftr div 16 <> 0).
  { rewrite Z.shiftr_div_pow2 by lia.
    assert (1 <= div / 2 ^ 16) by (apply Z.div_le_lower_bound; lia). lia. }
  (* what recalc_rate computes once the two registers hold the divider *)
  assert (Hrecalc : forall c',
            regs c' !! div_int_reg data
            = Some (u32 (Z.shiftr div CLK_DIV_FRAC_BITS)) ->
            (div_frac_reg data <> 0 ->
             regs c' !! div_frac_reg data
             = Some (u32 (Z.shiftl div (32 - CLK_DIV_FRAC_BITS)))) ->
            forall prate,
              rp1_clock_recalc_rate hw_status clock prate c'
              = Some (u64 (Z.shiftl prate CLK_DIV_FRAC_BITS) / div)).
  { intros c' Hi Hf prate. unfold rp1_clock_recalc_rate. fold data.
    assert (Hri : readl hw_status c' (div_int_reg data) = Z.shiftr div 16).
    { unfold readl. rewrite Hint, Hi. cbn [from_option id]. exact Hint_val. }
    rewrite Hri.
    destruct (Z.eqb_spec (Z.shiftr div 16) 0) as [|_]; [contradiction|].
    assert (Hre : Z.lor (u64 (Z.shiftl (Z.shiftr div 16) CLK_DIV_FRAC_BITS))
                    (Z.shiftr
                       (if negb (div_frac_reg data =? 0)
                        then readl hw_status c' (div_frac_reg data) else 0)
                       (32 - CLK_DIV_FRAC_BITS)) = div).
    { destruct (Z.eqb_spec (div_frac_reg data) 0) as [H0|Hnz]; cbn [negb].
      - apply clock_div_recompose_int; [lia | now apply Hlow].
      - unfold readl. rewrite (Hfrac Hnz), (Hf Hnz). cbn [from_option id].
        apply clock_div_recompose. lia. }
    rewrite Hre. unfold div64_u64. rewrite (u64_small div) by lia.
    destruct (Z.eqb_spec div 0); [lia|reflexivity]. }
  do 2 total_prim.
  destruct (Z.eqb_spec (div_frac_reg data) 0) as [H0|Hnz]; cbn [negb].
  - do 3 total_prim. eapply total_step; [reflexivity|]. cbn beta.
    match goal with
    | |- context [rp1_clock_is_on ?h ?k ?c0] => destruct (rp1_clock_is_on h k c0)
    end.
    + eapply total_bind;
        [apply clockman_measure_clock_outside; [exact Hadv | reflexivity]|].
      cbn [regs regs_lock wlog now]. intros result c' (Hl' & Hframe).
      apply total_ret. split; [reflexivity|]. split; [exact Hl'|].
      apply Hrecalc; [|contradiction].
      rewrite (Hframe _ Hout_i). apply lookup_insert_eq.
    + total_prim. apply total_ret. cbn [regs regs_lock wlog now].
      split; [reflexivity|]. split; [reflexivity|].
      apply Hrecalc; [|contradiction]. cbn [regs]. apply lookup_insert_eq.
  - do 3 total_prim. eapply total_step; [reflexivity|]. cbn beta.
    match goal with
    | |- context [rp1_clock_is_on ?h ?k ?c0] => destruct (rp1_clock_is_on h k c0)
    end.
    + eapply total_bind;
        [apply clockman_measure_clock_outside; [exact Hadv | reflexivity]|].
      cbn [regs regs_lock wlog now]. intros result c' (Hl' & Hframe).
      apply total_ret. split; [reflexivity|]. split; [exact Hl'|].
      apply Hrecalc.
      * rewrite (Hframe _ Hout_i). rewrite lookup_insert_ne by congruence.
        apply lookup_insert_eq.
      * intros _. rewrite (Hframe _ Hout_f). apply lookup_insert_eq.
    + total_prim. apply total_ret. cbn [regs regs_lock wlog now].
      split; [reflexivity|]. split; [reflexivity|].
      apply Hrecalc; cbn [regs].
      * rewrite lookup_insert_ne by congruence. apply lookup_insert_eq.
      * intros _. apply lookup_insert_eq.
Qed.

Lemma rp1_clock_choose_div_shape data rate parent_rate div0 :
  0 <= rate < 2 ^ 32 -> 0 <= parent_rate < 2 ^ 32 ->
  1 <= div_int_max data <= DIV_INT_16BIT_MAX ->
  rp1_clock_choose_div rate parent_rate data = Some div0 ->
  let div := if div0 =? 0 then Z.shiftl 1 CLK_DIV_FRAC_BITS else div0 in
  2 ^ 16 <= div <= div_int_max data * 2 ^ 16 /\
  (div_frac_reg data = 0 -> div mod 2 ^ 16 = 0) /\
  (div0 = 0 \/ 2 ^ 16 <= div0 < 2 ^ 32).
Proof.
  intros Hr Hp Hmax Hch div.
  rewrite rp1_clock_choose_div_spec in Hch by (try assumption; lia).
  unfold DIV_INT_16BIT_MAX in Hmax.
  change (Z.shiftl 1 CLK_DIV_FRAC_BITS) with (2 ^ 16) in div.
  destruct ((rate =? 0) || _).
  { injection Hch as <-. subst div. cbn [Z.eqb].
    split; [lia|]. split; [reflexivity | now left]. }
  injection Hch as Hdiv0.
  assert (Hrange : 2 ^ 16 <= div0 <= div_int_max data * 2 ^ 16)
    by (rewrite <- Hdiv0; unfold clamp; lia).
  assert (E : div = div0).
  { subst div. destruct (Z.eqb_spec div0 0); [lia|reflexivity]. }
  rewrite E. split; [exact Hrange|]. split; [|right; lia].
  intros Hfrac. rewrite <- Hdiv0, Hfrac. cbn [Z.eqb negb].
  unfold clamp.
  set (q := (parent_rate + rate / 2) / rate).
  destruct (Z.max_spec (q * 2 ^ 16) (2 ^ 16)) as [(_ & ->)|(_ & ->)];
    [destruct (Z.min_spec (2 ^ 16) (div_int_max data * 2 ^ 16))
       as [(_ & ->)|(_ & ->)]
    |destruct (Z.min_spec (q * 2 ^ 16) (div_int_max data * 2 ^ 16))
       as [(_ & ->)|(_ & ->)]];
    first [reflexivity | apply Z.mod_mul; lia].
Qed.

(** X14: [rp1_clock_set_rate] followed by [rp1_clock_recalc_rate], on a
    node whose integer divider is at most 16 bits wide and for rates below
    2^32.  With the divider registers reading back what was written and
    lying outside the frequency-counter block, [set_rate] returns 0 with the
    lock released, having programmed the divider [rp1_clock_choose_div]
    chose (or unity when it chose none), which lies between 1 and
    [div_int_max]; [recalc_rate] then reassembles exactly that divider from
    the two registers and returns the parent rate divided by it: it does
    not trap and the zero-means-2^16 reading is never taken. *)
Theorem rp1_clock_set_rate_recalc_rate ktime hw_status ref_rate clock
    rate parent_rate c :
  let data := clock_data clock in
  clock_advances ktime ->
  regs_lock c = false ->
  (forall n, hw_status n (div_int_reg data) = None) ->
  (div_frac_reg data <> 0 ->
   forall n, hw_status n (div_frac_reg data) = None) ->
  div_int_reg data <> div_frac_reg data ->
  div_int_reg data < FC0_REF_KHZ \/
  FC0_REF_KHZ + FC_COUNT * FC_SIZE <= div_int_reg data ->
  div_frac_reg data < FC0_REF_KHZ \/
  FC0_REF_KHZ + FC_COUNT * FC_SIZE <= div_frac_reg data ->
  0 <= rate < 2 ^ 32 -> 0 <= parent_rate < 2 ^ 32 ->
  1 <= div_int_max data <= DIV_INT_16BIT_MAX ->
  exists div0,
    rp1_clock_choose_div rate parent_rate data = Some div0 /\
    let div := if div0 =? 0 then 2 ^ 16 else div0 in
    2 ^ 16 <= div <= div_int_max data * 2 ^ 16 /\
    total (fun fuel =>
             rp1_clock_set_rate ktime hw_status ref_rate fuel clock
               rate parent_rate) c
      (fun r c' =>
         r = 0 /\ regs_lock c' = false /\
         forall prate, 0 <= prate < 2 ^ 48 ->
           rp1_clock_recalc_rate hw_status clock prate c'
           = Some (prate * 2 ^ 16 / div)).
Proof.
  intros data Hadv Hl Hint Hfrac Hne Hout_i Hout_f Hr Hp Hmax.
  destruct (rp1_clock_choose_div_defined rate parent_rate data) as (div0 & Hch & _).
  { destruct (Z.eq_dec rate 0); [now left|right].
    rewrite u32_small by lia. assumption. }
  exists div0. split; [exact Hch|].
  destruct (rp1_clock_choose_div_shape data rate parent_rate div0 Hr Hp Hmax Hch)
    as (Hrange & Hlow & _).
  change (Z.shiftl 1 CLK_DIV_FRAC_BITS) with (2 ^ 16) in Hrange, Hlow.
  cbn zeta in *. split; [exact Hrange|].
  unfold DIV_INT_16BIT_MAX in Hmax.
  eapply total_conseq.
  - apply (rp1_clock_set_rate_programs ktime hw_status ref_rate clock rate
             parent_rate c div0 Hadv Hl Hint Hfrac Hne Hout_i Hout_f Hch).
    + change (Z.shiftl 1 CLK_DIV_FRAC_BITS) with (2 ^ 16). lia.
    + exact Hlow.
  - cbn beta. intros r c' (-> & Hl' & Hrecalc).
    split; [reflexivity|]. split; [exact Hl'|].
    intros prate Hprate. rewrite Hrecalc.
    change (Z.shiftl 1 CLK_DIV_FRAC_BITS) with (2 ^ 16).
    unfold CLK_DIV_FRAC_BITS. rewrite Z.shiftl_mul_pow2 by lia.
    now rewrite u64_small by lia.
Qed.

Lemma rp1_clock_set_rate_recalc_rate_witness :
  let ktime := fun n => Z.of_nat n * 50000000 in
  let hw_status := fun (_ : nat) (_ : Z) => @None Z in
  let clock := {| clock_hw := 0%nat; clock_data := clk_pwm0_data;
                  clock_cached_rate := 0 |} in
  let data := clk_pwm0_data in
  let c := Clockman ∅ false [] 0 in
  let rate := 30720000 in
  let parent_rate := 50000000 in
  exists div0,
    rp1_clock_choose_div rate parent_rate data = Some div0 /\
    let div := if div0 =? 0 then 2 ^ 16 else div0 in
    2 ^ 16 <= div <= div_int_max data * 2 ^ 16 /\
    total (fun fuel =>
             rp1_clock_set_rate ktime hw_status 50000000 fuel clock
               rate parent_rate) c
      (fun r c' =>
         r = 0 /\ regs_lock c' = false /\
         forall prate, 0 <= prate < 2 ^ 48 ->
           rp1_clock_recalc_rate hw_status clock prate c'
           = Some (prate * 2 ^ 16 / div)).
Proof.
  apply (rp1_clock_set_rate_recalc_rate (fun n => Z.of_nat n * 50000000)
           (fun _ _ => None) 50000000
           {| clock_hw := 0%nat; clock_data := clk_pwm0_data;
              clock_cached_rate := 0 |}
           30720000 50000000 (Clockman ∅ false [] 0));
    [exact clock_advances_linear | reflexivity | intros n; reflexivity
    | intros _ n; reflexivity | vm_compute; discriminate
    | left; vm_compute; reflexivity | left; vm_compute; reflexivity
    | lia | lia | vm_compute; split; discriminate].
Defined.

(** X15: [rp1_clock_recalc_rate] never divides by zero on 32-bit register
    contents, and an integer divider register that reads 0 counts as 2^16:
    the rate is then the parent rate, in 16.16 fixed point, over
    [2^32 + (frac >> 16)]. *)
Theorem rp1_clock_recalc_rate_zero_int hw_status clock prate c :
  let data := clock_data clock in
  let int := readl hw_status c (div_int_reg data) in
  let frac := if negb (div_frac_reg data =? 0)
              then readl hw_status c (div_frac_reg data) else 0 in
  0 <= int < 2 ^ 32 -> 0 <= frac < 2 ^ 32 ->
  exists r,
    rp1_clock_recalc_rate hw_status clock prate c = Some r /\
    (int = 0 ->
     r = u64 (Z.shiftl prate CLK_DIV_FRAC_BITS) / (2 ^ 32 + Z.shiftr frac 16)).
Proof.
  intros data int frac Hint Hfrac. unfold rp1_clock_recalc_rate.
  fold data. fold int. fold frac. unfold CLK_DIV_FRAC_BITS.
  change (32 - 16) with 16.
  set (int' := if int =? 0 then Z.shiftl 1 16 else int).
  assert (Hint' : 1 <= int' < 2 ^ 32).
  { unfold int'. destruct (Z.eqb_spec int 0); [vm_compute; split; congruence|lia]. }
  assert (Hhi : u64 (Z.shiftl int' 16) = int' * 2 ^ 16).
  { rewrite Z.shiftl_mul_pow2 by lia. apply u64_small. lia. }
  assert (Hlo : 0 <= Z.shiftr frac 16 < 2 ^ 16).
  { rewrite Z.shiftr_div_pow2 by lia.
    split; [apply Z.div_pos; lia | apply Z.div_lt_upper_bound; lia]. }
  assert (Hsum : Z.lor (u64 (Z.shiftl int' 16)) (Z.shiftr frac 16)
                 = int' * 2 ^ 16 + Z.shiftr frac 16).
  { rewrite Hhi. rewrite <- Z.lxor_lor, <- Z.add_nocarry_lxor; try reflexivity.
    all: apply Z.bits_inj'; intros n Hn; rewrite Z.land_spec, Z.bits_0.
    all: destruct (Z.ltb_spec n 16);
      [ rewrite Z.mul_pow2_bits_low by lia; reflexivity
      | rewrite (small_bits_high (Z.shiftr frac 16) 16 n) by lia;
        apply andb_false_r ]. }
  rewrite Hsum. unfold div64_u64.
  rewrite (u64_small (int' * 2 ^ 16 + Z.shiftr frac 16)) by lia.
  destruct (Z.eqb_spec (int' * 2 ^ 16 + Z.shiftr frac 16) 0) as [|_]; [lia|].
  eexists. split; [reflexivity|].
  intros H0. unfold int'. rewrite H0. reflexivity.
Qed.

Lemma rp1_clock_recalc_rate_zero_int_witness :
  let hw_status := fun (_ : nat) (_ : Z) => @None Z in
  let clock := {| clock_hw := 0%nat; clock_data := clk_pwm0_data;
                  clock_cached_rate := 0 |} in
  let c := Clockman {[ 0x0007c := 0x80000000 ]} false [] 0 in
  let prate := 50000000 in
  let int := readl hw_status c (div_int_reg clk_pwm0_data) in
  let frac := readl hw_status c (div_frac_reg clk_pwm0_data) in
  exists r,
    rp1_clock_recalc_rate hw_status clock prate c = Some r /\
    (int = 0 ->
     r = u64 (Z.shiftl prate CLK_DIV_FRAC_BITS) / (2 ^ 32 + Z.shiftr frac 16)).
Proof.
  apply (rp1_clock_recalc_rate_zero_int (fun _ _ => None)
           {| clock_hw := 0%nat; clock_data := clk_pwm0_data;
              clock_cached_rate := 0 |}
           50000000 (Clockman {[ 0x0007c := 0x80000000 ]} false [] 0));
    vm_compute; split; congruence.
Defined.

(** ** Clock: what was negotiated is what is read back *)

Section ClockRoundTrip.

Variable clk_hw_get_parent_by_index : clk_hw -> nat -> option clk_hw.
Variable clk_hw_get_rate : clk_hw -> Z.
Variable clk_hw_get_parent : clk_hw -> option clk_hw.
Variables clk_xosc clk_audio clk_i2s : option clk_hw.

(** X16: negotiation, programming and read-back agree.  On the ordinary
    path (a clock that is not [clk_i2s] and has no entry in the pending
    change tree), for a node whose integer divider is at most 16 bits wide
    and rates below 2^32: when [rp1_clock_choose_div_and_prate] reports a
    nonzero achievable rate for a parent, that rate is at most [max_freq],
    and programming the same request with [rp1_clock_set_rate] makes
    [rp1_clock_recalc_rate] return exactly the rate that was reported. *)
Theorem rp1_clock_negotiated_rate_read_back ktime hw_status ref_rate clock
    i rate tree prate calc tree' c :
  let data := clock_data clock in
  (forall j, chg_hw (tree !!! j) <> Some (clock_hw clock)) ->
  clk_i2s <> Some (clock_hw clock) ->
  rp1_clock_choose_div_and_prate clk_hw_get_parent_by_index clk_hw_get_rate
    clk_hw_get_parent clk_xosc clk_audio clk_i2s clock i rate tree
  = Some (prate, calc, tree') ->
  calc <> 0 ->
  0 <= rate < 2 ^ 32 -> 0 <= prate < 2 ^ 32 ->
  1 <= div_int_max data <= DIV_INT_16BIT_MAX ->
  clock_advances ktime ->
  regs_lock c = false ->
  (forall n, hw_status n (div_int_reg data) = None) ->
  (div_frac_reg data <> 0 ->
   forall n, hw_status n (div_frac_reg data) = None) ->
  div_int_reg data <> div_frac_reg data ->
  div_int_reg data < FC0_REF_KHZ \/
  FC0_REF_KHZ + FC_COUNT * FC_SIZE <= div_int_reg data ->
  div_frac_reg data < FC0_REF_KHZ \/
  FC0_REF_KHZ + FC_COUNT * FC_SIZE <= div_frac_reg data ->
  calc <= max_freq data /\
  total (fun fuel =>
           rp1_clock_set_rate ktime hw_status ref_rate fuel clock rate prate) c
    (fun r c' =>
       r = 0 /\ regs_lock c' = false /\
       rp1_clock_recalc_rate hw_status clock prate c' = Some calc).
Proof.
  intros data Hno Hi2s Hch Hcalc Hr Hp Hmax Hadv Hl Hint Hfrac Hne Hout_i Hout_f.
  unfold rp1_clock_choose_div_and_prate in Hch.
  rewrite chg_tree_scan_miss in Hch by exact Hno.
  cbn [mbind option_bind] in Hch.
  rewrite (bool_decide_eq_false_2 (Some (clock_hw clock) = clk_i2s)) in Hch
    by congruence.
  cbn [andb] in Hch.
  destruct (rate_of clk_hw_get_rate _) as [pr|]; [|discriminate].
  cbn [mbind option_bind] in Hch. fold data in Hch.
  destruct (rp1_clock_choose_div rate pr data) as [div0|] eqn:Hdiv0;
    [|discriminate].
  cbn [mbind option_bind] in Hch.
  destruct (Z.eqb_spec div0 0) as [|Hnz]; [now injection Hch as _ <- _|].
  unfold div_u64 in Hch.
  destruct (Z.eqb_spec (u32 div0) 0); [discriminate|].
  cbn [mbind option_bind] in Hch.
  destruct (Z.ltb_spec (max_freq data)
              (u64 (Z.shiftl pr CLK_DIV_FRAC_BITS) / u32 div0));
    [now injection Hch as _ <- _|].
  injection Hch as -> <- _.
  destruct (rp1_clock_choose_div_shape data rate prate div0 Hr Hp Hmax Hdiv0)
    as (Hrange & Hlow & [H0|Hd0]); [contradiction|].
  cbn zeta in Hrange, Hlow.
  unfold DIV_INT_16BIT_MAX in Hmax.
  rewrite (u32_small div0) in * by lia.
  split; [lia|].
  eapply total_conseq.
  - apply (rp1_clock_set_rate_programs ktime hw_status ref_rate clock rate
             prate c div0 Hadv Hl Hint Hfrac Hne Hout_i Hout_f Hdiv0).
    + change (Z.shiftl 1 CLK_DIV_FRAC_BITS) with (2 ^ 16) in *. lia.
    + exact Hlow.
  - cbn beta. intros r c' (-> & Hl' & Hrecalc).
    split; [reflexivity|]. split; [exact Hl'|].
    rewrite Hrecalc. destruct (Z.eqb_spec div0 0); [contradiction|reflexivity].
Qed.

End ClockRoundTrip.

Lemma rp1_clock_negotiated_rate_read_back_witness :
  let ktime := fun n => Z.of_nat n * 50000000 in
  let hw_status := fun (_ : nat) (_ : Z) => @None Z in
  let clock := ExampleTree.uart in
  let c := Clockman ∅ false [] 0 in
  392156 <= max_freq (clock_data clock) /\
  total (fun fuel =>
           rp1_clock_set_rate ktime hw_status 50000000 fuel clock
             9600 100000000) c
    (fun r c' =>
       r = 0 /\ regs_lock c' = false /\
       rp1_clock_recalc_rate hw_status clock 100000000 c' = Some 392156).
Proof.
  apply (rp1_clock_negotiated_rate_read_back
           ExampleTree.clk_hw_get_parent_by_index ExampleTree.clk_hw_get_rate
           ExampleTree.clk_hw_get_parent ExampleTree.clk_xosc
           ExampleTree.clk_audio ExampleTree.clk_i2s
           (fun n => Z.of_nat n * 50000000) (fun _ _ => None) 50000000
           ExampleTree.uart 0%nat 9600 rp1_clk_chg_tree_init 100000000 392156
           rp1_clk_chg_tree_init (Clockman ∅ false [] 0));
    [ intros [|[|[|j]]]; vm_compute; discriminate
    | vm_compute; discriminate
    | vm_compute; reflexivity
    | discriminate | lia | lia | vm_compute; split; discriminate
    | exact clock_advances_linear | reflexivity | intros n; reflexivity
    | intros _ n; reflexivity | vm_compute; discriminate
    | left; vm_compute; reflexivity | left; vm_compute; reflexivity ].
Defined.

(** ** Clock: the parent selected and read back *)

Lemma ffs_one_hot i : 0 <= i < 32 -> ffs (2 ^ i) = i + 1.
Proof.
  intros Hi.
  assert (Hn : exists n, (n < 32)%nat /\ i = Z.of_nat n)
    by (exists (Z.to_nat i); lia).
  destruct Hn as (n & Hn & ->).
  do 32 (destruct n as [|n]; [reflexivity|]). lia.
Qed.

Lemma land_one m : Z.testbit m 0 = true -> Z.land 1 m = 1.
Proof.
  intros Hb. rewrite Z.land_comm. change 1 with (Z.ones 1) at 1.
  rewrite Z.land_ones by lia. rewrite <- Z.bit0_mod, Hb. reflexivity.
Qed.

Lemma auxsrc_field_range ctrl :
  0 <= Z.shiftr (Z.land ctrl CLK_CTRL_AUXSRC_MASK) CLK_CTRL_AUXSRC_SHIFT < 32.
Proof.
  apply (bits_bound _ 5); [lia|]. intros n Hn.
  rewrite Z.shiftr_spec, Z.land_spec by lia.
  change CLK_CTRL_AUXSRC_MASK with (Z.shiftl (Z.ones 5) 5).
  unfold CLK_CTRL_AUXSRC_SHIFT.
  rewrite Z.shiftl_spec by lia. replace (n + 5 - 5) with n by lia.
  rewrite Z.ones_spec_high by lia. apply andb_false_r.
Qed.

(** X17: [rp1_clock_set_parent] followed by [rp1_clock_get_parent], for an
    auxiliary parent.  With the control register reading back what was
    written, a source mask that does not overlap the auxiliary-source field
    and an auxiliary number below 32, [set_parent] returns 0 with the lock
    released, and [get_parent] then answers the index that was set --
    whatever the select register shows on a node without standard parents,
    and else while the select register still reads 0 and the source field
    can hold the auxiliary selector. *)
Theorem rp1_clock_set_parent_get_parent_aux hw_status clock index c :
  let data := clock_data clock in
  regs_lock c = false ->
  (forall n, hw_status n (ctrl_reg data) = None) ->
  0 <= num_std_parents data ->
  num_std_parents data <= index < num_std_parents data + num_aux_parents data ->
  index - num_std_parents data < 32 -> index < 256 ->
  0 <= clk_src_mask data < 2 ^ 32 ->
  Z.land (clk_src_mask data) CLK_CTRL_AUXSRC_MASK = 0 ->
  exists c',
    rp1_clock_set_parent hw_status clock index c = Ok 0 c' /\
    regs_lock c' = false /\
    (num_std_parents data = 0 \/
     (readl hw_status c' (sel_reg data) = 0 /\
      Z.testbit (clk_src_mask data) 0 = true) ->
     rp1_clock_get_parent hw_status clock c' = index).
Proof.
  intros data Hl Hst Hstd Hidx Haux H256 Hmask Hdis.
  unfold rp1_clock_set_parent. fold data. munfold. rewrite Hl.
  cbn [regs regs_lock wlog now].
  destruct (Z.leb_spec (num_std_parents data) index); [|lia].
  destruct (Z.leb_spec (num_std_parents data + num_aux_parents data) index);
    [lia|].
  cbn [regs regs_lock wlog now].
  eexists. split; [reflexivity|]. split; [reflexivity|].
  set (old := readl hw_status (Clockman (regs c) true (wlog c) (now c))
                (ctrl_reg data)).
  set (k := index - num_std_parents data) in *.
  set (new := set_register_field
                (set_register_field old k CLK_CTRL_AUXSRC_MASK
                   CLK_CTRL_AUXSRC_SHIFT)
                AUX_SEL (clk_src_mask data) CLK_CTRL_SRC_SHIFT).
  set (c' := Clockman _ _ _ _).
  assert (Hread : readl hw_status c' (ctrl_reg data) = new).
  { unfold readl, c'. cbn [regs now]. rewrite Hst, lookup_insert_eq.
    cbn [from_option id]. apply u32_small, set_register_field_spec. }
  assert (Hauxf : Z.shiftr (Z.land new CLK_CTRL_AUXSRC_MASK)
                    CLK_CTRL_AUXSRC_SHIFT = k).
  { unfold new. rewrite field_untouched;
      [|vm_compute; split; congruence|exact Hdis].
    exact (field_reads_back old k 5 5 ltac:(lia) ltac:(lia) ltac:(lia)
             ltac:(unfold k; lia)). }
  intros Hcase. unfold rp1_clock_get_parent. fold data.
  rewrite Hread, Hauxf.
  assert (Hk : 0 <= k < 32) by (unfold k; lia).
  assert (Ek : k + num_std_parents data = index) by (unfold k; lia).
  assert (Hres : u8 (u8 k + num_std_parents data) = index).
  { unfold u8. rewrite (Z.mod_small k) by lia.
    rewrite Z.mod_small by lia. exact Ek. }
  assert (Hu8 : forall x, 0 <= u8 x) by (intros x; apply Z.mod_pos_bound; lia).
  destruct Hcase as [Hzero|(Hsel & Hbit)].
  - rewrite Hzero in *.
    match goal with
    | |- context [0 <=? ?p] =>
        destruct (Z.leb_spec 0 p) as [_|Hneg];
          [|destruct (readl hw_status c' (sel_reg data) =? 0);
            pose proof (Hu8 (ffs (readl hw_status c' (sel_reg data)) - 1));
            pose proof (Hu8 (Z.shiftr (Z.land new (clk_src_mask data))
                                      CLK_CTRL_SRC_SHIFT)); lia]
    end.
    cbn [Z.eqb Pos.eqb AUX_SEL]. exact Hres.
  - rewrite Hsel. cbn [Z.eqb].
    assert (Hsrc : Z.land new (clk_src_mask data) = 1).
    { unfold new.
      destruct (set_register_field_spec
                  (set_register_field old k CLK_CTRL_AUXSRC_MASK
                     CLK_CTRL_AUXSRC_SHIFT)
                  AUX_SEL (clk_src_mask data) CLK_CTRL_SRC_SHIFT)
        as (_ & -> & _).
      change (u32 (Z.shiftl AUX_SEL CLK_CTRL_SRC_SHIFT)) with 1.
      now apply land_one. }
    rewrite Hsrc. change (u8 (Z.shiftr 1 CLK_CTRL_SRC_SHIFT)) with 1.
    destruct (num_std_parents data <=? 1); cbn [Z.eqb Pos.eqb AUX_SEL];
      exact Hres.
Qed.

Lemma rp1_clock_set_parent_get_parent_aux_witness :
  let hw_status := fun (_ : nat) reg =>
                     if reg =? 0x00060 then Some 0x4 else None in
  let clock := ExampleTree.uart in
  let c := Clockman ∅ false [] 0 in
  exists c',
    rp1_clock_set_parent hw_status clock 2 c = Ok 0 c' /\
    regs_lock c' = false /\
    (num_std_parents (clock_data clock) = 0 \/
     (readl hw_status c' (sel_reg (clock_data clock)) = 0 /\
      Z.testbit (clk_src_mask (clock_data clock)) 0 = true) ->
     rp1_clock_get_parent hw_status clock c' = 2).
Proof.
  apply (rp1_clock_set_parent_get_parent_aux
           (fun _ reg => if reg =? 0x00060 then Some 0x4 else None)
           ExampleTree.uart 2 (Clockman ∅ false [] 0));
    [reflexivity | intros n; reflexivity | vm_compute; discriminate
    | vm_compute; split; [discriminate|reflexivity]
    | reflexivity | reflexivity | vm_compute; split; [discriminate|reflexivity]
    | reflexivity].
Defined.

(** X18: [rp1_clock_set_parent] followed by [rp1_clock_get_parent], for a
    standard parent other than the auxiliary selector.  With the control
    register reading back what was written and an index the source field
    can hold, [set_parent] returns 0 with the lock released, and
    [get_parent] then answers the index that was set, both while the select
    register still reads 0 and once it shows the one-hot code of that
    index. *)
Theorem rp1_clock_set_parent_get_parent_std hw_status clock index c :
  let data := clock_data clock in
  regs_lock c = false ->
  (forall n, hw_status n (ctrl_reg data) = None) ->
  0 <= index < num_std_parents data ->
  index <> AUX_SEL -> index < 32 ->
  Z.land index (clk_src_mask data) = index ->
  exists c',
    rp1_clock_set_parent hw_status clock index c = Ok 0 c' /\
    regs_lock c' = false /\
    (readl hw_status c' (sel_reg data) = 0 \/
     readl hw_status c' (sel_reg data) = 2 ^ index ->
     rp1_clock_get_parent hw_status clock c' = index).
Proof.
  intros data Hl Hst Hidx Hgap H32 Hfit.
  unfold rp1_clock_set_parent. fold data. munfold. rewrite Hl.
  cbn [regs regs_lock wlog now].
  destruct (Z.leb_spec (num_std_parents data) index); [lia|].
  cbn [regs regs_lock wlog now].
  eexists. split; [reflexivity|]. split; [reflexivity|].
  set (old := readl hw_status (Clockman (regs c) true (wlog c) (now c))
                (ctrl_reg data)).
  set (new := set_register_field old index (clk_src_mask data)
                CLK_CTRL_SRC_SHIFT).
  set (c' := Clockman _ _ _ _).
  assert (Hread : readl hw_status c' (ctrl_reg data) = new).
  { unfold readl, c'. cbn [regs now]. rewrite Hst, lookup_insert_eq.
    cbn [from_option id]. apply u32_small, set_register_field_spec. }
  assert (Hu8 : u8 index = index) by (apply Z.mod_small; lia).
  intros Hsel. unfold rp1_clock_get_parent. fold data.
  assert (Hp0 : (if readl hw_status c' (sel_reg data) =? 0
                 then u8 (Z.shiftr (Z.land (readl hw_status c' (ctrl_reg data))
                                      (clk_src_mask data)) CLK_CTRL_SRC_SHIFT)
                 else u8 (ffs (readl hw_status c' (sel_reg data)) - 1))
                = index).
  { destruct Hsel as [->| ->].
    - cbn [Z.eqb]. rewrite Hread. unfold new.
      destruct (set_register_field_spec old index (clk_src_mask data)
                  CLK_CTRL_SRC_SHIFT) as (_ & -> & _).
      unfold CLK_CTRL_SRC_SHIFT. rewrite Z.shiftl_0_r, Z.shiftr_0_r.
      rewrite (u32_small index) by lia. now rewrite Hfit.
    - destruct (Z.eqb_spec (2 ^ index) 0) as [E|_].
      { assert (0 < 2 ^ index) by (apply Z.pow_pos_nonneg; lia). lia. }
      rewrite ffs_one_hot by lia. replace (index + 1 - 1) with index by lia.
      exact Hu8. }
  rewrite Hp0.
  destruct (Z.leb_spec (num_std_parents data) index); [lia|].
  destruct (Z.eqb_spec index AUX_SEL); [contradiction|reflexivity].
Qed.

Lemma rp1_clock_set_parent_get_parent_std_witness :
  let hw_status := fun (_ : nat) (_ : Z) => @None Z in
  let clock := {| clock_hw := 0%nat; clock_data := clk_sys_data;
                  clock_cached_rate := 0 |} in
  let c := Clockman ∅ false [] 0 in
  exists c',
    rp1_clock_set_parent hw_status clock 2 c = Ok 0 c' /\
    regs_lock c' = false /\
    (readl hw_status c' (sel_reg (clock_data clock)) = 0 \/
     readl hw_status c' (sel_reg (clock_data clock)) = 2 ^ 2 ->
     rp1_clock_get_parent hw_status clock c' = 2).
Proof.
  apply (rp1_clock_set_parent_get_parent_std (fun _ _ => None)
           {| clock_hw := 0%nat; clock_data := clk_sys_data;
              clock_cached_rate := 0 |} 2 (Clockman ∅ false [] 0));
    [reflexivity | intros n; reflexivity
    | vm_compute; split; [discriminate|reflexivity]
    | discriminate | reflexivity | reflexivity].
Defined.

(** X19: on a node with two or more standard parents -- where
    [rp1_register_clock] insists that slot [AUX_SEL] of the parent list is
    the gap "-" -- [rp1_clock_get_parent] never answers the gap: whatever
    the registers hold, it answers a standard index other than [AUX_SEL] or
    an index past the standard parents. *)
Theorem rp1_clock_get_parent_skips_gap hw_status clock c :
  let data := clock_data clock in
  2 <= num_std_parents data <= MAX_CLK_PARENTS ->
  let parent := rp1_clock_get_parent hw_status clock c in
  parent <> AUX_SEL /\
  0 <= parent < num_std_parents data + 32.
Proof.
  intros data Hstd. cbn zeta. unfold rp1_clock_get_parent. fold data.
  unfold MAX_CLK_PARENTS in Hstd.
  set (p0 := if readl hw_status c (sel_reg data) =? 0 then _ else _).
  assert (Hp0 : 0 <= p0 < 256).
  { unfold p0. destruct (_ =? 0); apply Z.mod_pos_bound; lia. }
  pose proof (auxsrc_field_range (readl hw_status c (ctrl_reg data))) as Haux.
  set (a := Z.shiftr (Z.land (readl hw_status c (ctrl_reg data))
                        CLK_CTRL_AUXSRC_MASK) CLK_CTRL_AUXSRC_SHIFT) in *.
  assert (Hres : u8 (u8 a + num_std_parents data) = a + num_std_parents data).
  { unfold u8. rewrite (Z.mod_small a) by lia. apply Z.mod_small. lia. }
  unfold AUX_SEL in *.
  destruct (Z.leb_spec (num_std_parents data) p0).
  - cbn [Z.eqb Pos.eqb]. rewrite Hres. lia.
  - destruct (Z.eqb_spec p0 1).
    + rewrite Hres. lia.
    + lia.
Qed.

Lemma rp1_clock_get_parent_skips_gap_witness :
  let hw_status := fun (_ : nat) (_ : Z) => @None Z in
  let clock := {| clock_hw := 0%nat; clock_data := clk_sys_data;
                  clock_cached_rate := 0 |} in
  let c := Clockman {[ 0x00014 := 0x1 ]} false [] 0 in
  let parent := rp1_clock_get_parent hw_status clock c in
  parent <> AUX_SEL /\
  0 <= parent < num_std_parents (clock_data clock) + 32.
Proof.
  apply (rp1_clock_get_parent_skips_gap (fun _ _ => None)
           {| clock_hw := 0%nat; clock_data := clk_sys_data;
              clock_cached_rate := 0 |}
           (Clockman {[ 0x00014 := 0x1 ]} false [] 0)).
  vm_compute. split; discriminate.
Defined.

(** ** Clock: rate and parent set in one call *)

Lemma rp1_clock_set_parent_aux_run hw_status clock index c :
  let data := clock_data clock in
  regs_lock c = false ->
  num_std_parents data <= index < num_std_parents data + num_aux_parents data ->
  let new := set_register_field
               (set_register_field (readl hw_status c (ctrl_reg data))
                  (index - num_std_parents data) CLK_CTRL_AUXSRC_MASK
                  CLK_CTRL_AUXSRC_SHIFT)
               AUX_SEL (clk_src_mask data) CLK_CTRL_SRC_SHIFT in
  rp1_clock_set_parent hw_status clock index c
  = Ok 0 (Clockman (<[ctrl_reg data := u32 new]> (regs c)) false
            ((ctrl_reg data, u32 new) :: wlog c) (now c)).
Proof.
  intros data Hl Hidx new. unfold rp1_clock_set_parent. fold data. munfold.
  rewrite Hl. cbn [regs regs_lock wlog now].
  destruct (Z.leb_spec (num_std_parents data) index); [|lia].
  destruct (Z.leb_spec (num_std_parents data + num_aux_parents data) index);
    [lia|].
  reflexivity.
Qed.

(** On a node without standard parents [rp1_clock_get_parent] answers the
    auxiliary-source field of the control register. *)
Lemma rp1_clock_get_parent_aux_only hw_status clock c :
  num_std_parents (clock_data clock) = 0 ->
  rp1_clock_get_parent hw_status clock c
  = Z.shiftr (Z.land (readl hw_status c (ctrl_reg (clock_data clock)))
                CLK_CTRL_AUXSRC_MASK) CLK_CTRL_AUXSRC_SHIFT.
Proof.
  intros Hstd. unfold rp1_clock_get_parent. rewrite Hstd.
  pose proof (auxsrc_field_range
                (readl hw_status c (ctrl_reg (clock_data clock)))) as Haux.
  set (a := Z.shiftr _ CLK_CTRL_AUXSRC_SHIFT) in *.
  assert (Hres : u8 (u8 a + 0) = a).
  { unfold u8. rewrite Z.add_0_r, Z.mod_mod by lia. apply Z.mod_small. lia. }
  match goal with
  | |- context [0 <=? ?p] =>
      assert (Hp : 0 <= p)
        by (destruct (_ =? 0); apply Z.mod_pos_bound; lia);
      destruct (Z.leb_spec 0 p); [|lia]
  end.
  cbn [Z.eqb Pos.eqb AUX_SEL]. exact Hres.
Qed.

(** X29: [rp1_clock_set_rate_and_parent] programs both.  On a node without
    standard parents whose integer divider is at most 16 bits wide, for
    rates below 2^32 and a declared parent index below 32: with the three
    registers reading back what was written, distinct and outside the
    frequency-counter block, and a source mask clear of the
    auxiliary-source field, the call returns 0 with the lock released;
    [rp1_clock_recalc_rate] then returns the parent rate over the divider
    that was chosen, and [rp1_clock_get_parent] the index that was asked
    for. *)
Theorem rp1_clock_set_rate_and_parent_programs_both ktime hw_status ref_rate
    clock rate parent_rate parent c :
  let data := clock_data clock in
  clock_advances ktime ->
  regs_lock c = false ->
  (forall n, hw_status n (ctrl_reg data) = None) ->
  (forall n, hw_status n (div_int_reg data) = None) ->
  (div_frac_reg data <> 0 ->
   forall n, hw_status n (div_frac_reg data) = None) ->
  div_int_reg data <> div_frac_reg data ->
  ctrl_reg data <> div_int_reg data -> ctrl_reg data <> div_frac_reg data ->
  ctrl_reg data < FC0_REF_KHZ \/
  FC0_REF_KHZ + FC_COUNT * FC_SIZE <= ctrl_reg data ->
  div_int_reg data < FC0_REF_KHZ \/
  FC0_REF_KHZ + FC_COUNT * FC_SIZE <= div_int_reg data ->
  div_frac_reg data < FC0_REF_KHZ \/
  FC0_REF_KHZ + FC_COUNT * FC_SIZE <= div_frac_reg data ->
  0 <= rate < 2 ^ 32 -> 0 <= parent_rate < 2 ^ 32 ->
  1 <= div_int_max data <= DIV_INT_16BIT_MAX ->
  num_std_parents data = 0 ->
  0 <= parent < num_aux_parents data -> parent < 32 ->
  0 <= clk_src_mask data < 2 ^ 32 ->
  Z.land (clk_src_mask data) CLK_CTRL_AUXSRC_MASK = 0 ->
  exists div0,
    rp1_clock_choose_div rate parent_rate data = Some div0 /\
    let div := if div0 =? 0 then 2 ^ 16 else div0 in
    total (fun fuel =>
             rp1_clock_set_rate_and_parent ktime hw_status ref_rate fuel clock
               rate parent_rate parent) c
      (fun r c' =>
         r = 0 /\ regs_lock c' = false /\
         (forall prate, 0 <= prate < 2 ^ 48 ->
            rp1_clock_recalc_rate hw_status clock prate c'
            = Some (prate * 2 ^ 16 / div)) /\
         rp1_clock_get_parent hw_status clock c' = parent).
Proof.
  intros data Hadv Hl Hctrl Hint Hfrac Hne Hci Hcf Hout_c Hout_i Hout_f
    Hr Hp Hmax Hstd Hparent H32 Hmask Hdis.
  destruct (rp1_clock_choose_div_defined rate parent_rate data)
    as (div0 & Hch & _).
  { destruct (Z.eq_dec rate 0); [now left|right].
    rewrite u32_small by lia. assumption. }
  exists div0. split; [exact Hch|].
  destruct (rp1_clock_choose_div_shape data rate parent_rate div0 Hr Hp Hmax Hch)
    as (Hrange & Hlow & _).
  change (Z.shiftl 1 CLK_DIV_FRAC_BITS) with (2 ^ 16) in Hrange, Hlow.
  cbn zeta in *. unfold DIV_INT_16BIT_MAX in Hmax.
  set (div := if div0 =? 0 then 2 ^ 16 else div0) in *.
  assert (Hdiv : 2 ^ 16 <= div < 2 ^ 32) by lia.
  unfold rp1_clock_set_rate_and_parent. fold data. rewrite Hch. cbn zeta.
  change (Z.shiftl 1 CLK_DIV_FRAC_BITS) with (2 ^ 16). fold div.
  destruct (Z.eqb_spec parent 255) as [|_]; [lia|]. cbn [negb].
  assert (Hint_val : u32 (Z.shiftr div CLK_DIV_FRAC_BITS) = Z.shiftr div 16).
  { apply u32_small. unfold CLK_DIV_FRAC_BITS.
    rewrite Z.shiftr_div_pow2 by lia.
    split; [apply Z.div_pos; lia | apply Z.div_lt_upper_bound; lia]. }
  assert (Hint_nz : Z.shiftr div 16 <> 0).
  { rewrite Z.shiftr_div_pow2 by lia.
    assert (1 <= div / 2 ^ 16) by (apply Z.div_le_lower_bound; lia). lia. }
  (* what the two read-backs find in the final state *)
  assert (Hend : forall c' new,
            regs c' !! div_int_reg data
            = Some (u32 (Z.shiftr div CLK_DIV_FRAC_BITS)) ->
            (div_frac_reg data <> 0 ->
             regs c' !! div_frac_reg data
             = Some (u32 (Z.shiftl div (32 - CLK_DIV_FRAC_BITS)))) ->
            regs c' !! ctrl_reg data = Some (u32 new) ->
            Z.shiftr (Z.land (u32 new) CLK_CTRL_AUXSRC_MASK)
              CLK_CTRL_AUXSRC_SHIFT = parent ->
            (forall prate, 0 <= prate < 2 ^ 48 ->
               rp1_clock_recalc_rate hw_status clock prate c'
               = Some (prate * 2 ^ 16 / div)) /\
            rp1_clock_get_parent hw_status clock c' = parent).
  { intros c' new Hi Hf Hc Hfield. split.
    - intros prate Hprate. unfold rp1_clock_recalc_rate. fold data.
      assert (Hri : readl hw_status c' (div_int_reg data) = Z.shiftr div 16).
      { unfold readl. rewrite Hint, Hi. cbn [from_option id]. exact Hint_val. }
      rewrite Hri.
      destruct (Z.eqb_spec (Z.shiftr div 16) 0) as [|_]; [contradiction|].
      assert (Hre : Z.lor (u64 (Z.shiftl (Z.shiftr div 16) CLK_DIV_FRAC_BITS))
                      (Z.shiftr
                         (if negb (div_frac_reg data =? 0)
                          then readl hw_status c' (div_frac_reg data) else 0)
                         (32 - CLK_DIV_FRAC_BITS)) = div).
      { destruct (Z.eqb_spec (div_frac_reg data) 0) as [H0|Hnz]; cbn [negb].
        - apply clock_div_recompose_int; [lia | now apply Hlow].
        - unfold readl. rewrite (Hfrac Hnz), (Hf Hnz). cbn [from_option id].
          apply clock_div_recompose. lia. }
      rewrite Hre. unfold div64_u64. rewrite (u64_small div) by lia.
      destruct (Z.eqb_spec div 0); [lia|].
      unfold CLK_DIV_FRAC_BITS. rewrite Z.shiftl_mul_pow2 by lia.
      now rewrite u64_small by lia.
    - rewrite rp1_clock_get_parent_aux_only by exact Hstd. fold data.
      unfold readl. rewrite Hctrl, Hc. cbn [from_option id]. exact Hfield. }
  (* the field the parent selection leaves in the control register *)
  assert (Hfield : forall old,
            Z.shiftr
              (Z.land
                 (u32 (set_register_field
                         (set_register_field old
                            (parent - num_std_parents data)
                            CLK_CTRL_AUXSRC_MASK CLK_CTRL_AUXSRC_SHIFT)
                         AUX_SEL (clk_src_mask data) CLK_CTRL_SRC_SHIFT))
                 CLK_CTRL_AUXSRC_MASK) CLK_CTRL_AUXSRC_SHIFT = parent).
  { intros old. rewrite u32_small by apply set_register_field_spec.
    rewrite field_untouched; [|vm_compute; split; congruence|exact Hdis].
    rewrite Hstd, Z.sub_0_r.
    exact (field_reads_back old parent 5 5 ltac:(lia) ltac:(lia) ltac:(lia)
             ltac:(lia)). }
  do 2 total_prim.
  destruct (Z.eqb_spec (div_frac_reg data) 0) as [H0|Hnz]; cbn [negb].
  - do 2 total_prim.
    eapply total_step.
    { unfold bind at 1.
      rewrite rp1_clock_set_parent_aux_run by (cbn [regs_lock]; fold data; lia).
      reflexivity. }
    cbn beta. fold data. cbn [regs regs_lock wlog now].
    eapply total_step; [reflexivity|]. cbn beta.
    match goal with
    | |- context [rp1_clock_is_on ?h ?k ?c0] => destruct (rp1_clock_is_on h k c0)
    end.
    + eapply total_bind;
        [apply clockman_measure_clock_outside; [exact Hadv | reflexivity]|].
      cbn [regs regs_lock wlog now]. intros result c' (Hl' & Hframe).
      apply total_ret. split; [reflexivity|]. split; [exact Hl'|].
      eapply Hend.
      * rewrite (Hframe _ Hout_i). rewrite lookup_insert_ne by congruence.
        apply lookup_insert_eq.
      * contradiction.
      * rewrite (Hframe _ Hout_c). apply lookup_insert_eq.
      * apply Hfield.
    + total_prim. apply total_ret. cbn [regs regs_lock wlog now].
      split; [reflexivity|]. split; [reflexivity|].
      eapply Hend; cbn [regs].
      * rewrite lookup_insert_ne by congruence. apply lookup_insert_eq.
      * contradiction.
      * apply lookup_insert_eq.
      * apply Hfield.
  - do 2 total_prim.
    eapply total_step.
    { unfold bind at 1.
      rewrite rp1_clock_set_parent_aux_run by (cbn [regs_lock]; fold data; lia).
      reflexivity. }
    cbn beta. fold data. cbn [regs regs_lock wlog now].
    eapply total_step; [reflexivity|]. cbn beta.
    match goal with
    | |- context [rp1_clock_is_on ?h ?k ?c0] => destruct (rp1_clock_is_on h k c0)
    end.
    + eapply total_bind;
        [apply clockman_measure_clock_outside; [exact Hadv | reflexivity]|].
      cbn [regs regs_lock wlog now]. intros result c' (Hl' & Hframe).
      apply total_ret. split; [reflexivity|]. split; [exact Hl'|].
      eapply Hend.
      * rewrite (Hframe _ Hout_i). rewrite !lookup_insert_ne by congruence.
        apply lookup_insert_eq.
      * intros _. rewrite (Hframe _ Hout_f).
        rewrite lookup_insert_ne by congruence. apply lookup_insert_eq.
      * rewrite (Hframe _ Hout_c). apply lookup_insert_eq.
      * apply Hfield.
    + total_prim. apply total_ret. cbn [regs regs_lock wlog now].
      split; [reflexivity|]. split; [reflexivity|].
      eapply Hend; cbn [regs].
      * rewrite !lookup_insert_ne by congruence. apply lookup_insert_eq.
      * intros _. rewrite lookup_insert_ne by congruence.
        apply lookup_insert_eq.
      * apply lookup_insert_eq.
      * apply Hfield.
Qed.

Lemma rp1_clock_set_rate_and_parent_programs_both_witness :
  let ktime := fun n => Z.of_nat n * 50000000 in
  let hw_status := fun (_ : nat) (_ : Z) => @None Z in
  let clock := {| clock_hw := 0%nat; clock_data := clk_pwm0_data;
                  clock_cached_rate := 0 |} in
  let data := clk_pwm0_data in
  let c := Clockman ∅ false [] 0 in
  exists div0,
    rp1_clock_choose_div 30720000 50000000 data = Some div0 /\
    let div := if div0 =? 0 then 2 ^ 16 else div0 in
    total (fun fuel =>
             rp1_clock_set_rate_and_parent ktime hw_status 50000000 fuel clock
               30720000 50000000 2) c
      (fun r c' =>
         r = 0 /\ regs_lock c' = false /\
         (forall prate, 0 <= prate < 2 ^ 48 ->
            rp1_clock_recalc_rate hw_status clock prate c'
            = Some (prate * 2 ^ 16 / div)) /\
         rp1_clock_get_parent hw_status clock c' = 2).
Proof.
  apply (rp1_clock_set_rate_and_parent_programs_both
           (fun n => Z.of_nat n * 50000000) (fun _ _ => None) 50000000
           {| clock_hw := 0%nat; clock_data := clk_pwm0_data;
              clock_cached_rate := 0 |}
           30720000 50000000 2 (Clockman ∅ false [] 0));
    [ exact clock_advances_linear | reflexivity | intros n; reflexivity
    | intros n; reflexivity | intros _ n; reflexivity
    | vm_compute; discriminate | vm_compute; discriminate
    | vm_compute; discriminate
    | left; vm_compute; reflexivity | left; vm_compute; reflexivity
    | left; vm_compute; reflexivity
    | lia | lia | vm_compute; split; discriminate | reflexivity
    | vm_compute; split; [discriminate|reflexivity] | reflexivity
    | vm_compute; split; [discriminate|reflexivity] | reflexivity ].
Defined.

(** ** PllCore: enabling a PLL that is locked *)

(** X26: [rp1_pll_core_on] on a PLL whose status shows the lock bit.  It
    skips the reset, writes the power register once -- 0 when a fractional
    divisor is programmed, else [PLL_PWR_DSMPD] -- and returns 0 after a
    single look at the status, with the lock released; with the
    feedback-divisor registers reading back what was written and distinct
    from the power register, [recalc_rate] answers as before. *)
Theorem rp1_pll_core_on_locked ktime hw_status pll_core c fuel :
  let data := core_data pll_core in
  regs_lock c = false ->
  (forall n, exists v, hw_status n (cs_reg data) = Some v /\
                       Z.land (u32 v) PLL_CS_LOCK <> 0) ->
  (forall n, hw_status n (fbdiv_int_reg data) = None) ->
  (forall n, hw_status n (fbdiv_frac_reg data) = None) ->
  pwr_reg data <> fbdiv_int_reg data -> pwr_reg data <> fbdiv_frac_reg data ->
  (0 < fuel)%nat ->
  exists c',
    rp1_pll_core_on ktime hw_status fuel pll_core c = Ok 0 c' /\
    regs_lock c' = false /\ now c' = S (now c) /\
    wlog c' = (pwr_reg data,
               u32 (if negb (readl hw_status c (fbdiv_frac_reg data) =? 0)
                    then 0 else PLL_PWR_DSMPD)) :: wlog c /\
    forall prate,
      rp1_pll_core_recalc_rate hw_status pll_core prate c'
      = rp1_pll_core_recalc_rate hw_status pll_core prate c.
Proof.
  intros data Hl Hcs Hint Hfrac Hpi Hpf Hfuel.
  destruct fuel as [|fuel]; [lia|].
  unfold rp1_pll_core_on. fold data. munfold. rewrite Hl.
  cbn [regs regs_lock wlog now]. unfold ktime_get. cbn [busy_wait].
  munfold.
  assert (Hlocked : forall c0,
            (Z.land (readl hw_status c0 (cs_reg data)) PLL_CS_LOCK =? 0)
            = false).
  { intros c0. unfold readl. destruct (Hcs (now c0)) as (v & -> & Hv).
    now apply Z.eqb_neq. }
  rewrite !Hlocked. cbn [negb regs regs_lock wlog now]. rewrite ?Hlocked.
  cbn [negb].
  eexists. split; [reflexivity|]. cbn [regs regs_lock wlog now].
  split; [reflexivity|]. split; [reflexivity|]. split; [reflexivity|].
  intros prate. unfold rp1_pll_core_recalc_rate, readl. fold data.
  cbn [regs now]. rewrite !Hint, !Hfrac.
  now rewrite !lookup_insert_ne by assumption.
Qed.

Lemma rp1_pll_core_on_locked_witness :
  let ktime := fun n => Z.of_nat n in
  let hw_status := fun (_ : nat) reg =>
                     if reg =? 0x08000 then Some PLL_CS_LOCK else None in
  let pll_core := {| core_hw := 0%nat; core_data := pll_sys_core_data;
                     core_cached_rate := 0 |} in
  let data := pll_sys_core_data in
  let c := Clockman {[ 0x08008 := 20; 0x0800c := 0x123 ]} false [] 0 in
  exists c',
    rp1_pll_core_on ktime hw_status 1 pll_core c = Ok 0 c' /\
    regs_lock c' = false /\ now c' = S (now c) /\
    wlog c' = (pwr_reg data,
               u32 (if negb (readl hw_status c (fbdiv_frac_reg data) =? 0)
                    then 0 else PLL_PWR_DSMPD)) :: wlog c /\
    forall prate,
      rp1_pll_core_recalc_rate hw_status pll_core prate c'
      = rp1_pll_core_recalc_rate hw_status pll_core prate c.
Proof.
  apply (rp1_pll_core_on_locked (fun n => Z.of_nat n)
           (fun _ reg => if reg =? 0x08000 then Some PLL_CS_LOCK else None)
           {| core_hw := 0%nat; core_data := pll_sys_core_data;
              core_cached_rate := 0 |}
           (Clockman {[ 0x08008 := 20; 0x0800c := 0x123 ]} false [] 0) 1%nat);
    [ reflexivity
    | intros n; exists PLL_CS_LOCK; split; [reflexivity | vm_compute; discriminate]
    | intros n; reflexivity | intros n; reflexivity
    | vm_compute; discriminate | vm_compute; discriminate | lia ].
Defined.

(** ** Clock: selecting a parent leaves the node running *)

(** X27: [rp1_clock_set_parent] keeps the enable state.  With the control
    register reading back what was written and a source mask that stays
    clear of the enable bit, programming any declared parent index returns 0
    with the lock released and the node reports the enable state it had
    before. *)
Theorem rp1_clock_set_parent_keeps_enable hw_status clock index c :
  let data := clock_data clock in
  regs_lock c = false ->
  (forall n, hw_status n (ctrl_reg data) = None) ->
  index < num_std_parents data + num_aux_parents data ->
  Z.testbit (clk_src_mask data) 11 = false ->
  exists c',
    rp1_clock_set_parent hw_status clock index c = Ok 0 c' /\
    regs_lock c' = false /\
    rp1_clock_is_on hw_status clock c' = rp1_clock_is_on hw_status clock c.
Proof.
  intros data Hl Hst Hidx Hmask.
  unfold rp1_clock_set_parent. fold data. munfold. rewrite Hl.
  cbn [regs regs_lock wlog now].
  set (old := readl hw_status (Clockman (regs c) true (wlog c) (now c))
                (ctrl_reg data)).
  assert (Hold : readl hw_status c (ctrl_reg data) = old) by reflexivity.
  assert (Haux11 : Z.testbit CLK_CTRL_AUXSRC_MASK 11 = false) by reflexivity.
  assert (Hfinish : forall new,
            Z.testbit new 11 = Z.testbit old 11 -> 0 <= new < 2 ^ 32 ->
            rp1_clock_is_on hw_status clock
              (Clockman (<[ctrl_reg data := u32 new]> (regs c)) false
                 ((ctrl_reg data, u32 new) :: wlog c) (now c))
            = rp1_clock_is_on hw_status clock c).
  { intros new Hbit Hnew. rewrite !rp1_clock_is_on_testbit. fold data.
    rewrite Hold. unfold readl. cbn [regs now].
    rewrite Hst, lookup_insert_eq. cbn [from_option id].
    now rewrite u32_small by exact Hnew. }
  destruct (Z.leb_spec (num_std_parents data) index).
  - destruct (Z.leb_spec (num_std_parents data + num_aux_parents data) index);
      [lia|].
    cbn [regs regs_lock wlog now].
    eexists. split; [reflexivity|]. split; [reflexivity|].
    apply Hfinish; [|apply set_register_field_spec].
    rewrite !set_register_field_testbit by lia. rewrite Hmask, Haux11.
    reflexivity.
  - cbn [regs regs_lock wlog now].
    eexists. split; [reflexivity|]. split; [reflexivity|].
    apply Hfinish; [|apply set_register_field_spec].
    rewrite set_register_field_testbit by lia. rewrite Hmask. reflexivity.
Qed.

Lemma rp1_clock_set_parent_keeps_enable_witness :
  let hw_status := fun (_ : nat) (_ : Z) => @None Z in
  let clock := {| clock_hw := 0%nat; clock_data := clk_sys_data;
                  clock_cached_rate := 0 |} in
  let c := Clockman {[ 0x00014 := CLK_CTRL_ENABLE ]} false [] 0 in
  exists c',
    rp1_clock_set_parent hw_status clock 2 c = Ok 0 c' /\
    regs_lock c' = false /\
    rp1_clock_is_on hw_status clock c' = rp1_clock_is_on hw_status clock c.
Proof.
  apply (rp1_clock_set_parent_keeps_enable (fun _ _ => None)
           {| clock_hw := 0%nat; clock_data := clk_sys_data;
              clock_cached_rate := 0 |} 2
           (Clockman {[ 0x00014 := CLK_CTRL_ENABLE ]} false [] 0));
    [reflexivity | intros n; reflexivity | reflexivity | reflexivity].
Defined.

(** ** PllCore: the feedback divisor programmed and read back *)

(** X20: [rp1_pll_core_set_rate] followed by [rp1_pll_core_recalc_rate].
    With the two feedback-divisor registers reading back what was written
    and the node's four registers distinct, a [set_rate] that passes its
    VCO/16 check returns 0 with the lock released, and [recalc_rate], given
    the same parent rate, then returns exactly the rate that was cached. *)
Theorem rp1_pll_core_set_rate_recalc_rate hw_status pll_core rate parent_rate c :
  let data := core_data pll_core in
  regs_lock c = false ->
  u32 parent_rate <> 0 ->
  parent_rate <= rate / 16 ->
  (forall n, hw_status n (fbdiv_int_reg data) = None) ->
  (forall n, hw_status n (fbdiv_frac_reg data) = None) ->
  fbdiv_int_reg data <> fbdiv_frac_reg data ->
  cs_reg data <> fbdiv_int_reg data -> cs_reg data <> fbdiv_frac_reg data ->
  exists pll_core' c',
    rp1_pll_core_set_rate hw_status pll_core rate parent_rate c
    = Ok (0, pll_core') c' /\
    regs_lock c' = false /\
    core_data pll_core' = data /\
    rp1_pll_core_recalc_rate hw_status pll_core' parent_rate c'
    = core_cached_rate pll_core'.
Proof.
  intros data Hl Hp Hbug Hint Hfrac Hne Hcs_i Hcs_f.
  unfold rp1_pll_core_set_rate. fold data.
  unfold get_pll_core_divider, DIV_U64_NEAREST, div_u64.
  destruct (Z.eqb_spec (u32 parent_rate) 0) as [|_]; [contradiction|].
  cbn zeta.
  set (q := u64 (u64 (u64 (Z.shiftl rate 32) + Z.shiftr parent_rate 1)
                 / u32 parent_rate + Z.shiftl 1 (32 - 24 - 1))).
  munfold. rewrite Hl. cbn [regs regs_lock wlog now].
  destruct (Z.ltb_spec (rate / 16) parent_rate) as [|_]; [lia|].
  cbn [regs regs_lock wlog now].
  eexists _, _. split; [reflexivity|]. cbn [regs regs_lock wlog now].
  split; [reflexivity|]. split; [reflexivity|].
  unfold rp1_pll_core_recalc_rate. cbn [core_data core_cached_rate].
  unfold readl. cbn [regs now]. rewrite Hint, Hfrac.
  rewrite (lookup_insert_ne _ (cs_reg data) (fbdiv_int_reg data)) by exact Hcs_i.
  rewrite (lookup_insert_ne _ (cs_reg data) (fbdiv_frac_reg data)) by exact Hcs_f.
  rewrite (lookup_insert_ne _ (fbdiv_frac_reg data) (fbdiv_int_reg data))
    by congruence.
  rewrite !lookup_insert_eq. cbn [from_option id].
  rewrite !(u32_small (u32 _)) by apply u32_range. reflexivity.
Qed.

Lemma rp1_pll_core_set_rate_recalc_rate_witness :
  let hw_status := fun (_ : nat) (_ : Z) => @None Z in
  let pll_core := {| core_hw := 0%nat; core_data := pll_sys_core_data;
                     core_cached_rate := 0 |} in
  let c := Clockman ∅ false [] 0 in
  exists pll_core' c',
    rp1_pll_core_set_rate hw_status pll_core 1000000000 50000000 c
    = Ok (0, pll_core') c' /\
    regs_lock c' = false /\
    core_data pll_core' = pll_sys_core_data /\
    rp1_pll_core_recalc_rate hw_status pll_core' 50000000 c'
    = core_cached_rate pll_core'.
Proof.
  apply (rp1_pll_core_set_rate_recalc_rate (fun _ _ => None)
           {| core_hw := 0%nat; core_data := pll_sys_core_data;
              core_cached_rate := 0 |}
           1000000000 50000000 (Clockman ∅ false [] 0));
    [reflexivity | vm_compute; lia | apply Z.leb_le; reflexivity
    | intros n; reflexivity | intros n; reflexivity
    | vm_compute; discriminate | vm_compute; discriminate
    | vm_compute; discriminate].
Defined.

(** X21: how close [get_pll_core_divider] gets.  For a target and a
    nonzero parent rate below 2^32 it does not trap; the feedback divisor it
    returns is [target * 2^32 / parent_rate], rounded to nearest and then
    rounded at 24 fractional bits, with a fractional part that fits its 24
    bits; and the rate it promises -- the one [round_rate] returns and
    [set_rate] caches -- is within [1/2 + (129/256) * parent_rate / 2^24] Hz
    of the target. *)
Theorem get_pll_core_divider_accuracy rate parent_rate :
  0 <= rate < 2 ^ 32 -> 0 < parent_rate < 2 ^ 32 ->
  exists calc_rate fbdiv_int fbdiv_frac,
    get_pll_core_divider rate parent_rate
    = Some (calc_rate, fbdiv_int, fbdiv_frac) /\
    0 <= fbdiv_int < 2 ^ 32 /\ 0 <= fbdiv_frac < 2 ^ 24 /\
    fbdiv_int * 2 ^ 24 + fbdiv_frac
    = ((rate * 2 ^ 32 + parent_rate / 2) / parent_rate + 128) / 256 /\
    calc_rate
    = (parent_rate * (fbdiv_int * 2 ^ 24 + fbdiv_frac) + 2 ^ 23) / 2 ^ 24 /\
    Z.abs (calc_rate - rate) * 2 ^ 32 <= 129 * parent_rate + 2 ^ 31.
Proof.
  intros Hr Hp. unfold get_pll_core_divider, DIV_U64_NEAREST, div_u64.
  rewrite (u32_small parent_rate) by lia.
  destruct (Z.eqb_spec parent_rate 0) as [|_]; [lia|].
  change (Z.shiftl 1 (32 - 24 - 1)) with 128.
  change (Z.shiftl 1 23) with (2 ^ 23).
  change (32 - 24) with 8.
  rewrite !Z.shiftr_div_pow2, !Z.shiftl_mul_pow2 by lia.
  change (2 ^ 1) with 2.
  set (A := rate * 2 ^ 32).
  set (h := parent_rate / 2).
  assert (Hh : 2 * h <= parent_rate <= 2 * h + 1).
  { pose proof (Z.div_mod parent_rate 2 ltac:(lia)).
    pose proof (Z.mod_pos_bound parent_rate 2 ltac:(lia)). unfold h. lia. }
  assert (HA : 0 <= A <= 2 ^ 64 - 2 ^ 32) by (unfold A; lia).
  rewrite (u64_small A) by lia.
  rewrite (u64_small (A + h)) by lia.
  set (Q := (A + h) / parent_rate).
  assert (HQ : Q * parent_rate <= A + h <= Q * parent_rate + parent_rate - 1).
  { pose proof (Z.div_mod (A + h) parent_rate ltac:(lia)).
    pose proof (Z.mod_pos_bound (A + h) parent_rate ltac:(lia)).
    fold Q in H. lia. }
  assert (HQ0 : 0 <= Q <= A + h).
  { split; [apply Z.div_pos; lia|].
    apply Z.div_le_upper_bound; [lia|]. nia. }
  rewrite (u64_small (Q + 128)) by lia.
  set (Q' := Q + 128).
  set (X := Q' / 2 ^ 8).
  assert (HX : X * 256 <= Q' <= X * 256 + 255).
  { pose proof (Z.div_mod Q' (2 ^ 8) ltac:(lia)).
    pose proof (Z.mod_pos_bound Q' (2 ^ 8) ltac:(lia)).
    fold X in H. lia. }
  assert (Hint : Q' / 2 ^ 32 = X / 2 ^ 24).
  { unfold X. rewrite Z.div_div by lia. reflexivity. }
  assert (HX0 : 0 <= X < 2 ^ 56) by (unfold Q' in *; lia).
  assert (Hi : 0 <= X / 2 ^ 24 < 2 ^ 32).
  { split; [apply Z.div_pos; lia | apply Z.div_lt_upper_bound; lia]. }
  assert (Hf : 0 <= X mod 2 ^ 24 < 2 ^ 24) by (apply Z.mod_pos_bound; lia).
  rewrite Hint.
  rewrite (u32_small (X / 2 ^ 24)) by lia.
  change 16777215 with (Z.ones 24). rewrite Z.land_ones by lia.
  rewrite (u32_small (X mod 2 ^ 24)) by lia.
  assert (HD : X / 2 ^ 24 * 2 ^ 24 + X mod 2 ^ 24 = X).
  { pose proof (Z.div_mod X (2 ^ 24) ltac:(lia)). lia. }
  rewrite (u64_small (X / 2 ^ 24 * 2 ^ 24)) by lia.
  rewrite (u64_small (X / 2 ^ 24 * 2 ^ 24 + X mod 2 ^ 24)) by lia.
  rewrite HD.
  assert (HPX : 256 * (parent_rate * X) <= A + h + 128 * parent_rate /\
                A + h - 128 * parent_rate + 1
                <= 256 * (parent_rate * X)).
  { unfold Q' in HX. split; nia. }
  assert (HPX0 : 0 <= parent_rate * X) by nia.
  rewrite (u64_small (parent_rate * X)) by lia.
  rewrite (u64_small (parent_rate * X + 2 ^ 23)) by lia.
  set (calc := (parent_rate * X + 2 ^ 23) / 2 ^ 24).
  assert (Hcalc : calc * 2 ^ 24 <= parent_rate * X + 2 ^ 23
                  <= calc * 2 ^ 24 + 2 ^ 24 - 1).
  { pose proof (Z.div_mod (parent_rate * X + 2 ^ 23) (2 ^ 24) ltac:(lia)).
    pose proof (Z.mod_pos_bound (parent_rate * X + 2 ^ 23) (2 ^ 24)
                  ltac:(lia)).
    fold calc in H. lia. }
  exists calc, (X / 2 ^ 24), (X mod 2 ^ 24).
  split; [reflexivity|]. split; [exact Hi|]. split; [exact Hf|].
  rewrite HD. split; [reflexivity|]. split; [reflexivity|].
  unfold A in *. lia.
Qed.

Lemma get_pll_core_divider_accuracy_witness :
  exists calc_rate fbdiv_int fbdiv_frac,
    get_pll_core_divider 1000000000 50000000
    = Some (calc_rate, fbdiv_int, fbdiv_frac) /\
    0 <= fbdiv_int < 2 ^ 32 /\ 0 <= fbdiv_frac < 2 ^ 24 /\
    fbdiv_int * 2 ^ 24 + fbdiv_frac
    = ((1000000000 * 2 ^ 32 + 50000000 / 2) / 50000000 + 128) / 256 /\
    calc_rate
    = (50000000 * (fbdiv_int * 2 ^ 24 + fbdiv_frac) + 2 ^ 23) / 2 ^ 24 /\
    Z.abs (calc_rate - 1000000000) * 2 ^ 32 <= 129 * 50000000 + 2 ^ 31.
Proof.
  apply (get_pll_core_divider_accuracy 1000000000 50000000); lia.
Defined.

(** X22: [rp1_pll_core_on] on a PLL that never reports lock.  With time
    passing, the fractional-divisor register reading back what was written
    and the node's four registers distinct, [prepare] first resets the PLL
    to its known state -- feedback divisor 20 with no fraction, reference
    divider 1, and only the delta-sigma modulator powered down -- then gives
    up with [-ETIMEDOUT] right after the first clock sample beyond the
    100 ms deadline, with the lock released. *)
Theorem rp1_pll_core_on_never_locks ktime hw_status pll_core c :
  let data := core_data pll_core in
  clock_advances ktime ->
  regs_lock c = false ->
  (forall c0, Z.land (readl hw_status c0 (cs_reg data)) PLL_CS_LOCK = 0) ->
  (forall n, hw_status n (fbdiv_frac_reg data) = None) ->
  pwr_reg data <> fbdiv_int_reg data -> pwr_reg data <> fbdiv_frac_reg data ->
  pwr_reg data <> cs_reg data -> fbdiv_int_reg data <> fbdiv_frac_reg data ->
  fbdiv_int_reg data <> cs_reg data -> fbdiv_frac_reg data <> cs_reg data ->
  total (fun fuel => rp1_pll_core_on ktime hw_status fuel pll_core) c
    (fun r c' =>
       r = - ETIMEDOUT /\ regs_lock c' = false /\
       regs c' !! fbdiv_int_reg data = Some 20 /\
       regs c' !! fbdiv_frac_reg data = Some 0 /\
       regs c' !! cs_reg data = Some 1 /\
       regs c' !! pwr_reg data = Some PLL_PWR_DSMPD /\
       exists m, now c' = S m /\ (now c < m)%nat /\
                 ktime (now c) + LOCK_TIMEOUT_NS < ktime m /\
                 forall k, (now c < k < m)%nat ->
                           ktime k <= ktime (now c) + LOCK_TIMEOUT_NS).
Proof.
  intros data Hadv Hl Hnever Hfrac Hpi Hpf Hpc Hif Hic Hfc.
  unfold rp1_pll_core_on. fold data.
  do 2 total_prim. rewrite Hnever. cbn [Z.eqb].
  total_block.
  set (c1 := Clockman _ _ _ _).
  assert (Hf0 : readl hw_status c1 (fbdiv_frac_reg data) = 0).
  { unfold readl, c1. cbn [regs now]. rewrite Hfrac.
    rewrite lookup_insert_ne by congruence. now rewrite lookup_insert_eq. }
  total_prim. rewrite Hf0. cbn [Z.eqb negb]. subst c1.
  do 3 total_prim.
  eapply total_bind; [apply total_busy_wait; exact Hadv|].
  cbn [regs regs_lock wlog now].
  intros locked c' (Hr & Hl' & _ & Hno & Ht).
  assert (Hlocked : locked = false).
  { apply Hno. intros c0. now rewrite Hnever. }
  subst locked. cbn [negb]. apply total_ret.
  split; [reflexivity|]. split; [exact Hl'|]. rewrite Hr.
  split; [|split; [|split; [|split]]].
  - rewrite !lookup_insert_ne by congruence. apply lookup_insert_eq.
  - rewrite !lookup_insert_ne by congruence. apply lookup_insert_eq.
  - rewrite !lookup_insert_ne by congruence. apply lookup_insert_eq.
  - apply lookup_insert_eq.
  - destruct (Ht eq_refl) as (m & Hm & Hle & Hlt & Hbefore).
    exists m. repeat split; try lia. intros k Hk. apply Hbefore. lia.
Qed.

Lemma rp1_pll_core_on_never_locks_witness :
  let ktime := fun n => Z.of_nat n * 50000000 in
  let hw_status := fun (_ : nat) reg =>
                     if reg =? 0x08000 then Some 0x1 else None in
  let pll_core := {| core_hw := 0%nat; core_data := pll_sys_core_data;
                     core_cached_rate := 0 |} in
  let data := pll_sys_core_data in
  let c := Clockman ∅ false [] 0 in
  total (fun fuel => rp1_pll_core_on ktime hw_status fuel pll_core) c
    (fun r c' =>
       r = - ETIMEDOUT /\ regs_lock c' = false /\
       regs c' !! fbdiv_int_reg data = Some 20 /\
       regs c' !! fbdiv_frac_reg data = Some 0 /\
       regs c' !! cs_reg data = Some 1 /\
       regs c' !! pwr_reg data = Some PLL_PWR_DSMPD /\
       exists m, now c' = S m /\ (now c < m)%nat /\
                 ktime (now c) + LOCK_TIMEOUT_NS < ktime m /\
                 forall k, (now c < k < m)%nat ->
                           ktime k <= ktime (now c) + LOCK_TIMEOUT_NS).
Proof.
  apply (rp1_pll_core_on_never_locks (fun n => Z.of_nat n * 50000000)
           (fun _ reg => if reg =? 0x08000 then Some 0x1 else None)
           {| core_hw := 0%nat; core_data := pll_sys_core_data;
              core_cached_rate := 0 |}
           (Clockman ∅ false [] 0));
    [exact clock_advances_linear | reflexivity | intros c0; reflexivity
    | intros n; reflexivity | vm_compute; discriminate
    | vm_compute; discriminate | vm_compute; discriminate
    | vm_compute; discriminate | vm_compute; discriminate
    | vm_compute; discriminate].
Defined.

(** ** The pending change tree: planned by the leaf, followed by the PLL *)

Lemma prim_divs_are_pairs p :
  In p prim_divs -> exists q, In q prim_pairs /\ fst q * snd q = p.
Proof.
  intros Hp.
  assert (Hall : forallb (fun p => existsb (fun q => fst q * snd q =? p)
                                     prim_pairs) prim_divs = true)
    by reflexivity.
  rewrite forallb_forall in Hall. specialize (Hall p Hp).
  apply existsb_exists in Hall as (q & Hq & E). exists q. split; [exact Hq|lia].
Qed.

(** X23: [rp1_pll_round_rate] follows the plan.  When entry 1 of the pending
    change tree names this PLL with the rate asked for, and that rate is
    entry 2's rate divided by a primary divisor of the table, rounded to
    nearest -- as the chain retune of [clk_i2s] plans them --
    [rp1_pll_round_rate] overrides the parent rate it was given with the
    planned one, finds a divider pair that hits the planned rate exactly,
    and answers that rate. *)
Theorem rp1_pll_round_rate_follows_plan hw rate parent_rate tree div_prim :
  let core_rate := new_rate (tree !!! 2%nat) in
  chg_hw (tree !!! 1%nat) = Some hw ->
  new_rate (tree !!! 1%nat) = rate ->
  In div_prim prim_divs ->
  0 <= core_rate < 2 ^ 63 ->
  rate = DIV_NEAREST core_rate div_prim ->
  rp1_pll_round_rate hw rate parent_rate tree = (rate, core_rate) /\
  let '(div1, div2) := get_pll_prim_dividers rate core_rate in
  DIV_ROUND_CLOSEST core_rate (u32 (div1 * div2)) = rate.
Proof.
  intros core_rate Hhw Hrate Hp Hcore Hplan.
  assert (Hp2 := prim_divs_range div_prim Hp).
  destruct (prim_divs_are_pairs div_prim Hp) as ([q1 q2] & Hq & Hprod).
  cbn [fst snd] in Hprod.
  assert (Hhalf : 0 <= div_prim / 2 <= div_prim).
  { split; [apply Z.div_pos; lia | apply Z.div_le_upper_bound; lia]. }
  assert (Hex : prim_calc_rate core_rate (q1, q2) = rate).
  { unfold prim_calc_rate, DIV_ROUND_CLOSEST. cbn [fst snd].
    rewrite Hprod, (u32_small div_prim) by lia.
    rewrite Hplan. unfold DIV_NEAREST.
    rewrite Z.shiftr_div_pow2 by lia. change (2 ^ 1) with 2.
    now rewrite (u64_small div_prim) by lia. }
  destruct (get_pll_prim_dividers_cases rate core_rate) as (_ & Hexact).
  specialize (Hexact (ex_intro _ (q1, q2) (conj Hq Hex))).
  assert (Hrate_range : 0 <= rate < 2 ^ 63).
  { rewrite Hplan. unfold DIV_NEAREST.
    rewrite Z.shiftr_div_pow2 by lia. change (2 ^ 1) with 2.
    rewrite (u64_small div_prim), (u64_small (core_rate + _)) by lia.
    split; [apply Z.div_pos; lia|].
    apply Z.div_lt_upper_bound; lia. }
  unfold rp1_pll_round_rate. fold core_rate.
  rewrite bool_decide_eq_true_2 by exact Hhw.
  rewrite Hrate, Z.eqb_refl. cbn [andb].
  destruct (get_pll_prim_dividers rate core_rate) as [div1 div2].
  unfold prim_calc_rate in Hexact. cbn [fst snd] in Hexact.
  rewrite Hexact. split; [|reflexivity].
  now rewrite s64_small by lia.
Qed.

Lemma rp1_pll_round_rate_follows_plan_witness :
  let tree := [ {| chg_hw := Some 4%nat; new_rate := 1536000 |};
                {| chg_hw := Some 2%nat; new_rate := 267264000 |};
                {| chg_hw := Some 1%nat; new_rate := 801791999 |} ] in
  rp1_pll_round_rate 2%nat 267264000 61440000 tree = (267264000, 801791999) /\
  let '(div1, div2) := get_pll_prim_dividers 267264000 801791999 in
  DIV_ROUND_CLOSEST 801791999 (u32 (div1 * div2)) = 267264000.
Proof.
  apply (rp1_pll_round_rate_follows_plan 2%nat 267264000 61440000
           [ {| chg_hw := Some 4%nat; new_rate := 1536000 |};
             {| chg_hw := Some 2%nat; new_rate := 267264000 |};
             {| chg_hw := Some 1%nat; new_rate := 801791999 |} ] 3);
    [reflexivity | reflexivity | vm_compute; tauto | vm_compute; split; congruence
    | reflexivity].
Defined.

Section PlanProps.

Variable clk_hw_get_parent_by_index : clk_hw -> nat -> option clk_hw.
Variable clk_hw_get_rate : clk_hw -> Z.
Variable clk_hw_get_parent : clk_hw -> option clk_hw.
Variables clk_xosc clk_audio clk_i2s : option clk_hw.

Local Abbreviation choose :=
  (rp1_clock_choose_div_and_prate clk_hw_get_parent_by_index clk_hw_get_rate
     clk_hw_get_parent clk_xosc clk_audio clk_i2s).

Lemma chg_tree_scan_hit hw parent rate tree idxs prate calc :
  chg_tree_scan clk_hw_get_rate clk_xosc hw parent rate tree idxs
  = Some (Hit prate calc) ->
  calc = rate.
Proof.
  induction idxs as [|i idxs IH]; cbn [chg_tree_scan]; [discriminate|].
  destruct (bool_decide _ && (new_rate (tree !!! i) =? rate)) eqn:Hm;
    [|exact IH].
  apply andb_true_iff in Hm as (_ & Hr). apply Z.eqb_eq in Hr.
  destruct (bool_decide (i = 2%nat)).
  - destruct (rate_of clk_hw_get_rate clk_xosc); [|discriminate].
    cbn [mbind option_bind]. intros [= _ <-]. exact Hr.
  - destruct (bool_decide _); [|exact IH]. intros [= _ <-]. exact Hr.
Qed.

Lemma chg_tree_scan_planned hw parent rate a b c :
  chg_hw a = Some hw -> new_rate a = rate -> parent = chg_hw b ->
  chg_tree_scan clk_hw_get_rate clk_xosc hw parent rate [a; b; c]
    [0; 1; 2]%nat
  = Some (Hit (new_rate b) (new_rate a)).
Proof.
  intros Ha Hr Hb. cbn [chg_tree_scan].
  change ([a; b; c] !!! 0%nat) with a. change ([a; b; c] !!! 1%nat) with b.
  rewrite (bool_decide_eq_true_2 _ Ha), Hr, Z.eqb_refl. cbn [andb].
  rewrite bool_decide_eq_false_2 by discriminate.
  now rewrite (bool_decide_eq_true_2 _ Hb).
Qed.

Lemma rp1_clock_choose_div_and_prate_hit clock i rate tree prate calc :
  chg_tree_scan clk_hw_get_rate clk_xosc (clock_hw clock)
    (clk_hw_get_parent_by_index (clock_hw clock) i) rate tree [0; 1; 2]%nat
  = Some (Hit prate calc) ->
  choose clock i rate tree = Some (prate, calc, tree).
Proof.
  intros Hscan. unfold rp1_clock_choose_div_and_prate. now rewrite Hscan.
Qed.

(** X24: the answer of the negotiation is stable.  For [clk_i2s] on its
    parent [clk_audio], with the three-entry change tree: whatever
    [rp1_clock_choose_div_and_prate] answers for a target -- from the plan
    or by planning the chain afresh -- asking again for the rate it reported
    finds that answer in the plan: the same parent rate and rate come back
    and the plan is left as it is. *)
Theorem rp1_clock_choose_div_and_prate_stable clock i rate tree
    prate calc tree' :
  length tree = 3%nat ->
  clk_i2s = Some (clock_hw clock) ->
  clk_hw_get_parent_by_index (clock_hw clock) i = clk_audio ->
  choose clock i rate tree = Some (prate, calc, tree') ->
  choose clock i calc tree' = Some (prate, calc, tree') /\
  length tree' = 3%nat.
Proof.
  intros Hlen Hi2s Hpar Hch.
  unfold rp1_clock_choose_div_and_prate in Hch.
  destruct (chg_tree_scan clk_hw_get_rate clk_xosc (clock_hw clock)
              (clk_hw_get_parent_by_index (clock_hw clock) i)
              rate tree [0; 1; 2]%nat) as [[pr cr|]|] eqn:Hscan;
    [| |discriminate]; cbn [mbind option_bind] in Hch.
  - (* answered from the plan *)
    pose proof (chg_tree_scan_hit _ _ _ _ _ _ _ Hscan) as ->.
    injection Hch as <- <- <-.
    split; [|exact Hlen].
    now apply rp1_clock_choose_div_and_prate_hit.
  - (* planned afresh *)
    rewrite Hpar in Hch.
    rewrite (bool_decide_eq_true_2 (Some (clock_hw clock) = clk_i2s)) in Hch
      by (symmetry; exact Hi2s).
    rewrite (bool_decide_eq_true_2 (clk_audio = clk_audio)) in Hch
      by reflexivity.
    cbn [andb] in Hch.
    apply bind_Some in Hch as (x & Hx & Hch).
    apply bind_Some in Hch as ([[core dp] dc] & Hcalc & Hch).
    apply bind_Some in Hch as (p & Haudio & Hch).
    destruct tree as [|e0 [|e1 [|e2 [|e3 tree]]]]; try discriminate Hlen.
    assert (Htree : forall a b c0 : rp1_clk_change,
              <[0%nat:=a]> (<[1%nat:=b]> (<[2%nat:=c0]> [e0; e1; e2]))
              = [a; b; c0]) by reflexivity.
    rewrite Htree in Hch. injection Hch as <- <- <-.
    split; [|reflexivity].
    apply rp1_clock_choose_div_and_prate_hit.
    rewrite Hpar.
    apply chg_tree_scan_planned; [exact Hi2s | reflexivity | reflexivity].
Qed.

End PlanProps.

Lemma rp1_clock_choose_div_and_prate_stable_witness :
  let plan := [ {| chg_hw := Some 4%nat; new_rate := 1536000 |};
                {| chg_hw := Some 2%nat; new_rate := 267264000 |};
                {| chg_hw := Some 1%nat; new_rate := 801791999 |} ] in
  rp1_clock_choose_div_and_prate ExampleTree.clk_hw_get_parent_by_index
    ExampleTree.clk_hw_get_rate ExampleTree.clk_hw_get_parent
    ExampleTree.clk_xosc ExampleTree.clk_audio ExampleTree.clk_i2s
    ExampleTree.i2s 1 1536000 plan
  = Some (267264000, 1536000, plan) /\
  length plan = 3%nat.
Proof.
  exact (rp1_clock_choose_div_and_prate_stable
           ExampleTree.clk_hw_get_parent_by_index ExampleTree.clk_hw_get_rate
           ExampleTree.clk_hw_get_parent ExampleTree.clk_xosc
           ExampleTree.clk_audio ExampleTree.clk_i2s
           ExampleTree.i2s 1%nat 1536000 rp1_clk_chg_tree_init
           267264000 1536000
           [ {| chg_hw := Some 4%nat; new_rate := 1536000 |};
             {| chg_hw := Some 2%nat; new_rate := 267264000 |};
             {| chg_hw := Some 1%nat; new_rate := 801791999 |} ]
           eq_refl eq_refl eq_refl
           ltac:(vm_compute; reflexivity)).
Defined.

(** ** The chain retune: how close the planned rates are *)

Lemma calc_core_pll_rate_shape xosc_rate target_rate :
  0 <= target_rate -> target_rate * 256 * 49 < 2 ^ 64 ->
  18750000 <= xosc_rate < 2 ^ 60 ->
  exists core_rate div_prim div_clk,
    calc_core_pll_rate xosc_rate target_rate
    = Some (core_rate, div_prim, div_clk) /\
    1 <= div_prim <= 49 /\ 1 <= div_clk <= 256 /\
    ((core_rate = 0 /\
      forall p d, valid_combination xosc_rate target_rate p d ->
                  core_max <= target_rate * d * p)
     \/
     (valid_combination xosc_rate target_rate div_prim div_clk /\
      target_rate * div_clk * div_prim < core_max /\
      (forall p d, valid_combination xosc_rate target_rate p d ->
                   target_rate * div_clk * div_prim <= target_rate * d * p) /\
      16 * xosc_rate <= core_rate /\
      target_rate * div_clk * div_prim - xosc_rate / 2 ^ 25 - 1 <= core_rate
      <= target_rate * div_clk * div_prim + xosc_rate / 2 ^ 25 + 1)).
Proof.
  intros Ht Hov Hx. unfold calc_core_pll_rate.
  rewrite (u64_small (xosc_rate * 16)) by lia.
  assert (Hinit : core_search_inv target_rate (xosc_rate * 16) []
                    (core_max + 1, 1, 1)).
  { cbn. split; [intros p d []|now left]. }
  pose proof (core_pll_search_spec target_rate (xosc_rate * 16) prim_divs
                Ht Hov prim_divs_range [] _ Hinit) as Hinv.
  cbn [app] in Hinv.
  destruct (core_pll_search target_rate (xosc_rate * 16)
              (core_max + 1, 1, 1) prim_divs) as [[r p] d].
  cbn [core_search_inv] in Hinv. destruct Hinv as (Hmin & Hbest).
  assert (Hpd : 1 <= p <= 49 /\ 1 <= d <= 256).
  { destruct Hbest as [E|(Hin & Hd & _)].
    - injection E as _ -> ->. lia.
    - pose proof (prim_divs_range p Hin). lia. }
  destruct (Z.ltb_spec r core_max) as [Hlt|Hge].
  - destruct (Z.eqb_spec xosc_rate 0) as [|_]; [lia|].
    destruct Hbest as [E|(Hin & Hd & Hr & Hm & Hrm)];
      [injection E as -> _ _; lia|].
    assert (Hp := prim_divs_range p Hin).
    assert (Hr0 : 0 <= r).
    { subst r. apply Z.mul_nonneg_nonneg; [apply Z.mul_nonneg_nonneg|]; lia. }
    rewrite (core_rate_rederived xosc_rate r Hx (conj Hr0 Hlt)).
    eexists _, p, d. split; [reflexivity|]. split; [lia|]. split; [lia|].
    right. rewrite <- Hr.
    destruct (rederived_rate_bounds xosc_rate r ltac:(lia) Hr0) as (Hb & H16).
    split; [repeat split; [exact Hin|lia|lia|lia]|].
    split; [exact Hlt|]. split; [|lia].
    intros p' d' (Hin' & Hd' & Hv'). apply Hmin; [exact Hin'|lia|lia].
  - eexists 0, p, d. split; [reflexivity|]. split; [lia|]. split; [lia|].
    left. split; [reflexivity|].
    intros p' d' (Hin' & Hd' & Hv'). specialize (Hmin p' d' Hin' Hd').
    lia.
Qed.

Lemma DIV_NEAREST_small a b :
  0 <= a < 2 ^ 63 -> 0 < b < 2 ^ 32 -> DIV_NEAREST a b = (a + b / 2) / b.
Proof.
  intros Ha Hb. unfold DIV_NEAREST.
  rewrite Z.shiftr_div_pow2 by lia. change (2 ^ 1) with 2.
  assert (0 <= b / 2 <= b).
  { split; [apply Z.div_pos; lia | apply Z.div_le_upper_bound; lia]. }
  now rewrite (u64_small b), (u64_small (a + b / 2)) by lia.
Qed.

(** Dividing to nearest an amount that is within 2 of a multiple of the
    divisor gives the multiplier to within 1. *)
Lemma div_nearest_near q b a :
  2 <= b -> q * b - 2 <= a <= q * b + 2 ->
  q - 1 <= (a + b / 2) / b <= q + 1.
Proof.
  intros Hb Ha.
  assert (Hh : 2 * (b / 2) <= b <= 2 * (b / 2) + 1).
  { pose proof (Z.div_mod b 2 ltac:(lia)).
    pose proof (Z.mod_pos_bound b 2 ltac:(lia)). lia. }
  split.
  - apply Z.div_le_lower_bound; [lia|]. nia.
  - assert ((a + b / 2) / b < q + 2); [|lia].
    apply Z.div_lt_upper_bound; [lia|]. nia.
Qed.

Lemma div_nearest_near1 q b a :
  1 <= b -> q * b - 1 <= a <= q * b + 1 ->
  q - 1 <= (a + b / 2) / b <= q + 1.
Proof.
  intros Hb Ha.
  assert (Hh : 2 * (b / 2) <= b <= 2 * (b / 2) + 1).
  { pose proof (Z.div_mod b 2 ltac:(lia)).
    pose proof (Z.mod_pos_bound b 2 ltac:(lia)). lia. }
  split.
  - apply Z.div_le_lower_bound; [lia|]. nia.
  - assert ((a + b / 2) / b < q + 2); [|lia].
    apply Z.div_lt_upper_bound; [lia|]. nia.
Qed.

Section ChainProps.

Variable clk_hw_get_parent_by_index : clk_hw -> nat -> option clk_hw.
Variable clk_hw_get_rate : clk_hw -> Z.
Variable clk_hw_get_parent : clk_hw -> option clk_hw.
Variables clk_xosc clk_audio clk_i2s : option clk_hw.

Local Abbreviation choose :=
  (rp1_clock_choose_div_and_prate clk_hw_get_parent_by_index clk_hw_get_rate
     clk_hw_get_parent clk_xosc clk_audio clk_i2s).

(** The chain branch, once its ingredients are known. *)
Lemma rp1_clock_choose_div_and_prate_chain clock i rate tree x core dp dc p :
  (forall j, chg_hw (tree !!! j) <> Some (clock_hw clock)) ->
  clk_i2s = Some (clock_hw clock) ->
  clk_hw_get_parent_by_index (clock_hw clock) i = clk_audio ->
  rate_of clk_hw_get_rate clk_xosc = Some x ->
  calc_core_pll_rate x rate = Some (core, dp, dc) ->
  clk_audio = Some p ->
  choose clock i rate tree
  = Some (DIV_NEAREST core dp, DIV_NEAREST (DIV_NEAREST core dp) dc,
          <[0%nat := {| chg_hw := clk_i2s;
                        new_rate := DIV_NEAREST (DIV_NEAREST core dp) dc |}]>
            (<[1%nat := {| chg_hw := clk_audio;
                           new_rate := DIV_NEAREST core dp |}]>
               (<[2%nat := {| chg_hw := clk_hw_get_parent p;
                              new_rate := core |}]> tree))).
Proof.
  intros Hno Hi2s Hpar Hx Hcalc Haudio.
  unfold rp1_clock_choose_div_and_prate.
  rewrite chg_tree_scan_miss by exact Hno. cbn [mbind option_bind].
  rewrite Hpar.
  rewrite (bool_decide_eq_true_2 (Some (clock_hw clock) = clk_i2s))
    by (symmetry; exact Hi2s).
  rewrite (bool_decide_eq_true_2 (clk_audio = clk_audio)) by reflexivity.
  cbn [andb].
  apply bind_Some. exists x. split; [exact Hx|].
  apply bind_Some. exists (core, dp, dc). split; [exact Hcalc|].
  apply bind_Some. exists p. split; [exact Haudio|reflexivity].
Qed.

(** X25: the chain retune of [clk_i2s] lands within 1 Hz.  For [clk_i2s] on
    its parent [clk_audio], with nothing planned yet, a reference of at
    least 18.75 MHz and below 2^26 Hz and a target with
    [target * 256 * 49 < 2^64], [rp1_clock_choose_div_and_prate] plans the
    three rates -- leaf, PLL, core, in this order -- from the divisors
    [calc_core_pll_rate] selects: the PLL rate is the core rate over the
    primary divisor and the leaf rate the PLL rate over the secondary
    divisor, both rounded to nearest.  Either no table combination that
    reaches 16 times the reference stays below 2.4 GHz, and the three
    planned rates are 0; or the divisors selected are the table combination
    of lowest VCO rate among those that reach 16 times the reference, that
    VCO rate is below 2.4 GHz, the core is planned at 16 times the reference
    or more and within 2 Hz of it, the PLL within 1 Hz of the target times
    the secondary divisor, and the leaf within 1 Hz of the target. *)
Theorem rp1_clock_i2s_chain_within_1hz clock i rate tree xo p :
  let x := clk_hw_get_rate xo in
  (forall j, chg_hw (tree !!! j) <> Some (clock_hw clock)) ->
  length tree = 3%nat ->
  clk_i2s = Some (clock_hw clock) ->
  clk_hw_get_parent_by_index (clock_hw clock) i = clk_audio ->
  clk_xosc = Some xo -> clk_audio = Some p ->
  18750000 <= x < 2 ^ 26 ->
  0 <= rate -> rate * 256 * 49 < 2 ^ 64 ->
  exists prate calc core div_prim div_clk,
    calc_core_pll_rate x rate = Some (core, div_prim, div_clk) /\
    prate = DIV_NEAREST core div_prim /\
    calc = DIV_NEAREST prate div_clk /\
    choose clock i rate tree
    = Some (prate, calc,
            [ {| chg_hw := clk_i2s; new_rate := calc |};
              {| chg_hw := clk_audio; new_rate := prate |};
              {| chg_hw := clk_hw_get_parent p; new_rate := core |} ]) /\
    ((core = 0 /\ prate = 0 /\ calc = 0 /\
      forall p' d', valid_combination x rate p' d' ->
                    core_max <= rate * d' * p')
     \/
     (let V := rate * div_clk * div_prim in
      valid_combination x rate div_prim div_clk /\
      V < core_max /\
      (forall p' d', valid_combination x rate p' d' -> V <= rate * d' * p') /\
      16 * x <= core /\
      V - 2 <= core <= V + 2 /\
      rate * div_clk - 1 <= prate <= rate * div_clk + 1 /\
      rate - 1 <= calc <= rate + 1)).
Proof.
  intros x Hno Hlen Hi2s Hpar Hxosc Haudio Hx Hr Hov.
  destruct (calc_core_pll_rate_shape x rate Hr Hov ltac:(lia))
    as (core & dp & dc & Hcalc & Hdp & Hdc & Hshape).
  assert (Hrate : rate_of clk_hw_get_rate clk_xosc = Some x)
    by (rewrite Hxosc; reflexivity).
  exists (DIV_NEAREST core dp), (DIV_NEAREST (DIV_NEAREST core dp) dc),
    core, dp, dc.
  split; [exact Hcalc|]. split; [reflexivity|]. split; [reflexivity|]. split.
  - rewrite (rp1_clock_choose_div_and_prate_chain clock i rate tree x core dp
               dc p Hno Hi2s Hpar Hrate Hcalc Haudio).
    destruct tree as [|e0 [|e1 [|e2 [|e3 tree]]]]; try discriminate Hlen.
    reflexivity.
  - destruct Hshape as [(-> & Hnone)|(Hvalid & HV & Hmin & H16 & Hnear)].
    + left. split; [reflexivity|].
      assert (E : DIV_NEAREST 0 dp = 0).
      { rewrite DIV_NEAREST_small by lia. apply Z.div_small.
        pose proof (Z.div_mod dp 2 ltac:(lia)).
        pose proof (Z.mod_pos_bound dp 2 ltac:(lia)). lia. }
      rewrite E. split; [reflexivity|]. split; [|exact Hnone].
      rewrite DIV_NEAREST_small by lia. apply Z.div_small.
      pose proof (Z.div_mod dc 2 ltac:(lia)).
      pose proof (Z.mod_pos_bound dc 2 ltac:(lia)). lia.
    + right. cbn zeta.
      split; [exact Hvalid|]. split; [exact HV|]. split; [exact Hmin|].
      split; [exact H16|].
      assert (Hdp2 : 2 <= dp).
      { destruct Hvalid as (Hin & _). pose proof (prim_divs_range dp Hin).
        lia. }
      unfold core_max in HV.
      assert (Hx25 : 0 <= x / 2 ^ 25 <= 1).
      { split; [apply Z.div_pos; lia|].
        assert (x / 2 ^ 25 < 2); [|lia]. apply Z.div_lt_upper_bound; lia. }
      assert (Hcore : rate * dc * dp - 2 <= core <= rate * dc * dp + 2) by lia.
      split; [exact Hcore|].
      rewrite (DIV_NEAREST_small core dp) by lia.
      pose proof (div_nearest_near (rate * dc) dp core ltac:(lia) Hcore)
        as Haud.
      split; [exact Haud|].
      assert (Hrd : 0 <= rate * dc) by nia.
      assert (Haud0 : 0 <= (core + dp / 2) / dp < 2 ^ 63).
      { split; [apply Z.div_pos; [|lia]|apply Z.div_lt_upper_bound; [lia|]].
        - assert (0 <= dp / 2) by (apply Z.div_pos; lia). lia.
        - assert (dp / 2 <= dp) by (apply Z.div_le_upper_bound; lia). lia. }
      rewrite DIV_NEAREST_small by lia.
      apply div_nearest_near1; lia.
Qed.

End ChainProps.

Lemma rp1_clock_i2s_chain_within_1hz_witness :
  let x := ExampleTree.clk_hw_get_rate 0%nat in
  let rate := 1536000 in
  exists prate calc core div_prim div_clk,
    calc_core_pll_rate x rate = Some (core, div_prim, div_clk) /\
    prate = DIV_NEAREST core div_prim /\
    calc = DIV_NEAREST prate div_clk /\
    rp1_clock_choose_div_and_prate ExampleTree.clk_hw_get_parent_by_index
      ExampleTree.clk_hw_get_rate ExampleTree.clk_hw_get_parent
      ExampleTree.clk_xosc ExampleTree.clk_audio ExampleTree.clk_i2s
      ExampleTree.i2s 1 rate rp1_clk_chg_tree_init
    = Some (prate, calc,
            [ {| chg_hw := ExampleTree.clk_i2s; new_rate := calc |};
              {| chg_hw := ExampleTree.clk_audio; new_rate := prate |};
              {| chg_hw := ExampleTree.clk_hw_get_parent 2%nat;
                 new_rate := core |} ]) /\
    (let V := rate * div_clk * div_prim in
     valid_combination x rate div_prim div_clk /\
     V < core_max /\
     (forall p' d', valid_combination x rate p' d' -> V <= rate * d' * p') /\
     16 * x <= core /\
     V - 2 <= core <= V + 2 /\
     rate * div_clk - 1 <= prate <= rate * div_clk + 1 /\
     rate - 1 <= calc <= rate + 1).
Proof.
  intros x rate.
  destruct (rp1_clock_i2s_chain_within_1hz
              ExampleTree.clk_hw_get_parent_by_index ExampleTree.clk_hw_get_rate
              ExampleTree.clk_hw_get_parent ExampleTree.clk_xosc
              ExampleTree.clk_audio ExampleTree.clk_i2s
              ExampleTree.i2s 1%nat rate rp1_clk_chg_tree_init 0%nat 2%nat)
    as (prate & calc & core & dp & dc & Hcalc & Hp & Hc & Hch & Hcase);
    [ intros [|[|[|j]]]; vm_compute; discriminate
    | reflexivity | reflexivity | reflexivity | reflexivity | reflexivity
    | vm_compute; split; [discriminate|reflexivity]
    | unfold rate; lia | unfold rate; lia | ].
  exists prate, calc, core, dp, dc.
  split; [exact Hcalc|]. split; [exact Hp|]. split; [exact Hc|].
  split; [exact Hch|].
  destruct Hcase as [(Hz & _)|Hright]; [|exact Hright].
  exfalso. rewrite Hz in Hcalc. vm_compute in Hcalc. discriminate Hcalc.
Defined.

(** ** Clock: the overclock guard, on [clk_uart] *)

(** The hypotheses of the guard hold for [clk_uart] asked for 9 MHz: it
    settles on [pll_sys_pri_ph] divided by 11. *)
Lemma rp1_clock_determine_rate_guard_witness :
  let req := {| req_rate := 9000000; best_parent_hw := None;
                best_parent_rate := 0 |} in
  let req' := {| req_rate := 9090909; best_parent_hw := Some 10%nat;
                 best_parent_rate := 100000000 |} in
  ExampleTree.determine_rate ExampleTree.uart ExampleTree.clockman0 req
    rp1_clk_chg_tree_init
  = Some (0, req', rp1_clk_chg_tree_init) /\
  req_rate req' <= max_freq (clock_data ExampleTree.uart).
Proof.
  assert (Hdet : ExampleTree.determine_rate ExampleTree.uart
                   ExampleTree.clockman0
                   {| req_rate := 9000000; best_parent_hw := None;
                      best_parent_rate := 0 |} rp1_clk_chg_tree_init
                 = Some (0, {| req_rate := 9090909;
                               best_parent_hw := Some 10%nat;
                               best_parent_rate := 100000000 |},
                         rp1_clk_chg_tree_init))
    by (vm_compute; reflexivity).
  split; [exact Hdet|].
  apply (rp1_clock_determine_rate_guard ExampleTree.hw_status
           ExampleTree.clk_hw_get_parent_by_index ExampleTree.clk_hw_get_rate
           ExampleTree.clk_hw_get_parent ExampleTree.clk_xosc
           ExampleTree.clk_audio ExampleTree.clk_i2s ExampleTree.uart
           ExampleTree.clockman0
           {| req_rate := 9000000; best_parent_hw := None;
              best_parent_rate := 0 |}
           rp1_clk_chg_tree_init
           {| req_rate := 9090909; best_parent_hw := Some 10%nat;
              best_parent_rate := 100000000 |}
           rp1_clk_chg_tree_init);
    [ intros [|[|[|j]]]; vm_compute; discriminate
    | vm_compute; discriminate
    | exact Hdet ].
Defined.
